(** * cinder-operator: the CinderAPI pod-spec builder and reconciler

    A shallow embedding of [pkg/cinderapi/statefuleset.go] (the
    [StatefulSet] builder) and of the CinderAPI controller that follows it
    in the same source file ([Reconcile], [reconcileDelete],
    [reconcileInit], [reconcileNormal], [generateServiceConfigMaps],
    [createHashOfInputHashes]).

    Go values are modelled as follows.
    - A Go map is [option (gmap K V)]: [None] is the nil map, [Some ∅] the
      empty one.  Reading a nil map yields the zero value, as in Go.
    - A Go pointer that may be nil is an [option].
    - A Go [error] result is [option error], [None] being [nil].
    - Calls that leave the process (API server, identity service, logger)
      are steps of a trace monad: every call appends one event to the
      trace, and its answer is a function of the trace so far, so the
      outside world may answer the same question differently each time.
      A call is modelled by what it returns; the resource it is handed is
      recorded in the event and stays as the caller left it.
    - Functions of lib-common, controller-runtime and of the operator's
      other packages are fields of [BuilderEnv], [ControllerEnv] and
      [World]; the theorems hold for every choice of them.  Module
      [Fixture] makes one choice, on which the model runs by computation.

    The first part holds the model, the second the properties. *)

From Stdlib Require Import ZArith String List.
From stdpp Require Import base option list strings gmap.

Local Open Scope Z_scope.
Local Open Scope string_scope.
Local Open Scope list_scope.

(** ** Go basics *)

(** A Go map value; [None] is the nil map. *)
Definition GoMap (V : Type) : Type := option (gmap string V).

(** Errors.  [APIStatusError] stands for the API machinery's status errors,
    which carry a reason; [ErrorString] for errors made by [fmt.Errorf]. *)
Inductive error : Type :=
| APIStatusError (reason : string) (message : string)
| ErrorString (message : string).

#[global] Instance error_eq_dec : EqDecision error.
Proof. solve_decision. Defined.

Definition StatusReasonNotFound : string := "NotFound".

(** [k8s_errors.IsNotFound] *)
Definition IsNotFound (err : error) : bool :=
  match err with
  | APIStatusError reason _ => bool_decide (reason = StatusReasonNotFound)
  | ErrorString _ => false
  end.

(** [fmt.Errorf] with the format already expanded. *)
Definition Errorf (message : string) : error := ErrorString message.

Definition ErrorMessage (err : error) : string :=
  match err with
  | APIStatusError _ m => m
  | ErrorString m => m
  end.

(** Two's-complement conversion to [int32]. *)
Definition int32 (z : Z) : Z := (z + 2 ^ 31) mod 2 ^ 32 - 2 ^ 31.

(** [time.Duration] counts nanoseconds. *)
Definition Duration : Type := Z.
Definition Second : Duration := 1000000000.

(** [ctrl.Result] *)
Record Result : Type := mkResult {
  Requeue : bool;
  RequeueAfter : Duration
}.

#[global] Instance Result_eq_dec : EqDecision Result.
Proof. solve_decision. Defined.

(** [ctrl.Result{}] *)
Definition Result_zero : Result :=
  {| Requeue := false; RequeueAfter := 0 |}.

(** ** Kubernetes and library types the code only passes along *)

Class OpaqueTypes : Type := {
  Volume : Type;                (* corev1.Volume *)
  VolumeMount : Type;           (* corev1.VolumeMount *)
  EnvVar : Type;                (* corev1.EnvVar *)
  Setter : Type;                (* env.Setter *)
  ResourceRequirements : Type;  (* corev1.ResourceRequirements *)
  Affinity : Type;              (* corev1.Affinity *)
  ExtraVolMounts : Type;        (* []cinderv1beta1.CinderExtraVolMounts *)
  GenericService : Type;        (* tls.GenericService *)
  TLSService : Type;            (* tls.Service *)
  Condition : Type;             (* condition.Condition *)
  Time : Type;                  (* metav1.Time *)
  Secret : Type;                (* corev1.Secret *)
  AppsDeployment : Type         (* appsv1.Deployment *)
}.

(** ** The CinderAPI resource *)

Section Resource.
Context `{OpaqueTypes}.

Record DebugSpec : Type := {
  Debug_Service : bool
}.

(** [tls.APIService] *)
Record APIService : Type := {
  Public : GenericService;
  Internal : GenericService
}.

(** [tls.API]: the per-endpoint settings and the embedded [tls.Ca]. *)
Record TLSSpec : Type := {
  API : APIService;
  CaBundleSecretName : string
}.

Record PasswordSelector : Type := {
  PasswordSelector_Service : string
}.

Record CinderAPISpec : Type := {
  Debug : DebugSpec;
  TLS : TLSSpec;
  ExtraMounts : ExtraVolMounts;
  Replicas : option Z;
  ContainerImage : string;
  Resources : ResourceRequirements;
  NodeSelector : GoMap string;
  ServiceAccount : string;
  SpecSecret : string;
  ServiceUser : string;
  PasswordSelectors : PasswordSelector;
  CustomServiceConfig : string;
  DefaultConfigOverwrite : GoMap string
}.

Record CinderAPIStatus : Type := {
  Conditions : option (list Condition);
  Hash : GoMap string;
  APIEndpoints : GoMap (GoMap string);
  ServiceIDs : GoMap string;
  ReadyCount : Z
}.

Record CinderAPI : Type := {
  Kind : string;
  Name : string;
  Namespace : string;
  DeletionTimestamp : option Time;
  Finalizers : list string;
  Spec : CinderAPISpec;
  Status : CinderAPIStatus
}.

Definition set_Status (instance : CinderAPI) (st : CinderAPIStatus) : CinderAPI :=
  {| Kind := Kind instance; Name := Name instance;
     Namespace := Namespace instance;
     DeletionTimestamp := DeletionTimestamp instance;
     Finalizers := Finalizers instance; Spec := Spec instance;
     Status := st |}.

Definition set_Finalizers (instance : CinderAPI) (fs : list string) : CinderAPI :=
  {| Kind := Kind instance; Name := Name instance;
     Namespace := Namespace instance;
     DeletionTimestamp := DeletionTimestamp instance;
     Finalizers := fs; Spec := Spec instance;
     Status := Status instance |}.

Definition set_Conditions (st : CinderAPIStatus) (c : option (list Condition)) : CinderAPIStatus :=
  {| Conditions := c; Hash := Hash st; APIEndpoints := APIEndpoints st;
     ServiceIDs := ServiceIDs st; ReadyCount := ReadyCount st |}.

Definition set_Hash (st : CinderAPIStatus) (h : GoMap string) : CinderAPIStatus :=
  {| Conditions := Conditions st; Hash := h; APIEndpoints := APIEndpoints st;
     ServiceIDs := ServiceIDs st; ReadyCount := ReadyCount st |}.

Definition set_APIEndpoints (st : CinderAPIStatus) (e : GoMap (GoMap string)) : CinderAPIStatus :=
  {| Conditions := Conditions st; Hash := Hash st; APIEndpoints := e;
     ServiceIDs := ServiceIDs st; ReadyCount := ReadyCount st |}.

Definition set_ServiceIDs (st : CinderAPIStatus) (ids : GoMap string) : CinderAPIStatus :=
  {| Conditions := Conditions st; Hash := Hash st; APIEndpoints := APIEndpoints st;
     ServiceIDs := ids; ReadyCount := ReadyCount st |}.

Definition set_ReadyCount (st : CinderAPIStatus) (n : Z) : CinderAPIStatus :=
  {| Conditions := Conditions st; Hash := Hash st; APIEndpoints := APIEndpoints st;
     ServiceIDs := ServiceIDs st; ReadyCount := n |}.

End Resource.

(** ** Package [cinderapi]: the StatefulSet builder *)

Module cinderapi.

(** [service.Endpoint], the two values the builder ranges over. *)
Inductive Endpoint : Type :=
| EndpointInternal
| EndpointPublic.

(** [corev1.URIScheme] is a string type; its zero value is the empty
    string. *)
Definition URIScheme : Type := string.
Definition URISchemeHTTPS : URIScheme := "HTTPS".

Inductive IntOrStringType : Type :=
| IntType
| StringType.

(** [intstr.IntOrString] *)
Record IntOrString : Type := {
  IntOrString_Type : IntOrStringType;
  IntVal : Z;
  StrVal : string
}.

(** [corev1.ExecAction] *)
Record ExecAction : Type := {
  ExecCommand : list string
}.

(** [corev1.HTTPGetAction], the fields the builder sets. *)
Record HTTPGetAction : Type := {
  Path : string;
  Port : IntOrString;
  Scheme : URIScheme
}.

Definition set_Scheme (h : HTTPGetAction) (s : URIScheme) : HTTPGetAction :=
  {| Path := Path h; Port := Port h; Scheme := s |}.

(** [corev1.Probe] with its embedded handler. *)
Record Probe : Type := {
  Exec : option ExecAction;
  HTTPGet : option HTTPGetAction;
  TimeoutSeconds : Z;
  PeriodSeconds : Z;
  InitialDelaySeconds : Z
}.

Definition set_Exec (p : Probe) (e : option ExecAction) : Probe :=
  {| Exec := e; HTTPGet := HTTPGet p; TimeoutSeconds := TimeoutSeconds p;
     PeriodSeconds := PeriodSeconds p;
     InitialDelaySeconds := InitialDelaySeconds p |}.

Definition set_HTTPGet (p : Probe) (h : option HTTPGetAction) : Probe :=
  {| Exec := Exec p; HTTPGet := h; TimeoutSeconds := TimeoutSeconds p;
     PeriodSeconds := PeriodSeconds p;
     InitialDelaySeconds := InitialDelaySeconds p |}.

Record ObjectMeta : Type := {
  Meta_Name : string;
  Meta_Namespace : string;
  Meta_Labels : GoMap string;
  Meta_Annotations : GoMap string
}.

Record SecurityContext : Type := {
  RunAsUser : option Z
}.

Section Objects.
Context `{OpaqueTypes}.

Record Container : Type := {
  Container_Name : string;
  Command : list string;
  Args : list string;
  Image : string;
  SecurityContext_ : option SecurityContext;
  Env : list EnvVar;
  VolumeMounts : list VolumeMount;
  Container_Resources : ResourceRequirements;
  ReadinessProbe : option Probe;
  LivenessProbe : option Probe
}.

Record PodSpec : Type := {
  ServiceAccountName : string;
  Containers : list Container;
  Pod_Affinity : option Affinity;
  Pod_NodeSelector : GoMap string;
  Volumes : list Volume
}.

Record PodTemplateSpec : Type := {
  Template_ObjectMeta : ObjectMeta;
  Template_Spec : PodSpec
}.

Record LabelSelector : Type := {
  MatchLabels : GoMap string
}.

Record StatefulSetSpec : Type := {
  Selector : option LabelSelector;
  Sts_Replicas : option Z;
  Template : PodTemplateSpec
}.

Record StatefulSetObj : Type := {
  Sts_ObjectMeta : ObjectMeta;
  Sts_Spec : StatefulSetSpec
}.

(** What the builder takes from the rest of the operator and from
    lib-common: constants, volume helpers and the TLS settings' methods. *)
Class BuilderEnv : Type := {
  DebugCommand : string;                          (* common.DebugCommand *)
  CinderPublicPort : Z;                           (* cinder.CinderPublicPort *)
  LogFile : string;
  ComponentName : string;
  GetOwningCinderName : CinderAPI -> string;      (* cinder.GetOwningCinderName *)
  GetPodAffinity : string -> option Affinity;     (* cinder.GetPodAffinity *)
  GetVolumes : string -> string -> ExtraVolMounts -> list Volume;
  GetVolumeMounts : ExtraVolMounts -> list VolumeMount;
  GetLogVolumeMount : VolumeMount;
  Ca_CreateVolume : TLSSpec -> Volume;            (* tls.Ca.CreateVolume *)
  Ca_CreateVolumeMounts : TLSSpec -> list VolumeMount;
  Enabled : APIService -> Endpoint -> bool;       (* tls.APIService.Enabled *)
  ToService : GenericService -> error + TLSService;  (* (svc, nil) or (nil, err) *)
  Service_CreateVolume : TLSService -> string -> Volume;
  Service_CreateVolumeMounts : TLSService -> string -> list VolumeMount;
  Endpoint_String : Endpoint -> string;           (* service.Endpoint.String *)
  SetValue : string -> Setter;                    (* env.SetValue *)
  MergeEnvs : list EnvVar -> gmap string Setter -> list EnvVar
}.

Context `{BuilderEnv}.

Definition ServiceCommand : string :=
  "/usr/local/bin/kolla_set_configs && /usr/local/bin/kolla_start".

(** The [switch endpt] inside the loop. *)
Definition tlsEndptCfg (instance : CinderAPI) (endpt : Endpoint) : GenericService :=
  match endpt with
  | EndpointPublic => Public (API (TLS (Spec instance)))
  | EndpointInternal => Internal (API (TLS (Spec instance)))
  end.

(** The loop over the internal and the public endpoint: for each one with
    TLS enabled, render its service and append its volume and mounts; the
    first rendering error ends the builder. *)
Fixpoint tlsEndpointVolumes (instance : CinderAPI) (endpts : list Endpoint)
    (volumes : list Volume) (volumeMounts : list VolumeMount)
    : error + (list Volume * list VolumeMount) :=
  match endpts with
  | [] => inr (volumes, volumeMounts)
  | endpt :: rest =>
      if Enabled (API (TLS (Spec instance))) endpt then
        match ToService (tlsEndptCfg instance endpt) with
        | inl err => inl err
        | inr svc =>
            tlsEndpointVolumes instance rest
              (volumes ++ [Service_CreateVolume svc (Endpoint_String endpt)])
              (volumeMounts ++ Service_CreateVolumeMounts svc (Endpoint_String endpt))
        end
      else tlsEndpointVolumes instance rest volumes volumeMounts
  end.

(** [StatefulSet].  The liveness and the readiness probe share one handler
    object: [readinessProbe.Exec = livenessProbe.Exec] and
    [readinessProbe.HTTPGet = livenessProbe.HTTPGet] copy the pointer, so
    the two scheme assignments write the same [HTTPGetAction] ([httpGet]
    below), which both probes then show. *)
Definition StatefulSet (instance : CinderAPI) (configHash : string)
    (labels annotations : GoMap string)
    : option StatefulSetObj * option error :=
  let runAsUser := 0 in
  let livenessProbe :=
    {| Exec := None; HTTPGet := None;
       TimeoutSeconds := 5; PeriodSeconds := 3; InitialDelaySeconds := 5 |} in
  let readinessProbe :=
    {| Exec := None; HTTPGet := None;
       TimeoutSeconds := 5; PeriodSeconds := 5; InitialDelaySeconds := 5 |} in
  let args := ["-c"] in
  let '(args, livenessProbe, readinessProbe) :=
    if Debug_Service (Debug (Spec instance)) then
      let args := args ++ [DebugCommand] in
      let exec := {| ExecCommand := ["/bin/true"] |} in
      let livenessProbe := set_Exec livenessProbe (Some exec) in
      let readinessProbe := set_Exec readinessProbe (Exec livenessProbe) in
      (args, livenessProbe, readinessProbe)
    else
      let args := args ++ [ServiceCommand] in
      let httpGet :=
        {| Path := "/healthcheck";
           Port := {| IntOrString_Type := IntType;
                      IntVal := int32 CinderPublicPort;
                      StrVal := "" |};
           Scheme := "" |} in
      let httpGet :=
        if Enabled (API (TLS (Spec instance))) EndpointPublic then
          let httpGet := set_Scheme httpGet URISchemeHTTPS in
          set_Scheme httpGet URISchemeHTTPS
        else httpGet in
      let livenessProbe := set_HTTPGet livenessProbe (Some httpGet) in
      let readinessProbe := set_HTTPGet readinessProbe (HTTPGet livenessProbe) in
      (args, livenessProbe, readinessProbe) in
  (* create Volume and VolumeMounts *)
  let volumes :=
    GetVolumes (GetOwningCinderName instance) (Name instance)
      (ExtraMounts (Spec instance)) in
  let volumeMounts := GetVolumeMounts (ExtraMounts (Spec instance)) in
  (* add CA cert if defined *)
  let '(volumes, volumeMounts) :=
    if bool_decide (CaBundleSecretName (TLS (Spec instance)) <> "") then
      (volumes ++ [Ca_CreateVolume (TLS (Spec instance))],
       volumeMounts ++ Ca_CreateVolumeMounts (TLS (Spec instance)))
    else (volumes, volumeMounts) in
  match tlsEndpointVolumes instance [EndpointInternal; EndpointPublic]
          volumes volumeMounts with
  | inl err => (None, Some err)
  | inr (volumes, volumeMounts) =>
      let envVars : gmap string Setter := ∅ in
      let envVars := <["KOLLA_CONFIG_STRATEGY" := SetValue "COPY_ALWAYS"]> envVars in
      let envVars := <["CONFIG_HASH" := SetValue configHash]> envVars in
      let statefulset :=
        {| Sts_ObjectMeta :=
             {| Meta_Name := Name instance;
                Meta_Namespace := Namespace instance;
                Meta_Labels := labels;
                Meta_Annotations := None |};
           Sts_Spec :=
             {| Selector := Some {| MatchLabels := labels |};
                Sts_Replicas := Replicas (Spec instance);
                Template :=
                  {| Template_ObjectMeta :=
                       {| Meta_Name := ""; Meta_Namespace := "";
                          Meta_Labels := labels;
                          Meta_Annotations := annotations |};
                     Template_Spec :=
                       {| ServiceAccountName := ServiceAccount (Spec instance);
                          Containers :=
                            [ {| Container_Name := Name instance +:+ "-log";
                                 Command := ["/usr/bin/dumb-init"];
                                 Args := ["--single-child"; "--"; "/usr/bin/tail";
                                          "-n+1"; "-F"; LogFile];
                                 Image := ContainerImage (Spec instance);
                                 SecurityContext_ :=
                                   Some {| RunAsUser := Some runAsUser |};
                                 Env := MergeEnvs [] envVars;
                                 VolumeMounts := [GetLogVolumeMount];
                                 Container_Resources := Resources (Spec instance);
                                 ReadinessProbe := None;
                                 LivenessProbe := None |};
                              {| Container_Name := ComponentName;
                                 Command := ["/bin/bash"];
                                 Args := args;
                                 Image := ContainerImage (Spec instance);
                                 SecurityContext_ :=
                                   Some {| RunAsUser := Some runAsUser |};
                                 Env := MergeEnvs [] envVars;
                                 VolumeMounts := volumeMounts;
                                 Container_Resources := Resources (Spec instance);
                                 ReadinessProbe := Some readinessProbe;
                                 LivenessProbe := Some livenessProbe |} ];
                          Pod_Affinity := GetPodAffinity ComponentName;
                          Pod_NodeSelector := NodeSelector (Spec instance);
                          Volumes := volumes |} |} |} |} in
      (Some statefulset, None)
  end.

(** The service container is the second one of the pod. *)
Definition serviceContainer (sts : StatefulSetObj) : option Container :=
  Containers (Template_Spec (Template (Sts_Spec sts))) !! 1%nat.

Definition renderedLivenessProbe (sts : StatefulSetObj) : option Probe :=
  c ← serviceContainer sts; LivenessProbe c.

Definition renderedReadinessProbe (sts : StatefulSetObj) : option Probe :=
  c ← serviceContainer sts; ReadinessProbe c.

(** The HTTP handler the two probes end up with when the debug flag is
    off, as the public TLS setting decides its scheme. *)
Definition expectedHTTPGet (instance : CinderAPI) : HTTPGetAction :=
  {| Path := "/healthcheck";
     Port := {| IntOrString_Type := IntType;
                IntVal := int32 CinderPublicPort; StrVal := "" |};
     Scheme := if Enabled (API (TLS (Spec instance))) EndpointPublic
               then URISchemeHTTPS else "" |}.

End Objects.

End cinderapi.

(** ** Package [controllers]: the CinderAPI reconciler *)

Module controllers.

(** [endpoint.Endpoint] *)
Inductive Endpoint : Type :=
| EndpointAdmin
| EndpointPublic
| EndpointInternal.

(** [endpoint.EndpointData] *)
Record EndpointData : Type := {
  Port : Z;
  Path : string
}.

(** [types.NamespacedName] *)
Record NamespacedName : Type := {
  Req_Namespace : string;
  Req_Name : string
}.

(** [keystonev1.KeystoneServiceSpec] *)
Record KeystoneServiceSpec : Type := {
  ServiceType : string;
  ServiceName_ : string;
  ServiceDescription : string;
  Enabled : bool;
  KS_APIEndpoints : GoMap string;
  KS_ServiceUser : string;
  KS_Secret : string;
  KS_PasswordSelector : string
}.

(** The object [keystone.NewKeystoneService] returns: its arguments. *)
Record KeystoneService : Type := {
  ks_service : KeystoneServiceSpec;
  ks_namespace : string;
  ks_labels : GoMap string;
  ks_timeout : Z
}.

Definition NewKeystoneService (spec : KeystoneServiceSpec) (namespace : string)
    (labels : GoMap string) (timeout : Z) : KeystoneService :=
  {| ks_service := spec; ks_namespace := namespace; ks_labels := labels;
     ks_timeout := timeout |}.

(** [util.Template], the fields the controller fills. *)
Record Template : Type := {
  Template_Name : string;
  Template_Namespace : string;
  Template_Type : string;
  InstanceType : string;
  CustomData : GoMap string;
  Template_Labels : GoMap string
}.

Section Controller.
Context `{OpaqueTypes}.

(** [helper.Helper], as far as the controller reads it. *)
Record Helper : Type := {
  GetFinalizer : string;
  GetBeforeObject : CinderAPI;
  GetChanges : gmap string bool
}.

(** The object [deployment.NewDeployment] returns: its arguments. *)
Record Deployment : Type := {
  depl_deployment : AppsDeployment;
  depl_timeout : Z
}.

Definition NewDeployment (d : AppsDeployment) (timeout : Z) : Deployment :=
  {| depl_deployment := d; depl_timeout := timeout |}.

(** One entry per call that leaves the reconciler. *)
Inductive Event : Type :=
| EvLogInfo (msg : string)
| EvLogError (err : error) (msg : string) (instance : CinderAPI)
| EvClientGet (key : NamespacedName)
| EvNewHelper (instance : CinderAPI)
| EvSetAfter (instance : CinderAPI)
| EvClientUpdate (instance : CinderAPI)
| EvStatusUpdate (instance : CinderAPI)
| EvStatusPatch (instance before : CinderAPI)
| EvGetSecret (name namespace : string)
| EvEnsureConfigMaps (instance : CinderAPI) (cms : list Template)
    (envVars : gmap string Setter)
| EvGetConfigMaps (instance : CinderAPI) (configMaps : list string)
    (namespace : string) (envVars : gmap string Setter)
| EvExposeEndpoints (serviceName : string) (labels : GoMap string)
    (data : list (Endpoint * EndpointData))
| EvKeystoneCreateOrPatch (ks : KeystoneService)
| EvKeystoneDelete (ks : KeystoneService)
| EvDeploymentCreateOrPatch (depl : Deployment).

Definition Trace : Type := list Event.

(** Constants and pure helpers of the operator's other packages and of
    lib-common. *)
Class ControllerEnv : Type := {
  ServiceName : string;                 (* cinder.ServiceName *)
  ServiceTypeV2 : string;
  ServiceNameV2 : string;
  ServiceTypeV3 : string;
  ServiceNameV3 : string;
  CinderAdminPort : Z;
  CinderPublicPort : Z;
  CinderInternalPort : Z;
  AppSelector : string;                 (* common.AppSelector *)
  CustomServiceConfigFileName : string; (* common.CustomServiceConfigFileName *)
  InputHashName : string;               (* common.InputHashName *)
  TemplateTypeConfig : string;          (* util.TemplateTypeConfig *)
  Time_IsZero : Time -> bool;           (* metav1.Time.IsZero on a non-nil time *)
  Secret_Name : Secret -> string;
  GetOwningCinderName : CinderAPI -> string;
  GetGroupLabel : string -> string;     (* labels.GetGroupLabel *)
  GetLabels : CinderAPI -> string -> GoMap string -> GoMap string;
  SetValue : string -> Setter;          (* env.SetValue *)
  MergeEnvs : list EnvVar -> gmap string Setter -> list EnvVar;
  ObjectHash : list EnvVar -> string * option error;   (* util.ObjectHash *)
  (* util.SetHash: the map it returns and whether it changed.  It writes
     into the map it is given, so a non-nil argument and the returned map
     are one object. *)
  SetHash : GoMap string -> string -> string -> gmap string string * bool;
  cinderapi_Deployment : CinderAPI -> string -> GoMap string -> AppsDeployment
}.

(** [controllerutil.AddFinalizer]: appends the finalizer unless the
    resource already lists it. *)
Definition AddFinalizer (instance : CinderAPI) (finalizer : string) : CinderAPI :=
  if bool_decide (finalizer ∈ Finalizers instance) then instance
  else set_Finalizers instance (Finalizers instance ++ [finalizer]).

(** [controllerutil.RemoveFinalizer]: drops every occurrence of the
    finalizer. *)
Definition RemoveFinalizer (instance : CinderAPI) (finalizer : string) : CinderAPI :=
  set_Finalizers instance
    (filter (fun f => f <> finalizer) (Finalizers instance)).

(** The answers of the API server, the identity-service client and the
    other collaborators.  Each one sees the trace up to the call. *)
Record World : Type := {
  Client_Get : Trace -> NamespacedName -> error + CinderAPI;
  Helper_New : Trace -> CinderAPI -> error + Helper;
  Helper_SetAfter : Trace -> Helper -> CinderAPI -> Helper * option error;
  Client_Update : Trace -> CinderAPI -> option error;
  Status_Update : Trace -> CinderAPI -> option error;
  Status_Patch : Trace -> CinderAPI -> CinderAPI -> option error;
  GetSecret : Trace -> string -> string -> error + (Secret * string);
  EnsureConfigMaps : Trace -> CinderAPI -> list Template ->
    gmap string Setter -> gmap string Setter * option error;
  GetConfigMaps : Trace -> CinderAPI -> list string -> string ->
    gmap string Setter -> gmap string Setter * option error;
  ExposeEndpoints : Trace -> Helper -> string -> GoMap string ->
    list (Endpoint * EndpointData) -> GoMap string * Result * option error;
  (* the service id read back with GetServiceID, the result and the error *)
  KeystoneService_CreateOrPatch : Trace -> KeystoneService -> Helper ->
    string * Result * option error;
  KeystoneService_Delete : Trace -> KeystoneService -> Helper -> option error;
  (* Status.ReadyReplicas of the applied deployment, the result and the error *)
  Deployment_CreateOrPatch : Trace -> Deployment -> Helper ->
    Z * Result * option error
}.

(** *** The trace monad *)

Definition M (A : Type) : Type := Trace -> A * Trace.

Definition ret {A : Type} (a : A) : M A := fun tr => (a, tr).

Definition bind {A B : Type} (m : M A) (k : A -> M B) : M B :=
  fun tr => let (a, tr') := m tr in k a tr'.

(** An outside call: answered from the trace so far, then recorded. *)
Definition call {A : Type} (ev : Event) (answer : Trace -> A) : M A :=
  fun tr => (answer tr, tr ++ [ev]).

Definition LogInfo (msg : string) : M unit :=
  call (EvLogInfo msg) (fun _ => tt).

Definition LogErrorForObject (err : error) (msg : string) (instance : CinderAPI)
    : M unit :=
  call (EvLogError err msg instance) (fun _ => tt).

Notation "'perform' x ':=' c 'in' k" := (bind c (fun x => k))
  (at level 10, x pattern, c at level 100, k at level 200, only parsing).

(** *** The reconciler *)

Context `{ControllerEnv}.
Variable w : World.

(** The two entries of [keystoneServices]. *)
Definition keystoneServiceV2 : gmap string string :=
  {[ "type" := ServiceTypeV2; "name" := ServiceNameV2;
     "desc" := "Cinder V2 Service" ]}.

Definition keystoneServiceV3 : gmap string string :=
  {[ "type" := ServiceTypeV3; "name" := ServiceNameV3;
     "desc" := "Cinder V3 Service" ]}.

Definition keystoneServices : list (gmap string string) :=
  [ keystoneServiceV2; keystoneServiceV3 ].

(** [ksSvc["key"]] *)
Definition field (ksSvc : gmap string string) (key : string) : string :=
  default "" (ksSvc !! key).

(** [instance.Status.APIEndpoints[name]]: nil when the map is nil or has no
    such entry. *)
Definition endpointsOf (instance : CinderAPI) (name : string) : GoMap string :=
  match APIEndpoints (Status instance) with
  | None => None
  | Some g => default None (g !! name)
  end.

Definition keystoneServiceSpec (instance : CinderAPI) (ksSvc : gmap string string)
    : KeystoneServiceSpec :=
  {| ServiceType := field ksSvc "type";
     ServiceName_ := field ksSvc "name";
     ServiceDescription := field ksSvc "desc";
     Enabled := true;
     KS_APIEndpoints := endpointsOf instance (field ksSvc "name");
     KS_ServiceUser := ServiceUser (Spec instance);
     KS_Secret := SpecSecret (Spec instance);
     KS_PasswordSelector := PasswordSelector_Service (PasswordSelectors (Spec instance)) |}.

(** The loop of [reconcileDelete]: the first failing [Delete] ends it with
    that error. *)
Fixpoint deleteKeystoneServices (svcs : list (gmap string string))
    (instance : CinderAPI) (helper : Helper) : M (option error) :=
  match svcs with
  | [] => ret None
  | ksSvc :: rest =>
      let ksSvcSpec := keystoneServiceSpec instance ksSvc in
      let ksSvcObj := NewKeystoneService ksSvcSpec (Namespace instance) (Some ∅) 10 in
      perform err := call (EvKeystoneDelete ksSvcObj)
                       (fun tr => KeystoneService_Delete w tr ksSvcObj helper) in
      match err with
      | Some e => ret (Some e)
      | None => deleteKeystoneServices rest instance helper
      end
  end.

(** [reconcileDelete]; the instance it returns is the one the caller's
    pointer shows afterwards. *)
Definition reconcileDelete (instance : CinderAPI) (helper : Helper)
    : M (CinderAPI * (Result * option error)) :=
  perform _ := LogInfo "Reconciling Service delete" in
  (* It's possible to get here before the endpoints have been set in the
     status, so check for this *)
  perform err :=
    (if bool_decide (APIEndpoints (Status instance) <> None)
     then deleteKeystoneServices keystoneServices instance helper
     else ret None) in
  match err with
  | Some e => ret (instance, (Result_zero, Some e))
  | None =>
      (* Service is deleted so remove the finalizer. *)
      let instance := RemoveFinalizer instance (GetFinalizer helper) in
      perform _ := LogInfo "Reconciled Service delete successfully" in
      perform err := call (EvClientUpdate instance)
                       (fun tr => Client_Update w tr instance) in
      match err with
      | Some e =>
          if negb (IsNotFound e)
          then ret (instance, (Result_zero, Some e))
          else ret (instance, (Result_zero, None))
      | None => ret (instance, (Result_zero, None))
      end
  end.

Definition endpointData (version : string) : list (Endpoint * EndpointData) :=
  [ (EndpointAdmin,
     {| Port := CinderAdminPort; Path := "/" +:+ version +:+ "/%(project_id)s" |});
    (EndpointPublic,
     {| Port := CinderPublicPort; Path := "/" +:+ version +:+ "/%(project_id)s" |});
    (EndpointInternal,
     {| Port := CinderInternalPort; Path := "/" +:+ version +:+ "/%(project_id)s" |}) ].

(** [instance.Status.APIEndpoints[name] = endpoints] on a non-nil map; the
    nil case is the map made by the check before the first assignment. *)
Definition setAPIEndpoints (instance : CinderAPI) (name : string)
    (endpoints : GoMap string) : CinderAPI :=
  set_Status instance
    (set_APIEndpoints (Status instance)
       (Some (<[name := endpoints]> (default ∅ (APIEndpoints (Status instance)))))).

(** [instance.Status.ServiceIDs[name] = id], likewise. *)
Definition setServiceID (instance : CinderAPI) (name id : string) : CinderAPI :=
  set_Status instance
    (set_ServiceIDs (Status instance)
       (Some (<[name := id]> (default ∅ (ServiceIDs (Status instance)))))).

(** The loop of [reconcileInit]: [Some] is a return from inside the loop. *)
Fixpoint registerKeystoneServices (svcs : list (gmap string string))
    (instance : CinderAPI) (helper : Helper) (serviceLabels : GoMap string)
    : M (CinderAPI * option (Result * option error)) :=
  match svcs with
  | [] => ret (instance, None)
  | ksSvc :: rest =>
      let ksSvcSpec := keystoneServiceSpec instance ksSvc in
      let ksSvcObj := NewKeystoneService ksSvcSpec (Namespace instance) serviceLabels 10 in
      perform (serviceID, ctrlResult, err) :=
        call (EvKeystoneCreateOrPatch ksSvcObj)
          (fun tr => KeystoneService_CreateOrPatch w tr ksSvcObj helper) in
      match err with
      | Some e => ret (instance, Some (ctrlResult, Some e))
      | None =>
          if bool_decide (ctrlResult <> Result_zero)
          then ret (instance, Some (ctrlResult, None))
          else
            let instance := setServiceID instance (field ksSvc "name") serviceID in
            registerKeystoneServices rest instance helper serviceLabels
      end
  end.

Definition reconcileInit (instance : CinderAPI) (helper : Helper)
    (serviceLabels : GoMap string)
    : M (CinderAPI * (Result * option error)) :=
  perform _ := LogInfo "Reconciling Service init" in
  (* V2 *)
  let data := endpointData "v2" in
  perform (apiEndpointsV2, ctrlResult, err) :=
    call (EvExposeEndpoints ServiceName serviceLabels data)
      (fun tr => ExposeEndpoints w tr helper ServiceName serviceLabels data) in
  match err with
  | Some e => ret (instance, (ctrlResult, Some e))
  | None =>
  if bool_decide (ctrlResult <> Result_zero) then ret (instance, (ctrlResult, None))
  else
  let instance :=
    match APIEndpoints (Status instance) with
    | None => set_Status instance (set_APIEndpoints (Status instance) (Some ∅))
    | Some _ => instance
    end in
  let instance := setAPIEndpoints instance ServiceNameV2 apiEndpointsV2 in
  (* V3 *)
  let data := endpointData "v3" in
  perform (apiEndpointsV3, ctrlResult, err) :=
    call (EvExposeEndpoints ServiceName serviceLabels data)
      (fun tr => ExposeEndpoints w tr helper ServiceName serviceLabels data) in
  match err with
  | Some e => ret (instance, (ctrlResult, Some e))
  | None =>
  if bool_decide (ctrlResult <> Result_zero) then ret (instance, (ctrlResult, None))
  else
  let instance := setAPIEndpoints instance ServiceNameV3 apiEndpointsV3 in
  (* create users and endpoints *)
  perform secret :=
    call (EvGetSecret (SpecSecret (Spec instance)) (Namespace instance))
      (fun tr => GetSecret w tr (SpecSecret (Spec instance)) (Namespace instance)) in
  match secret with
  | inl e =>
      if IsNotFound e
      then ret (instance,
                ({| Requeue := false; RequeueAfter := Second * 10 |},
                 Some (Errorf ("OpenStack secret " +:+ SpecSecret (Spec instance)
                               +:+ " not found"))))
      else ret (instance, (Result_zero, Some e))
  | inr _ =>
  let instance :=
    match ServiceIDs (Status instance) with
    | None => set_Status instance (set_ServiceIDs (Status instance) (Some ∅))
    | Some _ => instance
    end in
  perform (instance, returned) :=
    registerKeystoneServices keystoneServices instance helper serviceLabels in
  match returned with
  | Some res => ret (instance, res)
  | None =>
      perform _ := LogInfo "Reconciled Service init successfully" in
      ret (instance, (Result_zero, None))
  end
  end
  end
  end.

Definition reconcileUpdate (instance : CinderAPI) (helper : Helper)
    : M (Result * option error) :=
  perform _ := LogInfo "Reconciling Service update" in
  perform _ := LogInfo "Reconciled Service update successfully" in
  ret (Result_zero, None).

Definition reconcileUpgrade (instance : CinderAPI) (helper : Helper)
    : M (Result * option error) :=
  perform _ := LogInfo "Reconciling Service upgrade" in
  perform _ := LogInfo "Reconciled Service upgrade successfully" in
  ret (Result_zero, None).

(** The templates [generateServiceConfigMaps] hands to the ensurer: the
    part of the function before the call. *)
Definition serviceConfigTemplates (instance : CinderAPI) : list Template :=
  let cmLabels := GetLabels instance (GetGroupLabel ServiceName) (Some ∅) in
  let customData : gmap string string :=
    {[ CustomServiceConfigFileName := CustomServiceConfig (Spec instance) ]} in
  (* for key, data := range instance.Spec.DefaultConfigOverwrite *)
  let customData :=
    map_fold (fun key data acc => <[key := data]> acc) customData
      (default ∅ (DefaultConfigOverwrite (Spec instance))) in
  let customData :=
    <[CustomServiceConfigFileName := CustomServiceConfig (Spec instance)]> customData in
  let cms :=
    [ {| Template_Name := Name instance +:+ "-config-data";
         Template_Namespace := Namespace instance;
         Template_Type := TemplateTypeConfig;
         InstanceType := Kind instance;
         CustomData := Some customData;
         Template_Labels := cmLabels |} ] in
  cms.

(** [generateServiceConfigMaps]; [envVars] is passed by pointer, so the
    map the ensurer leaves behind is returned with the error. *)
Definition generateServiceConfigMaps (h : Helper) (instance : CinderAPI)
    (envVars : gmap string Setter) : M (gmap string Setter * option error) :=
  let cms := serviceConfigTemplates instance in
  perform (envVars, err) :=
    call (EvEnsureConfigMaps instance cms envVars)
      (fun tr => EnsureConfigMaps w tr instance cms envVars) in
  match err with
  | Some _ => ret (envVars, None)
  | None => ret (envVars, None)
  end.

(** [createHashOfInputHashes].  [util.SetHash] writes into the map it is
    given, so a non-nil [Status.Hash] already shows the returned map before
    the assignment under [changed]. *)
Definition createHashOfInputHashes (instance : CinderAPI)
    (envVars : gmap string Setter) : M (CinderAPI * (string * option error)) :=
  let mergedMapVars := MergeEnvs [] envVars in
  let '(hash, err) := ObjectHash mergedMapVars in
  match err with
  | Some e => ret (instance, (hash, Some e))
  | None =>
      let '(hashMap, changed) := SetHash (Hash (Status instance)) InputHashName hash in
      let instance :=
        match Hash (Status instance) with
        | Some _ => set_Status instance (set_Hash (Status instance) (Some hashMap))
        | None => instance
        end in
      if changed then
        let instance := set_Status instance (set_Hash (Status instance) (Some hashMap)) in
        perform err := call (EvStatusUpdate instance)
                         (fun tr => Status_Update w tr instance) in
        match err with
        | Some e => ret (instance, (hash, Some e))
        | None =>
            perform _ := LogInfo ("Input maps hash " +:+ InputHashName +:+ " - " +:+ hash) in
            ret (instance, (hash, None))
        end
      else ret (instance, (hash, None))
  end.

Definition reconcileNormal (instance : CinderAPI) (helper : Helper)
    : M (CinderAPI * (Result * option error)) :=
  perform _ := LogInfo "Reconciling Service" in
  (* If the service object doesn't have our finalizer, add it. *)
  let instance := AddFinalizer instance (GetFinalizer helper) in
  (* Register the finalizer immediately to avoid orphaning resources on delete *)
  perform err := call (EvClientUpdate instance)
                   (fun tr => Client_Update w tr instance) in
  match err with
  | Some e => ret (instance, (Result_zero, Some e))
  | None =>
  (* ConfigMap *)
  let configMapVars : gmap string Setter := ∅ in
  (* check for required OpenStack secret *)
  perform secret :=
    call (EvGetSecret (SpecSecret (Spec instance)) (Namespace instance))
      (fun tr => GetSecret w tr (SpecSecret (Spec instance)) (Namespace instance)) in
  match secret with
  | inl e =>
      if IsNotFound e
      then ret (instance,
                ({| Requeue := false; RequeueAfter := Second * 10 |},
                 Some (Errorf ("OpenStack secret " +:+ SpecSecret (Spec instance)
                               +:+ " not found"))))
      else ret (instance, (Result_zero, Some e))
  | inr (ospSecret, hash) =>
  let configMapVars := <[Secret_Name ospSecret := SetValue hash]> configMapVars in
  (* create custom Configmap for this cinder volume service *)
  perform (configMapVars, err) :=
    generateServiceConfigMaps helper instance configMapVars in
  match err with
  | Some e => ret (instance, (Result_zero, Some e))
  | None =>
  (* check for required Cinder config maps *)
  let parentCinderName := GetOwningCinderName instance in
  let configMaps :=
    [ parentCinderName +:+ "-scripts"; parentCinderName +:+ "-config-data" ] in
  perform (configMapVars, err) :=
    call (EvGetConfigMaps instance configMaps (Namespace instance) configMapVars)
      (fun tr => GetConfigMaps w tr instance configMaps (Namespace instance)
                   configMapVars) in
  match err with
  | Some e =>
      if IsNotFound e
      then ret (instance,
                ({| Requeue := false; RequeueAfter := Second * 10 |},
                 Some (Errorf ("Could not find all config maps for parent Cinder CR "
                               +:+ parentCinderName))))
      else ret (instance, (Result_zero, Some e))
  | None =>
  (* create hash over all the different input resources *)
  perform (instance, (inputHash, err)) :=
    createHashOfInputHashes instance configMapVars in
  match err with
  | Some e => ret (instance, (Result_zero, Some e))
  | None =>
  let serviceLabels : GoMap string := Some {[ AppSelector := ServiceName ]} in
  (* Handle service init *)
  perform (instance, (ctrlResult, err)) :=
    reconcileInit instance helper serviceLabels in
  match err with
  | Some e => ret (instance, (ctrlResult, Some e))
  | None =>
  if bool_decide (ctrlResult <> Result_zero) then ret (instance, (ctrlResult, None))
  else
  (* Handle service update *)
  perform (ctrlResult, err) := reconcileUpdate instance helper in
  match err with
  | Some e => ret (instance, (ctrlResult, Some e))
  | None =>
  if bool_decide (ctrlResult <> Result_zero) then ret (instance, (ctrlResult, None))
  else
  (* Handle service upgrade *)
  perform (ctrlResult, err) := reconcileUpgrade instance helper in
  match err with
  | Some e => ret (instance, (ctrlResult, Some e))
  | None =>
  if bool_decide (ctrlResult <> Result_zero) then ret (instance, (ctrlResult, None))
  else
  (* Define a new Deployment object *)
  let depl :=
    NewDeployment (cinderapi_Deployment instance inputHash serviceLabels) 5 in
  perform (readyReplicas, ctrlResult, err) :=
    call (EvDeploymentCreateOrPatch depl)
      (fun tr => Deployment_CreateOrPatch w tr depl helper) in
  match err with
  | Some e => ret (instance, (ctrlResult, Some e))
  | None =>
  if bool_decide (ctrlResult <> Result_zero) then ret (instance, (ctrlResult, None))
  else
  let instance :=
    set_Status instance (set_ReadyCount (Status instance) readyReplicas) in
  perform _ := LogInfo "Reconciled Service successfully" in
  ret (instance, (Result_zero, None))
  end end end end end end end end end.

(** The four checks at the head of [Reconcile]. *)
Definition initStatus (instance : CinderAPI) : CinderAPI :=
  let instance :=
    match Conditions (Status instance) with
    | None => set_Status instance (set_Conditions (Status instance) (Some []))
    | Some _ => instance
    end in
  let instance :=
    match Hash (Status instance) with
    | None => set_Status instance (set_Hash (Status instance) (Some ∅))
    | Some _ => instance
    end in
  let instance :=
    match APIEndpoints (Status instance) with
    | None => set_Status instance (set_APIEndpoints (Status instance) (Some ∅))
    | Some _ => instance
    end in
  let instance :=
    match ServiceIDs (Status instance) with
    | None => set_Status instance (set_ServiceIDs (Status instance) (Some ∅))
    | Some _ => instance
    end in
  instance.

(** [instance.DeletionTimestamp.IsZero()]: true on a nil time. *)
Definition DeletionTimestamp_IsZero (instance : CinderAPI) : bool :=
  match DeletionTimestamp instance with
  | None => true
  | Some t => Time_IsZero t
  end.

(** The function [Reconcile] defers: it runs after the handler returned and
    cannot change the returned values. *)
Definition deferredStatusPatch (instance : CinderAPI) (helper : Helper) : M unit :=
  perform (helper, err) :=
    call (EvSetAfter instance) (fun tr => Helper_SetAfter w tr helper instance) in
  perform _ :=
    match err with
    | Some e => LogErrorForObject e "Set after and calc patch/diff" instance
    | None => ret tt
    end in
  if default false (GetChanges helper !! "status") then
    perform err :=
      call (EvStatusPatch instance (GetBeforeObject helper))
        (fun tr => Status_Patch w tr instance (GetBeforeObject helper)) in
    match err with
    | Some e =>
        if negb (IsNotFound e)
        then LogErrorForObject e "Update status" instance
        else ret tt
    | None => ret tt
    end
  else ret tt.

Definition Reconcile (req : NamespacedName) : M (Result * option error) :=
  (* Fetch the CinderAPI instance *)
  perform fetched := call (EvClientGet req) (fun tr => Client_Get w tr req) in
  match fetched with
  | inl e =>
      if IsNotFound e then ret (Result_zero, None) else ret (Result_zero, Some e)
  | inr instance =>
      (* initialize status *)
      let instance := initStatus instance in
      perform made := call (EvNewHelper instance) (fun tr => Helper_New w tr instance) in
      match made with
      | inl e => ret (Result_zero, Some e)
      | inr helper =>
          perform (instance, res) :=
            (if negb (DeletionTimestamp_IsZero instance)
             then reconcileDelete instance helper     (* Handle service delete *)
             else reconcileNormal instance helper) in (* Handle non-deleted clusters *)
          perform _ := deferredStatusPatch instance helper in
          ret res
      end
  end.

(** *** Reasoning about runs

    [wp m Q]: from every trace, [m] only appends events, and its value
    and the appended events satisfy [Q], whatever the collaborators
    answer. *)
Definition wp {A : Type} (m : M A) (Q : A -> Trace -> Prop) : Prop :=
  forall tr, exists evs, snd (m tr) = tr ++ evs /\ Q (fst (m tr)) evs.

(** *** Reading a trace *)

(** The identity-service registrations a trace asked for. *)
Definition registrations (tr : Trace) : list KeystoneService :=
  omap (fun ev => match ev with
                  | EvKeystoneCreateOrPatch ks => Some ks
                  | _ => None
                  end) tr.

(** The identity-service deregistrations a trace asked for. *)
Definition deregistrations (tr : Trace) : list KeystoneService :=
  omap (fun ev => match ev with
                  | EvKeystoneDelete ks => Some ks
                  | _ => None
                  end) tr.

(** The resources a trace sent to [Update]. *)
Definition updates (tr : Trace) : list CinderAPI :=
  omap (fun ev => match ev with
                  | EvClientUpdate instance => Some instance
                  | _ => None
                  end) tr.

(** The resources a trace sent to [Status().Update]. *)
Definition statusUpdates (tr : Trace) : list CinderAPI :=
  omap (fun ev => match ev with
                  | EvStatusUpdate instance => Some instance
                  | _ => None
                  end) tr.

(** The secrets a trace fetched, by name. *)
Definition secretFetches (tr : Trace) : list string :=
  omap (fun ev => match ev with
                  | EvGetSecret name _ => Some name
                  | _ => None
                  end) tr.

(** The messages a trace logged, informational and error alike. *)
Definition logged (tr : Trace) : list string :=
  omap (fun ev => match ev with
                  | EvLogInfo msg => Some msg
                  | EvLogError _ msg _ => Some msg
                  | _ => None
                  end) tr.

(** The state of the resource after the two exposures of [reconcileInit]. *)
Definition withEndpoints (instance : CinderAPI)
    (apiEndpointsV2 apiEndpointsV3 : GoMap string) : CinderAPI :=
  setAPIEndpoints
    (setAPIEndpoints
       match APIEndpoints (Status instance) with
       | None => set_Status instance (set_APIEndpoints (Status instance) (Some ∅))
       | Some _ => instance
       end
       ServiceNameV2 apiEndpointsV2)
    ServiceNameV3 apiEndpointsV3.

(** The resource an event hands to a collaborator, if any. *)
Definition snapshot (ev : Event) : option CinderAPI :=
  match ev with
  | EvLogError _ _ instance => Some instance
  | EvNewHelper instance => Some instance
  | EvSetAfter instance => Some instance
  | EvClientUpdate instance => Some instance
  | EvStatusUpdate instance => Some instance
  | EvStatusPatch instance _ => Some instance
  | EvEnsureConfigMaps instance _ _ => Some instance
  | EvGetConfigMaps instance _ _ _ => Some instance
  | _ => None
  end.

(** None of the four status maps is nil. *)
Definition statusMapsPresent (instance : CinderAPI) : Prop :=
  Conditions (Status instance) <> None /\
  Hash (Status instance) <> None /\
  APIEndpoints (Status instance) <> None /\
  ServiceIDs (Status instance) <> None.

(** Every resource the events hand out has its four status maps. *)
Definition snapshotsPresent (evs : Trace) : Prop :=
  Forall (fun ev => forall instance,
            snapshot ev = Some instance -> statusMapsPresent instance) evs.

(** The object [reconcileDelete] builds to deregister one service. *)
Definition deregistrationOf (instance : CinderAPI) (ksSvc : gmap string string)
    : KeystoneService :=
  NewKeystoneService (keystoneServiceSpec instance ksSvc) (Namespace instance)
    (Some ∅) 10.

(** What lib-common documents of [util.SetHash]: it sets the hash under
    its key in the map (a fresh one when the map is nil) and returns the
    updated map and whether the entry changed. *)
Definition SetHash_contract : Prop :=
  forall (hashMap : GoMap string) (hashType hashStr : string),
    SetHash hashMap hashType hashStr =
      if bool_decide (default ∅ hashMap !! hashType = Some hashStr)
      then (default ∅ hashMap, false)
      else (<[hashType := hashStr]> (default ∅ hashMap), true).

End Controller.

End controllers.

(** ** A concrete cluster

    One choice of the opaque types, of the library functions and of the
    collaborators' answers, on which the model runs by computation.  The
    library functions follow lib-common and controller-runtime. *)

Module Fixture.

#[global] Instance types : OpaqueTypes := {|
  Volume := string;
  VolumeMount := string;
  EnvVar := string * string;
  Setter := string;
  ResourceRequirements := unit;
  Affinity := unit;
  ExtraVolMounts := list string;
  GenericService := option string;   (* the SecretName pointer *)
  TLSService := string;
  Condition := string;
  Time := Z;
  Secret := string;
  AppsDeployment := string * string
|}.

(** [tls.GenericService.Enabled]: a secret name is set and not empty. *)
Definition GenericService_Enabled (s : option string) : bool :=
  match s with
  | Some name => bool_decide (name <> "")
  | None => false
  end.

Definition builderEnvWith (toService : option string -> error + string)
    : cinderapi.BuilderEnv := {|
  cinderapi.DebugCommand := "/usr/local/bin/kolla_set_configs && /bin/sleep infinity";
  cinderapi.CinderPublicPort := 8776;
  cinderapi.LogFile := "/var/log/cinder/cinder-api.log";
  cinderapi.ComponentName := "cinder-api";
  cinderapi.GetOwningCinderName := fun _ => "cinder";
  cinderapi.GetPodAffinity := fun _ => None;
  cinderapi.GetVolumes := fun parent name extra =>
    ["etc-machine-id"; "scripts"; "config-data"; "config-data-custom"; "logs"] ++ extra;
  cinderapi.GetVolumeMounts := fun extra =>
    ["etc-machine-id"; "scripts"; "config-data"; "config-data-custom"; "logs"] ++ extra;
  cinderapi.GetLogVolumeMount := "logs";
  cinderapi.Ca_CreateVolume := fun _ => "combined-ca-bundle";
  cinderapi.Ca_CreateVolumeMounts := fun _ => ["combined-ca-bundle"];
  cinderapi.Enabled := fun api endpt =>
    match endpt with
    | cinderapi.EndpointPublic => GenericService_Enabled (Public api)
    | cinderapi.EndpointInternal => GenericService_Enabled (Internal api)
    end;
  cinderapi.ToService := toService;
  cinderapi.Service_CreateVolume := fun svc name => name +:+ "-tls-certs";
  cinderapi.Service_CreateVolumeMounts := fun svc name => [name +:+ "-tls-certs"];
  cinderapi.Endpoint_String := fun endpt =>
    match endpt with
    | cinderapi.EndpointPublic => "public"
    | cinderapi.EndpointInternal => "internal"
    end;
  cinderapi.SetValue := fun v => v;
  cinderapi.MergeEnvs := fun envs vars => envs ++ map_to_list vars
|}.

(** [tls.GenericService.ToService] *)
Definition ToService (cfg : option string) : error + string :=
  match cfg with
  | Some name => inr name
  | None => inl (ErrorString "no API endpoint defined")
  end.

#[global] Instance builderEnv : cinderapi.BuilderEnv := builderEnvWith ToService.

(** A library whose service rendering always fails. *)
Definition brokenRendering : cinderapi.BuilderEnv :=
  builderEnvWith (fun _ => inl (ErrorString "error marshalling api service")).

(** [util.SetHash] *)
Definition SetHash (hashMap : GoMap string) (hashType hashStr : string)
    : gmap string string * bool :=
  let hashMap := default ∅ hashMap in
  if bool_decide (hashMap !! hashType = Some hashStr)
  then (hashMap, false)
  else (<[hashType := hashStr]> hashMap, true).

#[global] Instance controllerEnv : controllers.ControllerEnv := {|
  controllers.ServiceName := "cinder";
  controllers.ServiceTypeV2 := "volumev2";
  controllers.ServiceNameV2 := "cinderv2";
  controllers.ServiceTypeV3 := "volumev3";
  controllers.ServiceNameV3 := "cinderv3";
  controllers.CinderAdminPort := 8776;
  controllers.CinderPublicPort := 8776;
  controllers.CinderInternalPort := 8776;
  controllers.AppSelector := "service";
  controllers.CustomServiceConfigFileName := "custom.conf";
  controllers.InputHashName := "input";
  controllers.TemplateTypeConfig := "config";
  controllers.Time_IsZero := fun t => bool_decide (t = 0);
  controllers.Secret_Name := fun s => s;
  controllers.GetOwningCinderName := fun _ => "cinder";
  controllers.GetGroupLabel := fun name => name +:+ ".openstack.org";
  controllers.GetLabels := fun instance group custom => custom;
  controllers.SetValue := fun v => v;
  controllers.MergeEnvs := fun envs vars => envs ++ map_to_list vars;
  controllers.ObjectHash := fun envs =>
    (String.concat ";" (map (fun kv => fst kv +:+ "=" +:+ snd kv) envs), None);
  controllers.SetHash := SetHash;
  controllers.cinderapi_Deployment := fun instance hash labels => (Name instance, hash)
|}.

Definition spec (debug : bool) (public internal : option string) : CinderAPISpec :=
  {| Debug := {| Debug_Service := debug |};
     TLS := {| API := {| Public := public; Internal := internal |};
               CaBundleSecretName := "" |};
     ExtraMounts := [];
     Replicas := Some 1;
     ContainerImage := "quay.io/openstack-cinder-api:current";
     Resources := tt;
     NodeSelector := None;
     ServiceAccount := "cinder";
     SpecSecret := "osp-secret";
     ServiceUser := "cinder";
     PasswordSelectors := {| PasswordSelector_Service := "CinderPassword" |};
     CustomServiceConfig := "# add your customization here";
     DefaultConfigOverwrite := None |}.

Definition emptyStatus : CinderAPIStatus :=
  {| Conditions := None; Hash := None; APIEndpoints := None;
     ServiceIDs := None; ReadyCount := 0 |}.

(** A resource as the API server first stores it: no status yet. *)
Definition resource (deletion : option Z) (debug : bool)
    (public internal : option string) : CinderAPI :=
  {| Kind := "CinderAPI"; Name := "cinder-api"; Namespace := "openstack";
     DeletionTimestamp := deletion;
     Finalizers := ["cinderapi"];
     Spec := spec debug public internal;
     Status := emptyStatus |}.

Definition plain : CinderAPI := resource None false None None.
Definition publicTLS : CinderAPI :=
  resource None false (Some "cert-cinder-public-svc") None.
Definition internalTLS : CinderAPI :=
  resource None false None (Some "cert-cinder-internal-svc").
Definition debugging : CinderAPI :=
  resource None true (Some "cert-cinder-public-svc") None.
Definition deleting : CinderAPI := resource (Some 1700000000) false None None.

Definition NotFound (what : string) : error :=
  APIStatusError StatusReasonNotFound (what +:+ " not found").

Definition helperFor (instance : CinderAPI) : controllers.Helper :=
  {| controllers.GetFinalizer := "cinderapi";
     controllers.GetBeforeObject := instance;
     controllers.GetChanges := ∅ |}.

(** The switches of the concrete cluster. *)
Record Scenario : Type := {
  stored : CinderAPI;                (* what Get returns *)
  secretPresent : controllers.Trace -> bool;
  ensureError : option error;        (* what EnsureConfigMaps returns *)
  deleteError : string -> option error;  (* Delete, by service name *)
  updateError : option error         (* what Update returns *)
}.

Definition world (sc : Scenario) : controllers.World :=
  {| controllers.Client_Get := fun _ _ => inr (stored sc);
     controllers.Helper_New := fun _ instance => inr (helperFor instance);
     controllers.Helper_SetAfter := fun _ helper instance =>
       ({| controllers.GetFinalizer := controllers.GetFinalizer helper;
           controllers.GetBeforeObject := controllers.GetBeforeObject helper;
           controllers.GetChanges :=
             {[ "status" := bool_decide
                  (ReadyCount (Status instance)
                   <> ReadyCount (Status (controllers.GetBeforeObject helper))) ]} |},
        None);
     controllers.Client_Update := fun _ _ => updateError sc;
     controllers.Status_Update := fun _ _ => None;
     controllers.Status_Patch := fun _ _ _ => None;
     controllers.GetSecret := fun tr name ns =>
       if secretPresent sc tr then inr (name, "n5d8h64bh5c7")
       else inl (NotFound name);
     controllers.EnsureConfigMaps := fun _ instance cms envVars =>
       match ensureError sc with
       | Some e => (envVars, Some e)
       | None => (<[Name instance +:+ "-config-data" := "n67fh5b4h"]> envVars, None)
       end;
     controllers.GetConfigMaps := fun _ instance names ns envVars =>
       (<["cinder-config-data" := "n9ch5b8h"]>
          (<["cinder-scripts" := "n55dh67fh"]> envVars), None);
     controllers.ExposeEndpoints := fun _ helper name labels data =>
       (Some {[ "public" := "http://cinder-public-openstack.apps"; 
                "internal" := "http://cinder-internal.openstack.svc:8776" ]},
        Result_zero, None);
     controllers.KeystoneService_CreateOrPatch := fun _ ks helper =>
       ("id-" +:+ controllers.ServiceName_ (controllers.ks_service ks),
        Result_zero, None);
     controllers.KeystoneService_Delete := fun _ ks helper =>
       deleteError sc (controllers.ServiceName_ (controllers.ks_service ks));
     controllers.Deployment_CreateOrPatch := fun _ depl helper =>
       (1, Result_zero, None) |}.

(** Everything answers; the resource is the stored one. *)
Definition healthy (instance : CinderAPI) : Scenario :=
  {| stored := instance;
     secretPresent := fun _ => true;
     ensureError := None;
     deleteError := fun _ => None;
     updateError := None |}.

(** The credentials secret does not exist. *)
Definition secretMissing (instance : CinderAPI) : Scenario :=
  {| stored := instance;
     secretPresent := fun _ => false;
     ensureError := None;
     deleteError := fun _ => None;
     updateError := None |}.

(** The credentials secret is there for the first fetch and gone after. *)
Definition secretVanishes (instance : CinderAPI) : Scenario :=
  {| stored := instance;
     secretPresent := fun tr =>
       forallb (fun ev => match ev with
                          | controllers.EvGetSecret _ _ => false
                          | _ => true
                          end) tr;
     ensureError := None;
     deleteError := fun _ => None;
     updateError := None |}.

(** The config-map ensurer fails. *)
Definition ensureFails (instance : CinderAPI) : Scenario :=
  {| stored := instance;
     secretPresent := fun _ => true;
     ensureError := Some (ErrorString "error create/updating configmap: forbidden");
     deleteError := fun _ => None;
     updateError := None |}.

(** The identity service refuses to drop the V3 registration. *)
Definition deleteV3Fails (instance : CinderAPI) : Scenario :=
  {| stored := instance;
     secretPresent := fun _ => true;
     ensureError := None;
     deleteError := fun name =>
       if bool_decide (name = "cinderv3")
       then Some (ErrorString "keystone unavailable") else None;
     updateError := None |}.

(** The resource is gone by the time the finalizer removal is persisted. *)
Definition goneOnUpdate (instance : CinderAPI) : Scenario :=
  {| stored := instance;
     secretPresent := fun _ => true;
     ensureError := None;
     deleteError := fun _ => None;
     updateError := Some (NotFound "cinder-api") |}.

Definition request : controllers.NamespacedName :=
  {| controllers.Req_Namespace := "openstack"; controllers.Req_Name := "cinder-api" |}.

(** A resource marked for deletion whose endpoints map is empty, not nil. *)
Definition deletingEmpty : CinderAPI :=
  set_Status deleting (set_APIEndpoints emptyStatus (Some ∅)).

(** A resource whose status already records the input hash. *)
Definition hashed (hash : string) : CinderAPI :=
  set_Status plain (set_Hash emptyStatus (Some {[ "input" := hash ]})).

(** The names of the services in a list of identity-service objects. *)
Definition names (kss : list controllers.KeystoneService) : list string :=
  map (fun ks => controllers.ServiceName_ (controllers.ks_service ks)) kss.

End Fixture.

(** * Properties of the builder *)

Section BuilderProperties.
Import cinderapi.
Context `{BuilderEnv}.

(** The TLS loop fails only with the rendering error of an enabled endpoint
    it ranges over. *)
Lemma tlsEndpointVolumes_error instance endpts volumes volumeMounts err :
  tlsEndpointVolumes instance endpts volumes volumeMounts = inl err ->
  exists endpt, endpt ∈ endpts /\
    Enabled (API (TLS (Spec instance))) endpt = true /\
    ToService (tlsEndptCfg instance endpt) = inl err.
Proof.
  revert volumes volumeMounts.
  induction endpts as [|endpt rest IH]; intros volumes volumeMounts Hrun.
  - discriminate.
  - cbn [tlsEndpointVolumes] in Hrun.
    destruct (Enabled (API (TLS (Spec instance))) endpt) eqn:Hen.
    + destruct (ToService (tlsEndptCfg instance endpt)) as [e|svc] eqn:Hsvc.
      * injection Hrun as ->. exists endpt. split; [left|]. by split.
      * destruct (IH _ _ Hrun) as (x & Hin & Hx). exists x. split; [by right|done].
    + destruct (IH _ _ Hrun) as (x & Hin & Hx). exists x. split; [by right|done].
Qed.

(** When every enabled endpoint renders, the TLS loop runs to its end. *)
Lemma tlsEndpointVolumes_total instance endpts volumes volumeMounts :
  (forall endpt, endpt ∈ endpts ->
     Enabled (API (TLS (Spec instance))) endpt = true ->
     exists svc, ToService (tlsEndptCfg instance endpt) = inr svc) ->
  exists r, tlsEndpointVolumes instance endpts volumes volumeMounts = inr r.
Proof.
  revert volumes volumeMounts.
  induction endpts as [|endpt rest IH]; intros volumes volumeMounts Hok.
  - by eexists.
  - cbn [tlsEndpointVolumes].
    assert (Hrest : forall x, x ∈ rest ->
      Enabled (API (TLS (Spec instance))) x = true ->
      exists svc, ToService (tlsEndptCfg instance x) = inr svc).
    { intros x Hx. apply Hok. by right. }
    destruct (Enabled (API (TLS (Spec instance))) endpt) eqn:Hen.
    + destruct (Hok endpt) as [svc ->]; [by left|done|]. by apply IH.
    + by apply IH.
Qed.

Lemma StatefulSet_probes instance configHash labels annotations sts :
  StatefulSet instance configHash labels annotations = (Some sts, None) ->
  exists live ready,
    renderedLivenessProbe sts = Some live /\
    renderedReadinessProbe sts = Some ready /\
    if Debug_Service (Debug (Spec instance)) then
      Exec live = Some {| ExecCommand := ["/bin/true"] |} /\
      Exec ready = Some {| ExecCommand := ["/bin/true"] |} /\
      HTTPGet live = None /\ HTTPGet ready = None
    else
      HTTPGet live = Some (expectedHTTPGet instance) /\
      HTTPGet ready = Some (expectedHTTPGet instance) /\
      Exec live = None /\ Exec ready = None.
Proof.
  unfold StatefulSet, expectedHTTPGet.
  destruct (Debug_Service (Debug (Spec instance)));
    destruct (bool_decide (CaBundleSecretName (TLS (Spec instance)) <> ""));
    destruct (tlsEndpointVolumes _ _ _ _) as [e|[vols mounts]];
    try discriminate;
    destruct (Enabled (API (TLS (Spec instance))) EndpointPublic);
    intros [= <-]; do 2 eexists; repeat split.
Qed.


(** C3: on a rendered StatefulSet, every HTTP handler of the liveness or the
    readiness probe has scheme HTTPS when TLS is enabled for the public
    endpoint and the unset (plain) scheme when it is not; nothing else of
    the resource, the internal endpoint's setting included, enters.  With
    the debug flag off both probes do have an HTTP handler. *)
Theorem StatefulSet_probe_scheme_follows_public_TLS
    instance configHash labels annotations sts :
  StatefulSet instance configHash labels annotations = (Some sts, None) ->
  (forall h,
     renderedLivenessProbe sts ≫= HTTPGet = Some h \/
     renderedReadinessProbe sts ≫= HTTPGet = Some h ->
     (Enabled (API (TLS (Spec instance))) EndpointPublic = true ->
        Scheme h = URISchemeHTTPS) /\
     (Enabled (API (TLS (Spec instance))) EndpointPublic = false ->
        Scheme h = "")) /\
  (Debug_Service (Debug (Spec instance)) = false ->
     is_Some (renderedLivenessProbe sts ≫= HTTPGet) /\
     is_Some (renderedReadinessProbe sts ≫= HTTPGet)).
Proof.
  intros Hbuilt.
  destruct (StatefulSet_probes _ _ _ _ _ Hbuilt) as (live & ready & Hl & Hr & Hprobes).
  rewrite Hl, Hr. cbn [mbind option_bind].
  destruct (Debug_Service (Debug (Spec instance))).
  - destruct Hprobes as (_ & _ & -> & ->).
    split; [|discriminate]. intros h [?|?]; discriminate.
  - destruct Hprobes as (-> & -> & _ & _).
    split; [|by split; eexists].
    assert (Hh : forall h, Some (expectedHTTPGet instance) = Some h ->
      (Enabled (API (TLS (Spec instance))) EndpointPublic = true ->
         Scheme h = URISchemeHTTPS) /\
      (Enabled (API (TLS (Spec instance))) EndpointPublic = false ->
         Scheme h = "")).
    { intros h [= <-]. unfold expectedHTTPGet. cbn [Scheme].
      destruct (Enabled (API (TLS (Spec instance))) EndpointPublic);
        split; intros; done. }
    intros h [?|?]; by apply Hh.
Qed.

(** C6: the builder returns an error only when rendering the service of a
    TLS-enabled endpoint fails, and that error is the rendering error of
    that endpoint's own configuration: the internal one's for the
    internal endpoint, the public one's for the public endpoint.  When
    each TLS-enabled endpoint renders from its own configuration, the
    builder returns a StatefulSet and no error. *)
Theorem StatefulSet_fails_only_on_ToService
    instance configHash labels annotations :
  (forall err,
     snd (StatefulSet instance configHash labels annotations) = Some err ->
     fst (StatefulSet instance configHash labels annotations) = None /\
     ((Enabled (API (TLS (Spec instance))) EndpointInternal = true /\
       ToService (Internal (API (TLS (Spec instance)))) = inl err) \/
      (Enabled (API (TLS (Spec instance))) EndpointPublic = true /\
       ToService (Public (API (TLS (Spec instance)))) = inl err))) /\
  ((Enabled (API (TLS (Spec instance))) EndpointInternal = true ->
    exists svc, ToService (Internal (API (TLS (Spec instance)))) = inr svc) ->
   (Enabled (API (TLS (Spec instance))) EndpointPublic = true ->
    exists svc, ToService (Public (API (TLS (Spec instance)))) = inr svc) ->
   exists sts,
     StatefulSet instance configHash labels annotations = (Some sts, None)).
Proof.
  split.
  - intros err. unfold StatefulSet.
    destruct (Debug_Service (Debug (Spec instance)));
      destruct (bool_decide (CaBundleSecretName (TLS (Spec instance)) <> ""));
      destruct (tlsEndpointVolumes _ _ _ _) as [e|[vols mounts]] eqn:Hloop;
      cbn [fst snd]; try discriminate;
      intros [= ->]; (split; [done|]);
      destruct (tlsEndpointVolumes_error _ _ _ _ _ Hloop) as (endpt & _ & Hen & Hsvc);
      (destruct endpt; cbn [tlsEndptCfg] in Hsvc; [by left|by right]).
  - intros Hinternal Hpublic. unfold StatefulSet.
    destruct (Debug_Service (Debug (Spec instance)));
      destruct (bool_decide (CaBundleSecretName (TLS (Spec instance)) <> ""));
      match goal with
      | |- context [tlsEndpointVolumes ?i ?es ?v ?m] =>
          destruct (tlsEndpointVolumes_total i es v m) as [[vols mounts] ->];
          [intros [] _ Hen; cbn [tlsEndptCfg]; [by apply Hinternal|by apply Hpublic]|]
      end; by eexists.
Qed.

End BuilderProperties.

(** ** The builder on the concrete cluster *)

Example StatefulSet_plain_probe :
  (cinderapi.renderedLivenessProbe <$>
     fst (cinderapi.StatefulSet Fixture.plain "n5d8h" None None)) =
  Some (Some
    {| cinderapi.Exec := None;
       cinderapi.HTTPGet := Some
         {| cinderapi.Path := "/healthcheck";
            cinderapi.Port :=
              {| cinderapi.IntOrString_Type := cinderapi.IntType;
                 cinderapi.IntVal := 8776; cinderapi.StrVal := "" |};
            cinderapi.Scheme := "" |};
       cinderapi.TimeoutSeconds := 5; cinderapi.PeriodSeconds := 3;
       cinderapi.InitialDelaySeconds := 5 |}).
Proof. vm_compute. reflexivity. Qed.

Example StatefulSet_internalTLS_scheme :
  (cinderapi.Scheme <$>
     ((fst (cinderapi.StatefulSet Fixture.internalTLS "n5d8h" None None)
         ≫= cinderapi.renderedReadinessProbe) ≫= cinderapi.HTTPGet)) = Some "".
Proof. vm_compute. reflexivity. Qed.

Example StatefulSet_publicTLS_volumes :
  (fun sts => cinderapi.Volumes
     (cinderapi.Template_Spec (cinderapi.Template (cinderapi.Sts_Spec sts)))) <$>
    fst (cinderapi.StatefulSet Fixture.publicTLS "n5d8h" None None) =
  Some ["etc-machine-id"; "scripts"; "config-data"; "config-data-custom";
        "logs"; "public-tls-certs"].
Proof. vm_compute. reflexivity. Qed.


Lemma StatefulSet_probe_scheme_follows_public_TLS_witness :
  exists sts hl hr,
    cinderapi.StatefulSet Fixture.publicTLS "n5d8h" None None = (Some sts, None) /\
    cinderapi.renderedLivenessProbe sts ≫= cinderapi.HTTPGet = Some hl /\
    cinderapi.renderedReadinessProbe sts ≫= cinderapi.HTTPGet = Some hr /\
    cinderapi.Scheme hl = "HTTPS" /\ cinderapi.Scheme hr = "HTTPS".
Proof.
  assert (Hbuilt : exists sts,
    cinderapi.StatefulSet Fixture.publicTLS "n5d8h" None None = (Some sts, None))
    by (eexists; vm_compute; reflexivity).
  destruct Hbuilt as [sts Hbuilt].
  destruct (StatefulSet_probe_scheme_follows_public_TLS _ _ _ _ _ Hbuilt)
    as [Hscheme Hhttp].
  destruct Hhttp as [[hl Hl] [hr Hr]]; [reflexivity|].
  exists sts, hl, hr.
  split; [exact Hbuilt|]. split; [exact Hl|]. split; [exact Hr|].
  split.
  - apply (Hscheme hl); [by left|reflexivity].
  - apply (Hscheme hr); [by right|reflexivity].
Defined.

Lemma StatefulSet_fails_only_on_ToService_witness :
  (exists sts,
     cinderapi.StatefulSet Fixture.publicTLS "n5d8h" None None = (Some sts, None)) /\
  (exists sts,
     cinderapi.StatefulSet Fixture.internalTLS "n5d8h" None None = (Some sts, None)) /\
  @cinderapi.StatefulSet _ Fixture.brokenRendering
    Fixture.publicTLS "n5d8h" None None
    = (None, Some (ErrorString "error marshalling api service")) /\
  @cinderapi.Enabled _ Fixture.brokenRendering
    (API (TLS (Spec Fixture.publicTLS))) cinderapi.EndpointPublic = true /\
  @cinderapi.ToService _ Fixture.brokenRendering
    (Public (API (TLS (Spec Fixture.publicTLS))))
    = inl (ErrorString "error marshalling api service").
Proof.
  split; [|split].
  - apply (StatefulSet_fails_only_on_ToService Fixture.publicTLS "n5d8h" None None).
    + intros Hen. discriminate Hen.
    + intros _. by eexists.
  - apply (StatefulSet_fails_only_on_ToService Fixture.internalTLS "n5d8h" None None).
    + intros _. by eexists.
    + intros Hen. discriminate Hen.
  - destruct (@StatefulSet_fails_only_on_ToService _ Fixture.brokenRendering
                Fixture.publicTLS "n5d8h" None None) as [Honly _].
    destruct (Honly (ErrorString "error marshalling api service"))
      as [_ [[Hen _]|[Hen Hsvc]]]; [vm_compute; reflexivity|discriminate Hen|].
    split; [vm_compute; reflexivity|]. split; [exact Hen|exact Hsvc].
Defined.

(** * Properties of the reconciler *)

Section ReconcilerProperties.
Import controllers.
Context `{ControllerEnv}.
Variable w : World.

Lemma Spec_AddFinalizer (instance : CinderAPI) f :
  Spec (AddFinalizer instance f) = Spec instance.
Proof. unfold AddFinalizer. by case_bool_decide. Qed.

Lemma Namespace_AddFinalizer (instance : CinderAPI) f :
  Namespace (AddFinalizer instance f) = Namespace instance.
Proof. unfold AddFinalizer. by case_bool_decide. Qed.

Lemma Status_AddFinalizer (instance : CinderAPI) f :
  Status (AddFinalizer instance f) = Status instance.
Proof. unfold AddFinalizer. by case_bool_decide. Qed.

(** The rules of [wp]. *)
Lemma wp_ret {A} (a : A) (Q : A -> Trace -> Prop) : Q a [] -> wp (ret a) Q.
Proof. intros HQ tr. exists []. by rewrite app_nil_r. Qed.

Lemma wp_call {A} ev (answer : Trace -> A) (Q : A -> Trace -> Prop) :
  (forall tr, Q (answer tr) [ev]) -> wp (call ev answer) Q.
Proof. intros HQ tr. exists [ev]. split; [done|apply HQ]. Qed.

Lemma wp_bind {A B} (m : M A) (k : A -> M B) (Q : B -> Trace -> Prop) :
  wp m (fun a evs => wp (k a) (fun b evs' => Q b (evs ++ evs'))) ->
  wp (bind m k) Q.
Proof.
  intros Hm tr. unfold bind.
  destruct (Hm tr) as (evs & Htr & Hk). destruct (m tr) as [a tr']. cbn in *.
  destruct (Hk tr') as (evs' & Htr' & HQ). subst tr'.
  exists (evs ++ evs'). by rewrite Htr', app_assoc.
Qed.

Lemma wp_mono {A} (m : M A) (P Q : A -> Trace -> Prop) :
  wp m P -> (forall a evs, P a evs -> Q a evs) -> wp m Q.
Proof.
  intros Hm HPQ tr. destruct (Hm tr) as (evs & Htr & HP).
  exists evs. split; [done|by apply HPQ].
Qed.

Lemma wp_LogInfo msg (Q : unit -> Trace -> Prop) :
  Q tt [EvLogInfo msg] -> wp (LogInfo msg) Q.
Proof. intros HQ. by apply wp_call. Qed.

Lemma snapshotsPresent_nil : snapshotsPresent [].
Proof. constructor. Qed.

Lemma snapshotsPresent_app evs1 evs2 :
  snapshotsPresent evs1 -> snapshotsPresent evs2 -> snapshotsPresent (evs1 ++ evs2).
Proof. unfold snapshotsPresent. rewrite Forall_app. by split. Qed.

Lemma snapshotsPresent_one ev :
  (forall instance, snapshot ev = Some instance -> statusMapsPresent instance) ->
  snapshotsPresent [ev].
Proof. intros Hev. constructor; [exact Hev|constructor]. Qed.

(** Walks a run with the rules of [wp], splitting on every answer. *)
Ltac wp_walk :=
  repeat first
    [ apply wp_bind
    | apply wp_LogInfo
    | apply wp_call; intros ?
    | apply wp_ret
    | match goal with
      | |- wp (match ?x with _ => _ end) _ => destruct x eqn:?
      | |- wp (let (_, _) := ?x in _) _ => destruct x eqn:?
      end ].

(** Brings a trace to the form [tr ++ [e1; ...; en]]. *)
Ltac trace_norm := repeat rewrite <- app_assoc; cbn [app].

(** Unfolds one layer of the trace monad. *)
Ltac step := unfold LogInfo, LogErrorForObject, bind, call, ret; cbn beta iota.

(** C5: when the finalizer was registered and the fetch of the credentials
    secret answers not-found, the normal-path handler returns a requeue
    after exactly ten seconds and an error whose message names the secret;
    the fetch is the last call of the pass. *)
Theorem reconcileNormal_missing_secret instance helper tr e :
  Client_Update w (tr ++ [EvLogInfo "Reconciling Service"])
    (AddFinalizer instance (GetFinalizer helper)) = None ->
  GetSecret w
    (tr ++ [EvLogInfo "Reconciling Service";
            EvClientUpdate (AddFinalizer instance (GetFinalizer helper))])
    (SpecSecret (Spec instance)) (Namespace instance) = inl e ->
  IsNotFound e = true ->
  exists res err,
    reconcileNormal w instance helper tr =
      (AddFinalizer instance (GetFinalizer helper), (res, Some err),
       tr ++ [EvLogInfo "Reconciling Service";
              EvClientUpdate (AddFinalizer instance (GetFinalizer helper));
              EvGetSecret (SpecSecret (Spec instance)) (Namespace instance)]) /\
    res = {| Requeue := false; RequeueAfter := 10 * Second |} /\
    RequeueAfter res = 10000000000 /\
    ErrorMessage err =
      "OpenStack secret " +:+ SpecSecret (Spec instance) +:+ " not found".
Proof.
  intros Hupdate Hsecret Hnotfound.
  exists {| Requeue := false; RequeueAfter := 10 * Second |},
    (Errorf ("OpenStack secret " +:+ SpecSecret (Spec instance) +:+ " not found")).
  split; [|done].
  unfold reconcileNormal. step.
  rewrite Hupdate.
  rewrite Spec_AddFinalizer, Namespace_AddFinalizer.
  trace_norm. rewrite Hsecret, Hnotfound.
  trace_norm. by rewrite Z.mul_comm.
Qed.

Lemma registrations_app tr1 tr2 :
  registrations (tr1 ++ tr2) = registrations tr1 ++ registrations tr2.
Proof. apply omap_app. Qed.

Lemma deregistrations_app tr1 tr2 :
  deregistrations (tr1 ++ tr2) = deregistrations tr1 ++ deregistrations tr2.
Proof. apply omap_app. Qed.

Lemma updates_app tr1 tr2 : updates (tr1 ++ tr2) = updates tr1 ++ updates tr2.
Proof. apply omap_app. Qed.

Lemma statusUpdates_app tr1 tr2 :
  statusUpdates (tr1 ++ tr2) = statusUpdates tr1 ++ statusUpdates tr2.
Proof. apply omap_app. Qed.

Lemma logged_app tr1 tr2 : logged (tr1 ++ tr2) = logged tr1 ++ logged tr2.
Proof. apply omap_app. Qed.

Lemma Spec_withEndpoints (instance : CinderAPI) v2 v3 :
  Spec (withEndpoints instance v2 v3) = Spec instance.
Proof. unfold withEndpoints. by destruct (APIEndpoints (Status instance)). Qed.

Lemma Namespace_withEndpoints (instance : CinderAPI) v2 v3 :
  Namespace (withEndpoints instance v2 v3) = Namespace instance.
Proof. unfold withEndpoints. by destruct (APIEndpoints (Status instance)). Qed.

(** C10: in [reconcileInit], once both exposures have succeeded the
    credentials secret is fetched again, before any registration.  When
    that fetch fails the handler returns at once, so the pass asks for no
    identity-service registration and records no service id; when the
    failure is not-found it returns a requeue after ten seconds and an
    error whose message names the secret. *)
Theorem reconcileInit_missing_secret
    instance helper serviceLabels tr apiEndpointsV2 apiEndpointsV3 e :
  ExposeEndpoints w (tr ++ [EvLogInfo "Reconciling Service init"])
    helper ServiceName serviceLabels (endpointData "v2")
    = (apiEndpointsV2, Result_zero, None) ->
  ExposeEndpoints w
    (tr ++ [EvLogInfo "Reconciling Service init";
            EvExposeEndpoints ServiceName serviceLabels (endpointData "v2")])
    helper ServiceName serviceLabels (endpointData "v3")
    = (apiEndpointsV3, Result_zero, None) ->
  GetSecret w
    (tr ++ [EvLogInfo "Reconciling Service init";
            EvExposeEndpoints ServiceName serviceLabels (endpointData "v2");
            EvExposeEndpoints ServiceName serviceLabels (endpointData "v3")])
    (SpecSecret (Spec instance)) (Namespace instance) = inl e ->
  exists res err,
    reconcileInit w instance helper serviceLabels tr =
      (withEndpoints instance apiEndpointsV2 apiEndpointsV3, (res, Some err),
       tr ++ [EvLogInfo "Reconciling Service init";
              EvExposeEndpoints ServiceName serviceLabels (endpointData "v2");
              EvExposeEndpoints ServiceName serviceLabels (endpointData "v3");
              EvGetSecret (SpecSecret (Spec instance)) (Namespace instance)]) /\
    registrations (snd (reconcileInit w instance helper serviceLabels tr))
      = registrations tr /\
    ServiceIDs (Status (withEndpoints instance apiEndpointsV2 apiEndpointsV3))
      = ServiceIDs (Status instance) /\
    (IsNotFound e = true ->
       res = {| Requeue := false; RequeueAfter := 10 * Second |} /\
       ErrorMessage err =
         "OpenStack secret " +:+ SpecSecret (Spec instance) +:+ " not found") /\
    (IsNotFound e = false -> res = Result_zero /\ err = e).
Proof.
  intros Hv2 Hv3 Hsecret.
  assert (Hrun : reconcileInit w instance helper serviceLabels tr =
    (withEndpoints instance apiEndpointsV2 apiEndpointsV3,
     (if IsNotFound e
      then ({| Requeue := false; RequeueAfter := Second * 10 |},
            Some (Errorf ("OpenStack secret " +:+ SpecSecret (Spec instance)
                          +:+ " not found")))
      else (Result_zero, Some e)),
     tr ++ [EvLogInfo "Reconciling Service init";
            EvExposeEndpoints ServiceName serviceLabels (endpointData "v2");
            EvExposeEndpoints ServiceName serviceLabels (endpointData "v3");
            EvGetSecret (SpecSecret (Spec instance)) (Namespace instance)])).
  { unfold reconcileInit. step. rewrite Hv2.
    rewrite bool_decide_eq_false_2 by (intros Hne; by apply Hne).
    trace_norm. rewrite Hv3.
    rewrite bool_decide_eq_false_2 by (intros Hne; by apply Hne).
    trace_norm.
    fold (withEndpoints instance apiEndpointsV2 apiEndpointsV3).
    rewrite Spec_withEndpoints, Namespace_withEndpoints, Hsecret.
    destruct (IsNotFound e); by trace_norm. }
  destruct (IsNotFound e) eqn:Hnf.
  - do 2 eexists. split; [exact Hrun|]. rewrite Hrun. cbn [snd].
    split; [by rewrite registrations_app, app_nil_r|].
    split; [unfold withEndpoints; by destruct (APIEndpoints (Status instance))|].
    split; [|discriminate]. intros _. split; [by rewrite Z.mul_comm|done].
  - do 2 eexists. split; [exact Hrun|]. rewrite Hrun. cbn [snd].
    split; [by rewrite registrations_app, app_nil_r|].
    split; [unfold withEndpoints; by destruct (APIEndpoints (Status instance))|].
    split; [discriminate|]. done.
Qed.

(** ** Status maps stay present *)

Lemma statusMapsPresent_AddFinalizer (instance : CinderAPI) f :
  statusMapsPresent instance -> statusMapsPresent (AddFinalizer instance f).
Proof. unfold statusMapsPresent. by rewrite Status_AddFinalizer. Qed.

Lemma statusMapsPresent_RemoveFinalizer (instance : CinderAPI) f :
  statusMapsPresent instance -> statusMapsPresent (RemoveFinalizer instance f).
Proof. done. Qed.

Lemma statusMapsPresent_set_Hash (instance : CinderAPI) g :
  statusMapsPresent instance ->
  statusMapsPresent (set_Status instance (set_Hash (Status instance) (Some g))).
Proof. intros (? & ? & ? & ?). by repeat split. Qed.

Lemma statusMapsPresent_setAPIEndpoints (instance : CinderAPI) name endpoints :
  statusMapsPresent instance ->
  statusMapsPresent (setAPIEndpoints instance name endpoints).
Proof. intros (? & ? & ? & ?). by repeat split. Qed.

Lemma statusMapsPresent_setServiceID (instance : CinderAPI) name id :
  statusMapsPresent instance ->
  statusMapsPresent (setServiceID instance name id).
Proof. intros (? & ? & ? & ?). by repeat split. Qed.

Lemma statusMapsPresent_set_ReadyCount (instance : CinderAPI) n :
  statusMapsPresent instance ->
  statusMapsPresent (set_Status instance (set_ReadyCount (Status instance) n)).
Proof. intros (? & ? & ? & ?). by repeat split. Qed.

Lemma statusMapsPresent_initAPIEndpoints (instance : CinderAPI) :
  statusMapsPresent instance ->
  statusMapsPresent
    match APIEndpoints (Status instance) with
    | None => set_Status instance (set_APIEndpoints (Status instance) (Some ∅))
    | Some _ => instance
    end.
Proof.
  intros Hpresent. destruct (APIEndpoints (Status instance)) eqn:Heps; [done|].
  destruct Hpresent as (? & ? & ? & ?). by repeat split.
Qed.

Lemma statusMapsPresent_initServiceIDs (instance : CinderAPI) :
  statusMapsPresent instance ->
  statusMapsPresent
    match ServiceIDs (Status instance) with
    | None => set_Status instance (set_ServiceIDs (Status instance) (Some ∅))
    | Some _ => instance
    end.
Proof.
  intros Hpresent. destruct (ServiceIDs (Status instance)) eqn:Hids; [done|].
  destruct Hpresent as (? & ? & ? & ?). by repeat split.
Qed.

Create HintDb present discriminated.
#[local] Hint Resolve statusMapsPresent_initAPIEndpoints
  statusMapsPresent_initServiceIDs : present.
#[local] Hint Resolve statusMapsPresent_AddFinalizer
  statusMapsPresent_RemoveFinalizer statusMapsPresent_set_Hash
  statusMapsPresent_setAPIEndpoints statusMapsPresent_setServiceID
  statusMapsPresent_set_ReadyCount snapshotsPresent_nil : present.

(** Closes the goal a walk leaves at a return: the resource has its maps
    and so has every snapshot among the appended events. *)
Ltac present_events :=
  repeat first
    [ apply snapshotsPresent_nil
    | apply snapshotsPresent_app
    | apply snapshotsPresent_one; cbn [snapshot];
      intros ? [= <-]; eauto 6 with present
    | apply snapshotsPresent_one; cbn [snapshot]; intros ?; discriminate ].

Ltac present_leaf :=
  cbn beta iota; cbn [fst snd];
  repeat match goal with |- _ /\ _ => split end;
  first [ progress present_events | eauto 6 with present ].

Lemma deleteKeystoneServices_present svcs instance helper :
  wp (deleteKeystoneServices w svcs instance helper)
     (fun _ evs => snapshotsPresent evs).
Proof.
  induction svcs as [|ksSvc rest IH]; cbn [deleteKeystoneServices].
  - wp_walk. present_leaf.
  - apply wp_bind, wp_call. intros tr0.
    destruct (KeystoneService_Delete _ _ _ _).
    + wp_walk. present_leaf.
    + eapply wp_mono; [apply IH|]. intros ? evs Hevs. present_leaf. done.
Qed.

Lemma reconcileDelete_present instance helper :
  statusMapsPresent instance ->
  wp (reconcileDelete w instance helper)
     (fun out evs => statusMapsPresent (fst out) /\ snapshotsPresent evs).
Proof.
  intros Hpresent. unfold reconcileDelete.
  apply wp_bind, wp_LogInfo, wp_bind.
  eapply wp_mono with (P := fun _ evs => snapshotsPresent evs).
  { case_bool_decide; [apply deleteKeystoneServices_present|].
    wp_walk. present_leaf. }
  intros err evs Hevs. wp_walk; present_leaf; done.
Qed.

Lemma registerKeystoneServices_present svcs instance helper serviceLabels :
  statusMapsPresent instance ->
  wp (registerKeystoneServices w svcs instance helper serviceLabels)
     (fun out evs => statusMapsPresent (fst out) /\ snapshotsPresent evs).
Proof.
  revert instance.
  induction svcs as [|ksSvc rest IH]; intros instance Hpresent;
    cbn [registerKeystoneServices].
  - wp_walk. present_leaf.
  - apply wp_bind, wp_call. intros tr0.
    destruct (KeystoneService_CreateOrPatch _ _ _ _) as [[serviceID ctrlResult] [e|]].
    + wp_walk. present_leaf.
    + destruct (bool_decide (ctrlResult <> Result_zero)).
      * wp_walk. present_leaf.
      * eapply wp_mono; [apply IH; eauto with present|].
        intros ? evs [? ?]. present_leaf; done.
Qed.

Lemma statusMapsPresent_withEndpoints (instance : CinderAPI) v2 v3 :
  statusMapsPresent instance -> statusMapsPresent (withEndpoints instance v2 v3).
Proof. intros Hpresent. unfold withEndpoints. eauto with present. Qed.

Lemma reconcileInit_present instance helper serviceLabels :
  statusMapsPresent instance ->
  wp (reconcileInit w instance helper serviceLabels)
     (fun out evs => statusMapsPresent (fst out) /\ snapshotsPresent evs).
Proof.
  intros Hpresent. unfold reconcileInit.
  apply wp_bind, wp_LogInfo, wp_bind, wp_call. intros tr0.
  destruct (ExposeEndpoints _ _ _ _ _ _) as [[apiEndpointsV2 ctrlResult] [e|]];
    [wp_walk; present_leaf|].
  destruct (bool_decide (ctrlResult <> Result_zero)); [wp_walk; present_leaf|].
  apply wp_bind, wp_call. intros tr1.
  destruct (ExposeEndpoints _ _ _ _ _ _) as [[apiEndpointsV3 ctrlResult3] [e|]];
    [wp_walk; present_leaf|].
  destruct (bool_decide (ctrlResult3 <> Result_zero)); [wp_walk; present_leaf|].
  fold (withEndpoints instance apiEndpointsV2 apiEndpointsV3).
  pose proof (statusMapsPresent_withEndpoints instance apiEndpointsV2
                apiEndpointsV3 Hpresent) as Hpresent'.
  set (instance' := withEndpoints instance apiEndpointsV2 apiEndpointsV3) in *.
  apply wp_bind, wp_call. intros tr2.
  destruct (GetSecret _ _ _ _) as [e|fetched].
  { destruct (IsNotFound e); wp_walk; present_leaf. }
  apply wp_bind.
  eapply wp_mono.
  { apply registerKeystoneServices_present. eauto with present. }
  intros [instance'' returned] evs [? ?]. cbn [fst] in *.
  destruct returned; wp_walk; present_leaf; done.
Qed.

Lemma generateServiceConfigMaps_present h instance envVars :
  statusMapsPresent instance ->
  wp (generateServiceConfigMaps w h instance envVars)
     (fun _ evs => snapshotsPresent evs).
Proof.
  intros Hpresent. unfold generateServiceConfigMaps.
  apply wp_bind, wp_call. intros tr0.
  destruct (EnsureConfigMaps _ _ _ _ _) as [envVars' [e|]]; wp_walk; present_leaf.
Qed.

Lemma createHashOfInputHashes_present instance envVars :
  statusMapsPresent instance ->
  wp (createHashOfInputHashes w instance envVars)
     (fun out evs => statusMapsPresent (fst out) /\ snapshotsPresent evs).
Proof.
  intros Hpresent. unfold createHashOfInputHashes.
  destruct (ObjectHash _) as [hash [e|]]; [wp_walk; present_leaf|].
  destruct (SetHash _ _ _) as [hashMap changed].
  assert (Haliased : statusMapsPresent
    match Hash (Status instance) with
    | Some _ => set_Status instance (set_Hash (Status instance) (Some hashMap))
    | None => instance
    end) by (destruct (Hash (Status instance)); eauto with present).
  destruct changed; wp_walk; present_leaf.
Qed.

Lemma reconcileUpdate_present instance helper :
  wp (reconcileUpdate instance helper) (fun _ evs => snapshotsPresent evs).
Proof. unfold reconcileUpdate. wp_walk. present_leaf. Qed.

Lemma reconcileUpgrade_present instance helper :
  wp (reconcileUpgrade instance helper) (fun _ evs => snapshotsPresent evs).
Proof. unfold reconcileUpgrade. wp_walk. present_leaf. Qed.

Lemma reconcileNormal_present instance helper :
  statusMapsPresent instance ->
  wp (reconcileNormal w instance helper)
     (fun out evs => statusMapsPresent (fst out) /\ snapshotsPresent evs).
Proof.
  intros Hpresent0. unfold reconcileNormal.
  pose proof (statusMapsPresent_AddFinalizer instance (GetFinalizer helper)
                Hpresent0) as Hpresent.
  set (instance1 := AddFinalizer instance (GetFinalizer helper)) in *.
  clearbody instance1. clear Hpresent0.
  apply wp_bind, wp_LogInfo, wp_bind, wp_call. intros tr0.
  destruct (Client_Update _ _ _); [wp_walk; present_leaf|].
  apply wp_bind, wp_call. intros tr1.
  destruct (GetSecret _ _ _ _) as [e|[ospSecret hash]].
  { destruct (IsNotFound e); wp_walk; present_leaf. }
  apply wp_bind.
  eapply wp_mono; [by apply generateServiceConfigMaps_present|].
  intros [configMapVars err] evs Hevs.
  destruct err; [wp_walk; present_leaf; done|].
  apply wp_bind, wp_call. intros tr2.
  destruct (GetConfigMaps _ _ _ _ _ _) as [configMapVars' [e|]].
  { destruct (IsNotFound e); wp_walk; present_leaf; done. }
  apply wp_bind.
  eapply wp_mono; [by apply createHashOfInputHashes_present|].
  intros [instance2 [inputHash err]] evs2 [Hpresent2 Hevs2]. cbn [fst] in Hpresent2.
  destruct err; [wp_walk; present_leaf; done|].
  apply wp_bind.
  eapply wp_mono; [by apply reconcileInit_present|].
  intros [instance3 [ctrlResult err]] evs3 [Hpresent3 Hevs3]. cbn [fst] in Hpresent3.
  destruct err; [wp_walk; present_leaf; done|].
  destruct (bool_decide (ctrlResult <> Result_zero)); [wp_walk; present_leaf; done|].
  apply wp_bind.
  eapply wp_mono; [by apply reconcileUpdate_present|].
  intros [ctrlResult4 err] evs4 Hevs4.
  destruct err; [wp_walk; present_leaf; done|].
  destruct (bool_decide (ctrlResult4 <> Result_zero)); [wp_walk; present_leaf; done|].
  apply wp_bind.
  eapply wp_mono; [by apply reconcileUpgrade_present|].
  intros [ctrlResult5 err] evs5 Hevs5.
  destruct err; [wp_walk; present_leaf; done|].
  destruct (bool_decide (ctrlResult5 <> Result_zero)); [wp_walk; present_leaf; done|].
  apply wp_bind, wp_call. intros tr6.
  destruct (Deployment_CreateOrPatch _ _ _ _) as [[readyReplicas ctrlResult6] [e|]];
    [wp_walk; present_leaf; done|].
  destruct (bool_decide (ctrlResult6 <> Result_zero)); wp_walk; present_leaf; done.
Qed.

Lemma deferredStatusPatch_present instance helper :
  statusMapsPresent instance ->
  wp (deferredStatusPatch w instance helper) (fun _ evs => snapshotsPresent evs).
Proof.
  intros Hpresent. unfold deferredStatusPatch.
  apply wp_bind, wp_call. intros tr0.
  destruct (Helper_SetAfter _ _ _ _) as [helper' err].
  apply wp_bind.
  apply wp_mono with (P := fun _ evs => snapshotsPresent evs).
  { destruct err; [apply wp_call; intros ?|apply wp_ret]; present_leaf. }
  intros [] evs Hevs.
  destruct (default false (GetChanges helper' !! "status"));
    wp_walk; present_leaf; done.
Qed.

Lemma initStatus_maps (fetched : CinderAPI) :
  Conditions (Status (initStatus fetched))
    = Some (default [] (Conditions (Status fetched))) /\
  Hash (Status (initStatus fetched))
    = Some (default ∅ (Hash (Status fetched))) /\
  APIEndpoints (Status (initStatus fetched))
    = Some (default ∅ (APIEndpoints (Status fetched))) /\
  ServiceIDs (Status (initStatus fetched))
    = Some (default ∅ (ServiceIDs (Status fetched))).
Proof.
  destruct fetched as [k n ns dt fs sp [[c|] [h|] [a|] [i|] r]]; by repeat split.
Qed.

Lemma initStatus_present (fetched : CinderAPI) :
  statusMapsPresent (initStatus fetched).
Proof.
  destruct (initStatus_maps fetched) as (Hc & Hh & Ha & Hi).
  unfold statusMapsPresent. by rewrite Hc, Hh, Ha, Hi.
Qed.

(** The handler [Reconcile] picks. *)
Lemma handler_present instance helper :
  statusMapsPresent instance ->
  wp (if negb (DeletionTimestamp_IsZero instance)
      then reconcileDelete w instance helper
      else reconcileNormal w instance helper)
     (fun out evs => statusMapsPresent (fst out) /\ snapshotsPresent evs).
Proof.
  intros Hpresent. destruct (negb _).
  - by apply reconcileDelete_present.
  - by apply reconcileNormal_present.
Qed.

(** C9: on a pass that fetched the resource, each of the four status maps
    becomes the empty value when it was nil and stays what it was
    otherwise; the pass goes on with that resource, and every resource it
    hands to a collaborator from then on has all four maps non-nil. *)
Theorem Reconcile_initialises_status_maps req tr fetched :
  Client_Get w tr req = inr fetched ->
  (Conditions (Status (initStatus fetched))
     = Some (default [] (Conditions (Status fetched))) /\
   Hash (Status (initStatus fetched))
     = Some (default ∅ (Hash (Status fetched))) /\
   APIEndpoints (Status (initStatus fetched))
     = Some (default ∅ (APIEndpoints (Status fetched))) /\
   ServiceIDs (Status (initStatus fetched))
     = Some (default ∅ (ServiceIDs (Status fetched)))) /\
  exists rest,
    snd (Reconcile w req tr) =
      tr ++ [EvClientGet req; EvNewHelper (initStatus fetched)] ++ rest /\
    snapshotsPresent rest.
Proof.
  intros Hget. split; [apply initStatus_maps|].
  unfold Reconcile. step. rewrite Hget.
  destruct (Helper_New _ _ _) as [e|helper].
  { exists []. split; [by trace_norm|constructor]. }
  pose proof (initStatus_present fetched) as Hpresent.
  destruct (handler_present (initStatus fetched) helper Hpresent
              ((tr ++ [EvClientGet req]) ++ [EvNewHelper (initStatus fetched)]))
    as (evs & Htr & Hpresent' & Hevs).
  destruct (if negb _ then _ else _) as [[instance' res] tr'].
  cbn [fst snd] in *. subst tr'.
  destruct (deferredStatusPatch_present instance' helper Hpresent'
              (((tr ++ [EvClientGet req]) ++ [EvNewHelper (initStatus fetched)])
                 ++ evs))
    as (evs' & Htr' & Hevs').
  destruct (deferredStatusPatch _ _ _ _) as [[] tr''].
  cbn [fst snd] in *. subst tr''.
  exists (evs ++ evs'). split; [by trace_norm|by apply snapshotsPresent_app].
Qed.

(** C7: with the aggregate hash of the merged inputs computed, the hash is
    stored under the input-hash key and a status update is issued at once
    when it differs from the entry stored there (an absent entry differs);
    when it equals the stored entry, neither the resource nor the trace
    changes. *)
Theorem createHashOfInputHashes_stores_changed_hash instance envVars tr hash :
  SetHash_contract ->
  ObjectHash (MergeEnvs [] envVars) = (hash, None) ->
  (default ∅ (Hash (Status instance)) !! InputHashName <> Some hash ->
   let instance' :=
     set_Status instance
       (set_Hash (Status instance)
          (Some (<[InputHashName := hash]> (default ∅ (Hash (Status instance)))))) in
   exists logs,
     createHashOfInputHashes w instance envVars tr =
       (instance', (hash, Status_Update w tr instance'),
        tr ++ EvStatusUpdate instance' :: logs) /\
     statusUpdates logs = []) /\
  (default ∅ (Hash (Status instance)) !! InputHashName = Some hash ->
   createHashOfInputHashes w instance envVars tr = (instance, (hash, None), tr)).
Proof.
  intros Hcontract Hhash. unfold createHashOfInputHashes.
  rewrite Hhash, Hcontract. split; intros Hstored.
  - rewrite bool_decide_eq_false_2 by done.
    set (stored := <[InputHashName := hash]> (default ∅ (Hash (Status instance)))).
    set (instance' := set_Status instance (set_Hash (Status instance) (Some stored))).
    exists (match Status_Update w tr instance' with
            | Some _ => []
            | None => [EvLogInfo ("Input maps hash " +:+ InputHashName +:+ " - " +:+ hash)]
            end).
    assert (Haliased :
      (let aliased :=
         match Hash (Status instance) with
         | Some _ => instance'
         | None => instance
         end in
       set_Status aliased (set_Hash (Status aliased) (Some stored))) = instance')
      by (by destruct (Hash (Status instance))).
    cbn zeta in Haliased. rewrite Haliased. step.
    destruct (Status_Update w tr instance'); [done|]. split; [by trace_norm|done].
  - rewrite bool_decide_eq_true_2 by done. unfold ret.
    destruct instance as [k n ns dt fs sp [c [g|] a i r]]; [done|].
    cbn in Hstored. by rewrite lookup_empty in Hstored.
Qed.

Lemma RemoveFinalizer_removed (instance : CinderAPI) f :
  f ∉ Finalizers (RemoveFinalizer instance f).
Proof.
  unfold RemoveFinalizer. cbn [Finalizers set_Finalizers].
  rewrite list_elem_of_filter. by intros [? _].
Qed.

(** The delete path once the guard on [Status.APIEndpoints] has passed. *)
Lemma reconcileDelete_run instance helper tr :
  APIEndpoints (Status instance) <> None ->
  reconcileDelete w instance helper tr =
    let v2 := deregistrationOf instance keystoneServiceV2 in
    let v3 := deregistrationOf instance keystoneServiceV3 in
    let instance' := RemoveFinalizer instance (GetFinalizer helper) in
    let tr2 := tr ++ [EvLogInfo "Reconciling Service delete"; EvKeystoneDelete v2] in
    let tr3 := tr ++ [EvLogInfo "Reconciling Service delete"; EvKeystoneDelete v2;
                      EvKeystoneDelete v3] in
    let tr4 := tr ++ [EvLogInfo "Reconciling Service delete"; EvKeystoneDelete v2;
                      EvKeystoneDelete v3;
                      EvLogInfo "Reconciled Service delete successfully"] in
    match KeystoneService_Delete w
            (tr ++ [EvLogInfo "Reconciling Service delete"]) v2 helper with
    | Some e => (instance, (Result_zero, Some e), tr2)
    | None =>
        match KeystoneService_Delete w tr2 v3 helper with
        | Some e => (instance, (Result_zero, Some e), tr3)
        | None =>
            (instance',
             (Result_zero,
              match Client_Update w tr4 instance' with
              | Some e => if IsNotFound e then None else Some e
              | None => None
              end),
             tr4 ++ [EvClientUpdate instance'])
        end
    end.
Proof.
  intros Hguard. unfold reconcileDelete. step.
  rewrite bool_decide_eq_true_2 by done.
  unfold keystoneServices. cbn [deleteKeystoneServices]. step.
  fold (deregistrationOf instance keystoneServiceV2).
  fold (deregistrationOf instance keystoneServiceV3).
  cbn zeta.
  destruct (KeystoneService_Delete w _ (deregistrationOf instance keystoneServiceV2) _);
    [by trace_norm|].
  trace_norm.
  destruct (KeystoneService_Delete w _ (deregistrationOf instance keystoneServiceV3) _);
    [by trace_norm|].
  trace_norm.
  destruct (Client_Update _ _ _) as [e|]; [|by trace_norm].
  destruct (IsNotFound e); by trace_norm.
Qed.

(** C8: in the delete path (the guard on the endpoints map passed, as it
    does whenever [Reconcile] calls it), a failing deregistration is
    returned at once with the resource, its finalizers included, as it
    was and nothing persisted; the resource is persisted only when both
    deregistrations succeeded, and then without the finalizer; a
    not-found answer to that persist gives a nil error, any other error
    is returned. *)
Theorem reconcileDelete_finalizer_after_deregistration instance helper tr :
  APIEndpoints (Status instance) <> None ->
  let v2 := deregistrationOf instance keystoneServiceV2 in
  let v3 := deregistrationOf instance keystoneServiceV3 in
  let instance' := RemoveFinalizer instance (GetFinalizer helper) in
  let tr1 := tr ++ [EvLogInfo "Reconciling Service delete"] in
  let tr2 := tr ++ [EvLogInfo "Reconciling Service delete"; EvKeystoneDelete v2] in
  let tr3 := tr ++ [EvLogInfo "Reconciling Service delete"; EvKeystoneDelete v2;
                    EvKeystoneDelete v3] in
  let tr4 := tr ++ [EvLogInfo "Reconciling Service delete"; EvKeystoneDelete v2;
                    EvKeystoneDelete v3;
                    EvLogInfo "Reconciled Service delete successfully"] in
  let run := reconcileDelete w instance helper tr in
  (forall e, KeystoneService_Delete w tr1 v2 helper = Some e ->
     run = (instance, (Result_zero, Some e), tr2)) /\
  (forall e, KeystoneService_Delete w tr1 v2 helper = None ->
     KeystoneService_Delete w tr2 v3 helper = Some e ->
     run = (instance, (Result_zero, Some e), tr3)) /\
  (KeystoneService_Delete w tr1 v2 helper = None ->
   KeystoneService_Delete w tr2 v3 helper = None ->
   exists err,
     run = (instance', (Result_zero, err), tr4 ++ [EvClientUpdate instance']) /\
     (GetFinalizer helper ∉ Finalizers instance') /\
     (Client_Update w tr4 instance' = None -> err = None) /\
     (forall e, Client_Update w tr4 instance' = Some e ->
        err = if IsNotFound e then None else Some e)) /\
  (updates (snd run) <> updates tr ->
   KeystoneService_Delete w tr1 v2 helper = None /\
   KeystoneService_Delete w tr2 v3 helper = None).
Proof.
  intros Hguard. cbn zeta. rewrite (reconcileDelete_run _ _ _ Hguard). cbn zeta.
  split; [|split; [|split]].
  - by intros e ->.
  - by intros e -> ->.
  - intros -> ->. eexists. split; [reflexivity|].
    split; [apply RemoveFinalizer_removed|].
    split; [by intros ->|by intros e ->].
  - destruct (KeystoneService_Delete w _ (deregistrationOf instance keystoneServiceV2) _).
    { cbn [snd]. rewrite updates_app. cbn. by rewrite app_nil_r. }
    destruct (KeystoneService_Delete w _ (deregistrationOf instance keystoneServiceV3) _);
      [|done].
    cbn [snd]. rewrite updates_app. cbn. by rewrite app_nil_r.
Qed.

(** With a nil endpoints map [reconcileDelete] itself asks for no
    deregistration: the guard holds them back. *)
Lemma reconcileDelete_without_endpoints instance helper tr :
  APIEndpoints (Status instance) = None ->
  deregistrations (snd (reconcileDelete w instance helper tr)) = deregistrations tr /\
  updates (snd (reconcileDelete w instance helper tr))
    = updates tr ++ [RemoveFinalizer instance (GetFinalizer helper)].
Proof.
  intros Hnil. unfold reconcileDelete. step.
  rewrite bool_decide_eq_false_2 by (intros Hne; by apply Hne). step.
  destruct (Client_Update _ _ _) as [e|]; [destruct (IsNotFound e)|];
    cbn [negb snd]; trace_norm;
    rewrite deregistrations_app, updates_app; cbn; by rewrite app_nil_r.
Qed.

(** [Reconcile] never meets that case: it makes the map before it calls
    the delete path, so on a resource marked for deletion the first
    deregistration is always asked for. *)
Lemma Reconcile_delete_always_deregisters req tr fetched helper :
  Client_Get w tr req = inr fetched ->
  Helper_New w (tr ++ [EvClientGet req]) (initStatus fetched) = inr helper ->
  DeletionTimestamp_IsZero (initStatus fetched) = false ->
  exists rest,
    snd (Reconcile w req tr) =
      tr ++ [EvClientGet req; EvNewHelper (initStatus fetched);
             EvLogInfo "Reconciling Service delete";
             EvKeystoneDelete (deregistrationOf (initStatus fetched) keystoneServiceV2)]
         ++ rest.
Proof.
  intros Hget Hhelper Hdeleted. unfold Reconcile. step.
  rewrite Hget, Hhelper, Hdeleted. cbn [negb].
  assert (Hguard : APIEndpoints (Status (initStatus fetched)) <> None)
    by apply initStatus_present.
  rewrite (reconcileDelete_run _ _ _ Hguard). cbn zeta.
  set (tr0 := (tr ++ [EvClientGet req]) ++ [EvNewHelper (initStatus fetched)]).
  assert (Hdefer : forall i tr', exists evs,
    snd (deferredStatusPatch w i helper tr') = tr' ++ evs).
  { intros i tr'. unfold deferredStatusPatch. step.
    destruct (Helper_SetAfter _ _ _ _) as [helper' [e|]]; cbn beta iota;
      destruct (default false _); try destruct (Status_Patch _ _ _ _) as [e'|];
      try destruct (negb (IsNotFound e')); eexists; trace_norm; reflexivity. }
  destruct (KeystoneService_Delete w _ _ _) as [e|].
  { destruct (Hdefer (initStatus fetched)
                (tr0 ++ [EvLogInfo "Reconciling Service delete";
                         EvKeystoneDelete
                           (deregistrationOf (initStatus fetched) keystoneServiceV2)]))
      as [evs Hevs].
    destruct (deferredStatusPatch _ _ _ _) as [[] tr']. cbn [snd] in *.
    exists evs. subst tr' tr0. by trace_norm. }
  destruct (KeystoneService_Delete w _ _ _) as [e|].
  - match goal with
    | |- context [deferredStatusPatch w ?i helper ?t] =>
        destruct (Hdefer i t) as [evs Hevs];
        destruct (deferredStatusPatch w i helper t) as [[] tr']
    end.
    cbn [snd] in *. subst tr' tr0. eexists. trace_norm. reflexivity.
  - match goal with
    | |- context [deferredStatusPatch w ?i helper ?t] =>
        destruct (Hdefer i t) as [evs Hevs];
        destruct (deferredStatusPatch w i helper t) as [[] tr']
    end.
    cbn [snd] in *. subst tr' tr0. eexists. trace_norm. reflexivity.
Qed.

(** ** Runs only append to the trace *)

Lemma registerKeystoneServices_appends svcs instance helper serviceLabels :
  wp (registerKeystoneServices w svcs instance helper serviceLabels)
     (fun _ _ => True).
Proof.
  revert instance.
  induction svcs as [|ksSvc rest IH]; intros instance;
    cbn [registerKeystoneServices].
  - by wp_walk.
  - apply wp_bind, wp_call. intros tr0.
    destruct (KeystoneService_CreateOrPatch _ _ _ _) as [[serviceID ctrlResult] [e|]];
      [by wp_walk|].
    destruct (bool_decide (ctrlResult <> Result_zero)); [by wp_walk|].
    eapply wp_mono; [apply IH|done].
Qed.

Lemma reconcileInit_appends instance helper serviceLabels :
  wp (reconcileInit w instance helper serviceLabels) (fun _ _ => True).
Proof.
  unfold reconcileInit.
  apply wp_bind, wp_LogInfo, wp_bind, wp_call. intros tr0.
  destruct (ExposeEndpoints _ _ _ _ _ _) as [[apiEndpointsV2 ctrlResult] [e|]];
    [by wp_walk|].
  destruct (bool_decide (ctrlResult <> Result_zero)); [by wp_walk|].
  apply wp_bind, wp_call. intros tr1.
  destruct (ExposeEndpoints _ _ _ _ _ _) as [[apiEndpointsV3 ctrlResult3] [e|]];
    [by wp_walk|].
  destruct (bool_decide (ctrlResult3 <> Result_zero)); [by wp_walk|].
  apply wp_bind, wp_call. intros tr2.
  destruct (GetSecret _ _ _ _) as [e|fetched].
  { destruct (IsNotFound e); by wp_walk. }
  apply wp_bind.
  eapply wp_mono; [apply registerKeystoneServices_appends|].
  intros [instance'' returned] evs _.
  destruct returned; by wp_walk.
Qed.

Lemma createHashOfInputHashes_appends instance envVars :
  wp (createHashOfInputHashes w instance envVars) (fun _ _ => True).
Proof.
  unfold createHashOfInputHashes.
  destruct (ObjectHash _) as [hash [e|]]; [by wp_walk|].
  destruct (SetHash _ _ _) as [hashMap changed].
  destruct changed; by wp_walk.
Qed.

(** A run that starts with a call has that call as its next event. *)
Lemma bind_call_first {A B} ev (answer : Trace -> A) (k : A -> M B) tr :
  (forall a, wp (k a) (fun _ _ => True)) ->
  exists rest, snd (bind (call ev answer) k tr) = tr ++ ev :: rest.
Proof.
  intros Hk. unfold bind, call.
  destruct (Hk (answer tr) (tr ++ [ev])) as (evs & Htr & _).
  exists evs. rewrite Htr. by trace_norm.
Qed.

(** C2 (as amended): when the config-map ensurer fails,
    [generateServiceConfigMaps] returns a nil error and logs nothing, and
    the normal path goes on: its next call is the lookup of the parent's
    config maps, with the variables the ensurer left. *)
Theorem generateServiceConfigMaps_swallows_failure
    instance helper tr ospSecret hash envVars' e :
  let instance1 := AddFinalizer instance (GetFinalizer helper) in
  let envVars : gmap string Setter := <[Secret_Name ospSecret := SetValue hash]> ∅ in
  let tr3 := tr ++ [EvLogInfo "Reconciling Service"; EvClientUpdate instance1;
                    EvGetSecret (SpecSecret (Spec instance)) (Namespace instance)] in
  let ensure := EvEnsureConfigMaps instance1 (serviceConfigTemplates instance1) envVars in
  Client_Update w (tr ++ [EvLogInfo "Reconciling Service"]) instance1 = None ->
  GetSecret w (tr ++ [EvLogInfo "Reconciling Service"; EvClientUpdate instance1])
    (SpecSecret (Spec instance)) (Namespace instance) = inr (ospSecret, hash) ->
  EnsureConfigMaps w tr3 instance1 (serviceConfigTemplates instance1) envVars
    = (envVars', Some e) ->
  generateServiceConfigMaps w helper instance1 envVars tr3
    = ((envVars', None), tr3 ++ [ensure]) /\
  logged (snd (generateServiceConfigMaps w helper instance1 envVars tr3))
    = logged tr3 /\
  exists rest,
    snd (reconcileNormal w instance helper tr) =
      tr3 ++ [ensure;
              EvGetConfigMaps instance1
                [GetOwningCinderName instance1 +:+ "-scripts";
                 GetOwningCinderName instance1 +:+ "-config-data"]
                (Namespace instance1) envVars'] ++ rest.
Proof.
  cbn zeta. intros Hupdate Hsecret Hensure.
  assert (Hgen : generateServiceConfigMaps w helper
      (AddFinalizer instance (GetFinalizer helper))
      (<[Secret_Name ospSecret := SetValue hash]> ∅)
      (tr ++ [EvLogInfo "Reconciling Service";
              EvClientUpdate (AddFinalizer instance (GetFinalizer helper));
              EvGetSecret (SpecSecret (Spec instance)) (Namespace instance)])
    = ((envVars', None),
       (tr ++ [EvLogInfo "Reconciling Service";
               EvClientUpdate (AddFinalizer instance (GetFinalizer helper));
               EvGetSecret (SpecSecret (Spec instance)) (Namespace instance)])
         ++ [EvEnsureConfigMaps (AddFinalizer instance (GetFinalizer helper))
               (serviceConfigTemplates (AddFinalizer instance (GetFinalizer helper)))
               (<[Secret_Name ospSecret := SetValue hash]> ∅)])).
  { unfold generateServiceConfigMaps. step. by rewrite Hensure. }
  split; [exact Hgen|]. split.
  { rewrite Hgen. cbn [snd]. rewrite logged_app. cbn. by rewrite app_nil_r. }
  unfold reconcileNormal.
  unfold bind at 1. unfold LogInfo at 1. unfold call at 1.
  unfold bind at 1. unfold call at 1. rewrite Hupdate.
  unfold bind at 1. unfold call at 1.
  rewrite Spec_AddFinalizer, Namespace_AddFinalizer. trace_norm.
  rewrite Hsecret.
  unfold bind at 1. rewrite Hgen.
  match goal with
  | |- context [bind (call ?ev ?answer) ?k ?t] =>
      destruct (bind_call_first ev answer k t) as [rest Hrest]
  end.
  2:{ exists rest. rewrite Hrest. by trace_norm. }
  intros [configMapVars [e'|]].
  { destruct (IsNotFound e'); by wp_walk. }
  apply wp_bind.
  eapply wp_mono; [apply createHashOfInputHashes_appends|].
  intros [instance2 [inputHash [e'|]]] evs2 _; [by wp_walk|].
  apply wp_bind.
  eapply wp_mono; [apply reconcileInit_appends|].
  intros [instance3 [ctrlResult [e'|]]] evs3 _; [by wp_walk|].
  destruct (bool_decide (ctrlResult <> Result_zero)); [by wp_walk|].
  unfold reconcileUpdate, reconcileUpgrade. by wp_walk.
Qed.

End ReconcilerProperties.

(** * The reconciler on the concrete cluster *)

Section ConcreteRuns.
Import controllers.

(** C1 (the code departs from the claim): a resource marked for deletion
    whose status has no endpoint data, nil map or empty map, is still
    deregistered: [Reconcile] has replaced a nil map by an empty one before
    the delete path tests it against nil, so both identity-service
    deregistrations are asked for before the finalizer goes. *)
Theorem Reconcile_deregisters_without_endpoints :
  APIEndpoints (Status Fixture.deleting) = None /\
  APIEndpoints (Status Fixture.deletingEmpty) = Some ∅ /\
  Fixture.names (deregistrations
    (snd (Reconcile (Fixture.world (Fixture.healthy Fixture.deleting))
            Fixture.request [])))
    = ["cinderv2"; "cinderv3"] /\
  Fixture.names (deregistrations
    (snd (Reconcile (Fixture.world (Fixture.healthy Fixture.deletingEmpty))
            Fixture.request [])))
    = ["cinderv2"; "cinderv3"] /\
  map Finalizers (updates
    (snd (Reconcile (Fixture.world (Fixture.healthy Fixture.deleting))
            Fixture.request [])))
    = [[]] /\
  fst (Reconcile (Fixture.world (Fixture.healthy Fixture.deleting))
         Fixture.request [])
    = (Result_zero, None).
Proof. vm_compute. repeat split. Qed.

(** The whole pass on that resource, call by call. *)
Example Reconcile_deleting_calls :
  map (fun ev => match ev with
                 | EvClientGet _ => "Get"
                 | EvNewHelper _ => "NewHelper"
                 | EvKeystoneDelete ks => "Delete " +:+ ServiceName_ (ks_service ks)
                 | EvClientUpdate _ => "Update"
                 | EvSetAfter _ => "SetAfter"
                 | EvLogInfo msg => "log: " +:+ msg
                 | _ => "other"
                 end)
    (snd (Reconcile (Fixture.world (Fixture.healthy Fixture.deleting))
            Fixture.request []))
  = ["Get"; "NewHelper"; "log: Reconciling Service delete";
     "Delete cinderv2"; "Delete cinderv3";
     "log: Reconciled Service delete successfully"; "Update"; "SetAfter"].
Proof. vm_compute. reflexivity. Qed.

Lemma reconcileNormal_missing_secret_witness :
  exists res err,
    fst (reconcileNormal (Fixture.world (Fixture.secretMissing Fixture.plain))
           Fixture.plain (Fixture.helperFor Fixture.plain) [])
      = (Fixture.plain, (res, Some err)) /\
    RequeueAfter res = 10000000000 /\
    ErrorMessage err = "OpenStack secret osp-secret not found".
Proof.
  destruct (reconcileNormal_missing_secret
              (Fixture.world (Fixture.secretMissing Fixture.plain))
              Fixture.plain (Fixture.helperFor Fixture.plain) []
              (Fixture.NotFound "osp-secret"))
    as (res & err & Hrun & _ & Hafter & Hmsg); [reflexivity..|].
  exists res, err. split; [by rewrite Hrun|]. split; [exact Hafter|exact Hmsg].
Defined.

Lemma reconcileInit_missing_secret_witness :
  exists res err,
    fst (reconcileInit (Fixture.world (Fixture.secretVanishes Fixture.plain))
           Fixture.plain (Fixture.helperFor Fixture.plain) (Some {[ "service" := "cinder" ]})
           [EvGetSecret "osp-secret" "openstack"])
      = (withEndpoints Fixture.plain
           (Some {[ "public" := "http://cinder-public-openstack.apps";
                    "internal" := "http://cinder-internal.openstack.svc:8776" ]})
           (Some {[ "public" := "http://cinder-public-openstack.apps";
                    "internal" := "http://cinder-internal.openstack.svc:8776" ]}),
         (res, Some err)) /\
    registrations
      (snd (reconcileInit (Fixture.world (Fixture.secretVanishes Fixture.plain))
              Fixture.plain (Fixture.helperFor Fixture.plain)
              (Some {[ "service" := "cinder" ]})
              [EvGetSecret "osp-secret" "openstack"])) = [] /\
    RequeueAfter res = 10000000000 /\
    ErrorMessage err = "OpenStack secret osp-secret not found".
Proof.
  destruct (reconcileInit_missing_secret
              (Fixture.world (Fixture.secretVanishes Fixture.plain))
              Fixture.plain (Fixture.helperFor Fixture.plain)
              (Some {[ "service" := "cinder" ]})
              [EvGetSecret "osp-secret" "openstack"]
              (Some {[ "public" := "http://cinder-public-openstack.apps";
                       "internal" := "http://cinder-internal.openstack.svc:8776" ]})
              (Some {[ "public" := "http://cinder-public-openstack.apps";
                       "internal" := "http://cinder-internal.openstack.svc:8776" ]})
              (Fixture.NotFound "osp-secret"))
    as (res & err & Hrun & Hregs & _ & Hnotfound & _); [reflexivity..|].
  destruct Hnotfound as [-> Hmsg]; [reflexivity|].
  eexists _, err. split; [by rewrite Hrun|]. split; [exact Hregs|]. split; [reflexivity|exact Hmsg].
Defined.

(** The same on a whole pass: the secret is there when the normal path
    first fetches it and gone when [reconcileInit] fetches it again. *)
Example Reconcile_secret_vanishes :
  fst (Reconcile (Fixture.world (Fixture.secretVanishes Fixture.plain))
         Fixture.request [])
    = ({| Requeue := false; RequeueAfter := 10000000000 |},
       Some (ErrorString "OpenStack secret osp-secret not found")) /\
  registrations
    (snd (Reconcile (Fixture.world (Fixture.secretVanishes Fixture.plain))
            Fixture.request [])) = [] /\
  secretFetches
    (snd (Reconcile (Fixture.world (Fixture.secretVanishes Fixture.plain))
            Fixture.request [])) = ["osp-secret"; "osp-secret"].
Proof. vm_compute. repeat split. Qed.

Lemma Fixture_SetHash_contract : SetHash_contract.
Proof. intros hashMap hashType hashStr. reflexivity. Qed.

Lemma createHashOfInputHashes_stores_changed_hash_witness :
  (exists instance',
     fst (createHashOfInputHashes (Fixture.world (Fixture.healthy Fixture.plain))
            Fixture.plain {[ "osp-secret" := "n5d8h64bh5c7" ]} [])
       = (instance', ("osp-secret=n5d8h64bh5c7", None)) /\
     Hash (Status instance') = Some {[ "input" := "osp-secret=n5d8h64bh5c7" ]} /\
     statusUpdates
       (snd (createHashOfInputHashes (Fixture.world (Fixture.healthy Fixture.plain))
               Fixture.plain {[ "osp-secret" := "n5d8h64bh5c7" ]} []))
       = [instance']) /\
  createHashOfInputHashes (Fixture.world (Fixture.healthy Fixture.plain))
    (Fixture.hashed "osp-secret=n5d8h64bh5c7") {[ "osp-secret" := "n5d8h64bh5c7" ]} []
    = (Fixture.hashed "osp-secret=n5d8h64bh5c7", ("osp-secret=n5d8h64bh5c7", None), []).
Proof.
  split.
  - destruct (createHashOfInputHashes_stores_changed_hash
                (Fixture.world (Fixture.healthy Fixture.plain))
                Fixture.plain {[ "osp-secret" := "n5d8h64bh5c7" ]} []
                "osp-secret=n5d8h64bh5c7" Fixture_SetHash_contract)
      as [Hchanged _]; [vm_compute; reflexivity|].
    destruct Hchanged as (logs & Hrun & Hlogs); [vm_compute; discriminate|].
    eexists. rewrite Hrun. split; [reflexivity|]. split; [reflexivity|].
    cbn [snd app].
    match goal with
    | |- statusUpdates (EvStatusUpdate ?i :: logs) = _ =>
        change (i :: statusUpdates logs = [i])
    end.
    by rewrite Hlogs.
  - apply (createHashOfInputHashes_stores_changed_hash
             (Fixture.world (Fixture.healthy Fixture.plain))
             (Fixture.hashed "osp-secret=n5d8h64bh5c7")
             {[ "osp-secret" := "n5d8h64bh5c7" ]} []
             "osp-secret=n5d8h64bh5c7" Fixture_SetHash_contract);
      vm_compute; reflexivity.
Defined.

Lemma reconcileDelete_finalizer_after_deregistration_witness :
  (* both deregistrations succeed: persisted without the finalizer *)
  (let run := reconcileDelete (Fixture.world (Fixture.healthy Fixture.deleting))
                (initStatus Fixture.deleting) (Fixture.helperFor Fixture.deleting) [] in
   snd (fst run) = (Result_zero, None) /\
   map Finalizers (updates (snd run)) = [[]]) /\
  (* the second one fails: returned, finalizer kept, nothing persisted *)
  (let run := reconcileDelete (Fixture.world (Fixture.deleteV3Fails Fixture.deleting))
                (initStatus Fixture.deleting) (Fixture.helperFor Fixture.deleting) [] in
   snd (fst run) = (Result_zero, Some (ErrorString "keystone unavailable")) /\
   Finalizers (fst (fst run)) = ["cinderapi"] /\
   updates (snd run) = []) /\
  (* the persist answers not-found: nil error *)
  (let run := reconcileDelete (Fixture.world (Fixture.goneOnUpdate Fixture.deleting))
                (initStatus Fixture.deleting) (Fixture.helperFor Fixture.deleting) [] in
   snd (fst run) = (Result_zero, None)).
Proof.
  assert (Hguard : APIEndpoints (Status (initStatus Fixture.deleting)) <> None)
    by discriminate.
  split; [|split]; cbn zeta.
  - destruct (reconcileDelete_finalizer_after_deregistration
                (Fixture.world (Fixture.healthy Fixture.deleting))
                (initStatus Fixture.deleting) (Fixture.helperFor Fixture.deleting) []
                Hguard) as (_ & _ & Hboth & _).
    destruct Hboth as (err & Hrun & _ & Hok & _); [reflexivity..|].
    rewrite Hrun, (Hok eq_refl). split; [reflexivity|vm_compute; reflexivity].
  - destruct (reconcileDelete_finalizer_after_deregistration
                (Fixture.world (Fixture.deleteV3Fails Fixture.deleting))
                (initStatus Fixture.deleting) (Fixture.helperFor Fixture.deleting) []
                Hguard) as (_ & Hsecond & _ & _).
    rewrite (Hsecond (ErrorString "keystone unavailable"));
      [|vm_compute; reflexivity..].
    split; [reflexivity|]. split; reflexivity.
  - destruct (reconcileDelete_finalizer_after_deregistration
                (Fixture.world (Fixture.goneOnUpdate Fixture.deleting))
                (initStatus Fixture.deleting) (Fixture.helperFor Fixture.deleting) []
                Hguard) as (_ & _ & Hboth & _).
    destruct Hboth as (err & Hrun & _ & _ & Hgone); [reflexivity..|].
    rewrite Hrun, (Hgone (Fixture.NotFound "cinder-api") eq_refl). reflexivity.
Defined.

Lemma Reconcile_initialises_status_maps_witness :
  Hash (Status (initStatus Fixture.plain)) = Some ∅ /\
  Hash (Status (initStatus (Fixture.hashed "n5d8h")))
    = Some {[ "input" := "n5d8h" ]} /\
  exists rest,
    snd (Reconcile (Fixture.world (Fixture.healthy Fixture.plain)) Fixture.request [])
      = [EvClientGet Fixture.request; EvNewHelper (initStatus Fixture.plain)] ++ rest /\
    snapshotsPresent rest.
Proof.
  split; [reflexivity|]. split; [reflexivity|].
  apply (Reconcile_initialises_status_maps
           (Fixture.world (Fixture.healthy Fixture.plain)) Fixture.request []
           Fixture.plain).
  reflexivity.
Defined.

Lemma generateServiceConfigMaps_swallows_failure_witness :
  snd (fst (generateServiceConfigMaps (Fixture.world (Fixture.ensureFails Fixture.plain))
              (Fixture.helperFor Fixture.plain) Fixture.plain
              {[ "osp-secret" := "n5d8h64bh5c7" ]}
              [EvLogInfo "Reconciling Service"; EvClientUpdate Fixture.plain;
               EvGetSecret "osp-secret" "openstack"]))
    = None /\
  exists rest,
    snd (reconcileNormal (Fixture.world (Fixture.ensureFails Fixture.plain))
           Fixture.plain (Fixture.helperFor Fixture.plain) [])
      = [EvLogInfo "Reconciling Service"; EvClientUpdate Fixture.plain;
         EvGetSecret "osp-secret" "openstack";
         EvEnsureConfigMaps Fixture.plain (serviceConfigTemplates Fixture.plain)
           {[ "osp-secret" := "n5d8h64bh5c7" ]};
         EvGetConfigMaps Fixture.plain ["cinder-scripts"; "cinder-config-data"]
           "openstack" {[ "osp-secret" := "n5d8h64bh5c7" ]}] ++ rest.
Proof.
  destruct (generateServiceConfigMaps_swallows_failure
              (Fixture.world (Fixture.ensureFails Fixture.plain))
              Fixture.plain (Fixture.helperFor Fixture.plain) []
              "osp-secret" "n5d8h64bh5c7" {[ "osp-secret" := "n5d8h64bh5c7" ]}
              (ErrorString "error create/updating configmap: forbidden"))
    as (Hgen & _ & rest & Hrest); [reflexivity..|].
  split.
  - change (AddFinalizer Fixture.plain
              (GetFinalizer (Fixture.helperFor Fixture.plain)))
      with Fixture.plain in Hgen.
    exact (f_equal (fun run => snd (fst run)) Hgen).
  - exists rest. exact Hrest.
Defined.

(** C2, as stated, fails: the ensurer's failure is swallowed without a
    log entry.  Here the ensurer fails, [generateServiceConfigMaps]
    returns nil and its only event is the call itself; over the whole
    pass the log shows the usual messages and nothing about the failure. *)
Lemma generateServiceConfigMaps_failure_not_logged :
  snd (EnsureConfigMaps (Fixture.world (Fixture.ensureFails Fixture.plain)) []
         Fixture.plain (serviceConfigTemplates Fixture.plain) ∅)
    = Some (ErrorString "error create/updating configmap: forbidden") /\
  generateServiceConfigMaps (Fixture.world (Fixture.ensureFails Fixture.plain))
    (Fixture.helperFor Fixture.plain) Fixture.plain ∅ []
    = ((∅, None),
       [EvEnsureConfigMaps Fixture.plain (serviceConfigTemplates Fixture.plain) ∅]) /\
  ~ (exists msg,
       EvLogInfo msg ∈
         snd (generateServiceConfigMaps
                (Fixture.world (Fixture.ensureFails Fixture.plain))
                (Fixture.helperFor Fixture.plain) Fixture.plain ∅ [])) /\
  logged (snd (Reconcile (Fixture.world (Fixture.ensureFails Fixture.plain))
                 Fixture.request []))
    = ["Reconciling Service";
       "Input maps hash input - osp-secret=n5d8h64bh5c7;cinder-scripts=n55dh67fh;cinder-config-data=n9ch5b8h";
       "Reconciling Service init"; "Reconciled Service init successfully";
       "Reconciling Service update"; "Reconciled Service update successfully";
       "Reconciling Service upgrade"; "Reconciled Service upgrade successfully";
       "Reconciled Service successfully"].
Proof.
  split; [reflexivity|]. split; [reflexivity|]. split.
  - intros [msg Hin]. cbn in Hin. apply list_elem_of_singleton in Hin. discriminate Hin.
  - vm_compute. reflexivity.
Qed.

End ConcreteRuns.

(** * The rest of the builder *)

Section BuilderCoverage.
Import cinderapi.
Context `{BuilderEnv}.

(** What one endpoint adds to the volumes: the volume of its rendered
    service when TLS is enabled for it, nothing otherwise. *)
Definition tlsVolumesFor (instance : CinderAPI) (endpt : Endpoint) : list Volume :=
  if Enabled (API (TLS (Spec instance))) endpt then
    match ToService (tlsEndptCfg instance endpt) with
    | inr svc => [Service_CreateVolume svc (Endpoint_String endpt)]
    | inl _ => []
    end
  else [].

(** What one endpoint adds to the mounts of the service container. *)
Definition tlsMountsFor (instance : CinderAPI) (endpt : Endpoint)
    : list VolumeMount :=
  if Enabled (API (TLS (Spec instance))) endpt then
    match ToService (tlsEndptCfg instance endpt) with
    | inr svc => Service_CreateVolumeMounts svc (Endpoint_String endpt)
    | inl _ => []
    end
  else [].

(** The pod's containers with their environment blanked. *)
Definition withoutEnv (c : Container) : Container :=
  {| Container_Name := Container_Name c; Command := Command c; Args := Args c;
     Image := Image c; SecurityContext_ := SecurityContext_ c; Env := [];
     VolumeMounts := VolumeMounts c;
     Container_Resources := Container_Resources c;
     ReadinessProbe := ReadinessProbe c; LivenessProbe := LivenessProbe c |}.

Definition withoutEnvs (sts : StatefulSetObj) : StatefulSetObj :=
  let spec := Sts_Spec sts in
  let pod := Template_Spec (Template spec) in
  {| Sts_ObjectMeta := Sts_ObjectMeta sts;
     Sts_Spec :=
       {| Selector := Selector spec;
          Sts_Replicas := Sts_Replicas spec;
          Template :=
            {| Template_ObjectMeta := Template_ObjectMeta (Template spec);
               Template_Spec :=
                 {| ServiceAccountName := ServiceAccountName pod;
                    Containers := map withoutEnv (Containers pod);
                    Pod_Affinity := Pod_Affinity pod;
                    Pod_NodeSelector := Pod_NodeSelector pod;
                    Volumes := Volumes pod |} |} |} |}.

(** The TLS loop, when it runs to its end, has appended each endpoint's
    share in the order of the list. *)
Lemma tlsEndpointVolumes_appends instance endpts volumes volumeMounts vs ms :
  tlsEndpointVolumes instance endpts volumes volumeMounts = inr (vs, ms) ->
  vs = volumes ++ flat_map (tlsVolumesFor instance) endpts /\
  ms = volumeMounts ++ flat_map (tlsMountsFor instance) endpts.
Proof.
  revert volumes volumeMounts.
  induction endpts as [|endpt rest IH]; intros volumes volumeMounts Hrun;
    cbn [tlsEndpointVolumes flat_map] in *.
  - injection Hrun as <- <-. by rewrite !app_nil_r.
  - unfold tlsVolumesFor at 1, tlsMountsFor at 1.
    destruct (Enabled (API (TLS (Spec instance))) endpt).
    + destruct (ToService (tlsEndptCfg instance endpt)) as [e|svc]; [discriminate|].
      destruct (IH _ _ Hrun) as [-> ->]. by rewrite <- !app_assoc.
    + destruct (IH _ _ Hrun) as [-> ->]. done.
Qed.

(** The loop stops at the first enabled endpoint that does not render. *)
Lemma tlsEndpointVolumes_first_error instance endpt rest volumes volumeMounts e :
  Enabled (API (TLS (Spec instance))) endpt = true ->
  ToService (tlsEndptCfg instance endpt) = inl e ->
  tlsEndpointVolumes instance (endpt :: rest) volumes volumeMounts = inl e.
Proof. intros Hen Hsvc. cbn [tlsEndpointVolumes]. by rewrite Hen, Hsvc. Qed.

(** X1: a rendered StatefulSet has, in this order, the base volumes, the
    CA bundle volume when a CA bundle secret is named, the TLS volume of
    the service rendered from the internal configuration when TLS is
    enabled for the internal endpoint, and then the TLS volume of the
    service rendered from the public configuration when TLS is enabled
    for the public endpoint; the service container's mounts are assembled
    the same way, and the log sidecar mounts the log volume only. *)
Theorem StatefulSet_volumes_in_order instance configHash labels annotations sts :
  StatefulSet instance configHash labels annotations = (Some sts, None) ->
  Volumes (Template_Spec (Template (Sts_Spec sts))) =
    GetVolumes (GetOwningCinderName instance) (Name instance)
      (ExtraMounts (Spec instance))
    ++ (if bool_decide (CaBundleSecretName (TLS (Spec instance)) <> "")
        then [Ca_CreateVolume (TLS (Spec instance))] else [])
    ++ (if Enabled (API (TLS (Spec instance))) EndpointInternal then
          match ToService (Internal (API (TLS (Spec instance)))) with
          | inr svc => [Service_CreateVolume svc (Endpoint_String EndpointInternal)]
          | inl _ => []
          end
        else [])
    ++ (if Enabled (API (TLS (Spec instance))) EndpointPublic then
          match ToService (Public (API (TLS (Spec instance)))) with
          | inr svc => [Service_CreateVolume svc (Endpoint_String EndpointPublic)]
          | inl _ => []
          end
        else []) /\
  exists sidecar service,
    Containers (Template_Spec (Template (Sts_Spec sts))) = [sidecar; service] /\
    VolumeMounts sidecar = [GetLogVolumeMount] /\
    VolumeMounts service =
      GetVolumeMounts (ExtraMounts (Spec instance))
      ++ (if bool_decide (CaBundleSecretName (TLS (Spec instance)) <> "")
          then Ca_CreateVolumeMounts (TLS (Spec instance)) else [])
      ++ (if Enabled (API (TLS (Spec instance))) EndpointInternal then
            match ToService (Internal (API (TLS (Spec instance)))) with
            | inr svc => Service_CreateVolumeMounts svc (Endpoint_String EndpointInternal)
            | inl _ => []
            end
          else [])
      ++ (if Enabled (API (TLS (Spec instance))) EndpointPublic then
            match ToService (Public (API (TLS (Spec instance)))) with
            | inr svc => Service_CreateVolumeMounts svc (Endpoint_String EndpointPublic)
            | inl _ => []
            end
          else []).
Proof.
  unfold StatefulSet.
  destruct (Debug_Service (Debug (Spec instance)));
    destruct (bool_decide (CaBundleSecretName (TLS (Spec instance)) <> ""));
    destruct (tlsEndpointVolumes _ _ _ _) as [e|[vols mounts]] eqn:Hloop;
    try discriminate;
    intros [= <-]; cbn [Volumes Template_Spec Template Sts_Spec Containers];
    destruct (tlsEndpointVolumes_appends _ _ _ _ _ _ Hloop) as [-> ->];
    cbn [flat_map]; unfold tlsVolumesFor, tlsMountsFor; cbn [tlsEndptCfg];
    rewrite ?app_nil_r, <- ?app_assoc;
    (split; [reflexivity|]); do 2 eexists; (split; [reflexivity|]);
    by split.
Qed.

(** X2: the endpoints are rendered in the order internal, public, and the
    builder returns the error of the first TLS-enabled one that does not
    render: the internal one's whenever it fails, the public one's only
    when the internal one is disabled or rendered. *)
Theorem StatefulSet_first_failing_endpoint
    instance configHash labels annotations e :
  (Enabled (API (TLS (Spec instance))) EndpointInternal = true ->
   ToService (Internal (API (TLS (Spec instance)))) = inl e ->
   StatefulSet instance configHash labels annotations = (None, Some e)) /\
  ((Enabled (API (TLS (Spec instance))) EndpointInternal = false \/
    exists svc, ToService (Internal (API (TLS (Spec instance)))) = inr svc) ->
   Enabled (API (TLS (Spec instance))) EndpointPublic = true ->
   ToService (Public (API (TLS (Spec instance)))) = inl e ->
   StatefulSet instance configHash labels annotations = (None, Some e)).
Proof.
  split.
  - intros Hen Hsvc. unfold StatefulSet.
    destruct (Debug_Service (Debug (Spec instance)));
      destruct (bool_decide (CaBundleSecretName (TLS (Spec instance)) <> ""));
      by rewrite (tlsEndpointVolumes_first_error _ _ _ _ _ e Hen Hsvc).
  - intros Hinternal Hen Hsvc. unfold StatefulSet.
    destruct (Debug_Service (Debug (Spec instance)));
      destruct (bool_decide (CaBundleSecretName (TLS (Spec instance)) <> ""));
      cbn [tlsEndpointVolumes tlsEndptCfg];
      (destruct Hinternal as [-> | [svc ->]];
         [|destruct (Enabled (API (TLS (Spec instance))) EndpointInternal)]);
      by rewrite Hen, Hsvc.
Qed.

(** X3: the config hash reaches the object through the containers'
    environment only.  Two hashes give the same error, or two objects
    that agree once the environments are blanked; in each object both
    containers get the environment merged from the two-entry map that
    sets KOLLA_CONFIG_STRATEGY to COPY_ALWAYS and CONFIG_HASH to the
    hash. *)
Theorem StatefulSet_configHash_only_in_env
    instance configHash configHash' labels annotations :
  snd (StatefulSet instance configHash labels annotations)
    = snd (StatefulSet instance configHash' labels annotations) /\
  withoutEnvs <$> fst (StatefulSet instance configHash labels annotations)
    = withoutEnvs <$> fst (StatefulSet instance configHash' labels annotations) /\
  forall sts,
    fst (StatefulSet instance configHash labels annotations) = Some sts ->
    exists vars : gmap string Setter,
      Forall (fun c => Env c = MergeEnvs [] vars)
        (Containers (Template_Spec (Template (Sts_Spec sts)))) /\
      vars !! "CONFIG_HASH" = Some (SetValue configHash) /\
      vars !! "KOLLA_CONFIG_STRATEGY" = Some (SetValue "COPY_ALWAYS") /\
      dom vars = {[ "CONFIG_HASH"; "KOLLA_CONFIG_STRATEGY" ]}.
Proof.
  unfold StatefulSet.
  destruct (Debug_Service (Debug (Spec instance)));
    destruct (bool_decide (CaBundleSecretName (TLS (Spec instance)) <> ""));
    destruct (tlsEndpointVolumes _ _ _ _) as [e|[vols mounts]];
    (split; [reflexivity|]); (split; [reflexivity|]);
    cbn [fst]; intros sts [= <-];
    eexists; (split; [by repeat constructor|]);
    (split; [by simplify_map_eq|]); (split; [by simplify_map_eq|]);
    rewrite !dom_insert_L, dom_empty_L; set_solver.
Qed.

(** X4: a rendered pod has exactly two containers.  The first is the log
    sidecar, named after the resource, tailing the log file, with no
    probe; the second is the service container, run by [/bin/bash -c]
    with the debug command when the debug flag is on and the service
    command otherwise.  Both use the resource's image and run as user 0. *)
Theorem StatefulSet_containers instance configHash labels annotations sts :
  StatefulSet instance configHash labels annotations = (Some sts, None) ->
  exists sidecar service,
    Containers (Template_Spec (Template (Sts_Spec sts))) = [sidecar; service] /\
    Container_Name sidecar = Name instance +:+ "-log" /\
    Command sidecar = ["/usr/bin/dumb-init"] /\
    Args sidecar = ["--single-child"; "--"; "/usr/bin/tail"; "-n+1"; "-F"; LogFile] /\
    LivenessProbe sidecar = None /\ ReadinessProbe sidecar = None /\
    Container_Name service = ComponentName /\
    Command service = ["/bin/bash"] /\
    Args service =
      ["-c"; if Debug_Service (Debug (Spec instance))
             then DebugCommand else ServiceCommand] /\
    Forall (fun c => Image c = ContainerImage (Spec instance) /\
                     SecurityContext_ c = Some {| RunAsUser := Some 0 |})
      [sidecar; service].
Proof.
  unfold StatefulSet.
  destruct (Debug_Service (Debug (Spec instance)));
    destruct (bool_decide (CaBundleSecretName (TLS (Spec instance)) <> ""));
    destruct (tlsEndpointVolumes _ _ _ _) as [e|[vols mounts]];
    try discriminate;
    intros [= <-]; do 2 eexists; (split; [reflexivity|]);
    repeat split; by repeat constructor.
Qed.

End BuilderCoverage.

(** * The rest of the reconciler *)

Section ReconcilerCoverage.
Import controllers.
Context `{ControllerEnv}.
Variable w : World.

(** [runs m tr Q]: started on the trace [tr], [m] appends events to it,
    and its value and the appended events satisfy [Q]. *)
Definition runs {A : Type} (m : M A) (tr : Trace) (Q : A -> Trace -> Prop) : Prop :=
  exists evs, snd (m tr) = tr ++ evs /\ Q (fst (m tr)) evs.

(** The handler [Reconcile] hands the resource to. *)
Definition handler (instance : CinderAPI) (helper : Helper)
    : M (CinderAPI * (Result * option error)) :=
  if negb (DeletionTimestamp_IsZero instance)
  then reconcileDelete w instance helper
  else reconcileNormal w instance helper.

(** The resources a trace sent to [Status().Patch]. *)
Definition statusPatches (tr : Trace) : list CinderAPI :=
  omap (fun ev => match ev with
                  | EvStatusPatch instance _ => Some instance
                  | _ => None
                  end) tr.

(** The events of the function [Reconcile] defers. *)
Definition deferredEvent (instance : CinderAPI) (ev : Event) : Prop :=
  match ev with
  | EvLogError _ _ i => i = instance
  | EvStatusPatch i _ => i = instance
  | _ => False
  end.

Lemma runs_ret {A} (a : A) tr (Q : A -> Trace -> Prop) : Q a [] -> runs (ret a) tr Q.
Proof. intros HQ. exists []. by rewrite app_nil_r. Qed.

Lemma runs_call {A} ev (answer : Trace -> A) tr (Q : A -> Trace -> Prop) :
  Q (answer tr) [ev] -> runs (call ev answer) tr Q.
Proof. intros HQ. by exists [ev]. Qed.

Lemma runs_bind {A B} (m : M A) (k : A -> M B) tr (Q : B -> Trace -> Prop) :
  runs m tr (fun a evs => runs (k a) (tr ++ evs) (fun b evs' => Q b (evs ++ evs'))) ->
  runs (bind m k) tr Q.
Proof.
  intros (evs & Htr & evs' & Htr' & HQ). unfold runs, bind.
  destruct (m tr) as [a tr']. cbn [fst snd] in *. subst tr'.
  exists (evs ++ evs'). split; [|exact HQ].
  rewrite Htr'. by rewrite app_assoc.
Qed.

Lemma runs_LogInfo msg tr (Q : unit -> Trace -> Prop) :
  Q tt [EvLogInfo msg] -> runs (LogInfo msg) tr Q.
Proof. intros HQ. by apply runs_call. Qed.

Lemma runs_LogErrorForObject e msg instance tr (Q : unit -> Trace -> Prop) :
  Q tt [EvLogError e msg instance] -> runs (LogErrorForObject e msg instance) tr Q.
Proof. intros HQ. by apply runs_call. Qed.

(** Walks a run from a given trace, splitting on every answer; the
    answers stay available as equations on the trace of their call. *)
Ltac runs_walk :=
  repeat match goal with
    | |- runs (bind _ _) _ _ => apply runs_bind
    | |- runs (LogInfo _) _ _ => apply runs_LogInfo
    | |- runs (LogErrorForObject _ _ _) _ _ => apply runs_LogErrorForObject
    | |- runs (call _ _) _ _ => apply runs_call
    | |- runs (ret _) _ _ => apply runs_ret
    | |- runs (match ?x with _ => _ end) _ _ => destruct x eqn:?
    | |- runs (let (_, _) := ?x in _) _ _ => destruct x eqn:?
    | |- _ => progress (lazy beta zeta)
    end.

(** The same walk when the answers themselves do not matter. *)
Ltac runs_skim :=
  repeat match goal with
    | |- runs (bind _ _) _ _ => apply runs_bind
    | |- runs (LogInfo _) _ _ => apply runs_LogInfo
    | |- runs (LogErrorForObject _ _ _) _ _ => apply runs_LogErrorForObject
    | |- runs (call _ _) _ _ => apply runs_call
    | |- runs (ret _) _ _ => apply runs_ret
    | |- runs (match ?x with _ => _ end) _ _ => destruct x
    | |- runs (let (_, _) := ?x in _) _ _ => destruct x
    | |- _ => progress (lazy beta zeta)
    end.

Ltac trace_norm := repeat rewrite <- app_assoc; cbn [app].

(** X5: when the resource cannot be fetched, [Reconcile] makes no other
    call; a not-found answer ends the pass without error, any other
    error is returned. *)
Theorem Reconcile_fetch_failure req tr e :
  Client_Get w tr req = inl e ->
  Reconcile w req tr =
    ((Result_zero, if IsNotFound e then None else Some e), tr ++ [EvClientGet req]).
Proof.
  intros Hget. unfold Reconcile, bind, call. rewrite Hget.
  by destruct (IsNotFound e).
Qed.

(** X6: when the helper cannot be made, [Reconcile] returns that error
    having called neither handler; the deferred status patch is not yet
    in place, so nothing is patched. *)
Theorem Reconcile_helper_failure req tr fetched e :
  Client_Get w tr req = inr fetched ->
  Helper_New w (tr ++ [EvClientGet req]) (initStatus fetched) = inl e ->
  Reconcile w req tr =
    ((Result_zero, Some e),
     tr ++ [EvClientGet req; EvNewHelper (initStatus fetched)]).
Proof.
  intros Hget Hhelper. unfold Reconcile, bind, call. rewrite Hget, Hhelper.
  unfold ret. by trace_norm.
Qed.

(** What the deferred function appends. *)
Lemma deferredStatusPatch_runs instance helper tr :
  runs (deferredStatusPatch w instance helper) tr
    (fun _ evs => exists rest,
       evs = EvSetAfter instance :: rest /\
       Forall (deferredEvent instance) rest /\
       (length (statusPatches rest) <= 1)%nat).
Proof.
  unfold deferredStatusPatch. runs_walk;
    (eexists; split; [reflexivity|]; split;
       [repeat constructor|cbn; lia]).
Qed.

(** X7: [Reconcile] returns what the handler returned, whatever the
    deferred function meets.  That function runs once the handler is
    done: it calls SetAfter on the resource as the handler left it, and
    after that only logs errors about, or patches the status of, that
    resource, with at most one patch. *)
Theorem Reconcile_returns_handler_result req tr fetched helper :
  Client_Get w tr req = inr fetched ->
  Helper_New w (tr ++ [EvClientGet req]) (initStatus fetched) = inr helper ->
  exists instance' res tr' rest,
    handler (initStatus fetched) helper
      (tr ++ [EvClientGet req; EvNewHelper (initStatus fetched)])
      = (instance', res, tr') /\
    fst (Reconcile w req tr) = res /\
    snd (Reconcile w req tr) = tr' ++ EvSetAfter instance' :: rest /\
    Forall (deferredEvent instance') rest /\
    (length (statusPatches rest) <= 1)%nat.
Proof.
  intros Hget Hhelper.
  assert (Hrun : Reconcile w req tr =
    (let '(instance', res, tr') :=
       handler (initStatus fetched) helper
         (tr ++ [EvClientGet req; EvNewHelper (initStatus fetched)]) in
     (res, snd (deferredStatusPatch w instance' helper tr')))).
  { unfold Reconcile, handler, bind, call, ret. rewrite Hget, Hhelper. trace_norm.
    destruct (if negb _ then _ else _) as [[instance' res] tr'].
    by destruct (deferredStatusPatch _ _ _ _) as [[] tr'']. }
  rewrite Hrun.
  destruct (handler _ _ _) as [[instance' res] tr'].
  destruct (deferredStatusPatch_runs instance' helper tr')
    as (evs & Htr & rest & -> & Hrest & Hone).
  exists instance', res, tr', rest. cbn [fst snd]. by rewrite Htr.
Qed.

(** X8: the deferred function patches the status exactly when the helper,
    after SetAfter, reports a change of the status, and against that
    helper's before-object.  A not-found answer to the patch leaves no
    trace; any other error is logged. *)
Theorem deferredStatusPatch_patches_on_change instance helper tr helper' err :
  Helper_SetAfter w tr helper instance = (helper', err) ->
  let tr1 :=
    tr ++ EvSetAfter instance ::
      match err with
      | Some e => [EvLogError e "Set after and calc patch/diff" instance]
      | None => []
      end in
  (default false (GetChanges helper' !! "status") = false ->
   snd (deferredStatusPatch w instance helper tr) = tr1) /\
  (default false (GetChanges helper' !! "status") = true ->
   snd (deferredStatusPatch w instance helper tr) =
     tr1 ++ EvStatusPatch instance (GetBeforeObject helper') ::
       match Status_Patch w tr1 instance (GetBeforeObject helper') with
       | Some e =>
           if IsNotFound e then []
           else [EvLogError e "Update status" instance]
       | None => []
       end).
Proof.
  intros Hafter. cbn zeta.
  unfold deferredStatusPatch, LogErrorForObject, bind, call, ret.
  rewrite Hafter.
  split; intros Hchanged; destruct err; cbn beta iota; rewrite Hchanged;
    trace_norm; try done;
    (destruct (Status_Patch _ _ _ _) as [e'|]; [destruct (IsNotFound e')|]);
    cbn [negb snd]; by trace_norm.
Qed.

(** X9: when the aggregate hash cannot be computed,
    [createHashOfInputHashes] returns that error with the resource as it
    was and makes no call: nothing is stored and no status update is
    issued. *)
Theorem createHashOfInputHashes_hash_failure instance envVars tr hash e :
  ObjectHash (MergeEnvs [] envVars) = (hash, Some e) ->
  createHashOfInputHashes w instance envVars tr = (instance, (hash, Some e), tr).
Proof. intros Hhash. unfold createHashOfInputHashes. by rewrite Hhash. Qed.

(** Once the hash is stored under its key, a run stores nothing. *)
Lemma createHashOfInputHashes_settled instance envVars tr hash :
  SetHash_contract ->
  ObjectHash (MergeEnvs [] envVars) = (hash, None) ->
  default ∅ (Hash (Status instance)) !! InputHashName = Some hash ->
  createHashOfInputHashes w instance envVars tr = (instance, (hash, None), tr).
Proof.
  intros Hcontract Hhash Hstored. unfold createHashOfInputHashes.
  rewrite Hhash, Hcontract, bool_decide_eq_true_2 by done. unfold ret.
  destruct instance as [k n ns dt fs sp [c [g|] a i r]]; [done|].
  cbn in Hstored. by rewrite lookup_empty in Hstored.
Qed.

(** After a run the hash is stored under its key. *)
Lemma createHashOfInputHashes_stores instance envVars tr hash :
  SetHash_contract ->
  ObjectHash (MergeEnvs [] envVars) = (hash, None) ->
  default ∅ (Hash (Status (fst (fst (createHashOfInputHashes w instance envVars tr)))))
    !! InputHashName = Some hash.
Proof.
  intros Hcontract Hhash.
  destruct (decide (default ∅ (Hash (Status instance)) !! InputHashName = Some hash))
    as [Hstored|Hstored].
  { by rewrite (createHashOfInputHashes_settled _ _ _ _ Hcontract Hhash Hstored). }
  unfold createHashOfInputHashes.
  rewrite Hhash, Hcontract, bool_decide_eq_false_2 by done.
  unfold LogInfo, bind, call, ret.
  destruct (Status_Update _ _ _); cbn; by rewrite lookup_insert_eq.
Qed.

(** X10: [createHashOfInputHashes] is idempotent on the resource: run
    again on the resource a first run left, with the same inputs, it
    returns the same hash and changes neither the resource nor the
    trace, so no second status update is issued, whatever the first
    update answered. *)
Theorem createHashOfInputHashes_second_run instance envVars tr tr2 hash :
  SetHash_contract ->
  ObjectHash (MergeEnvs [] envVars) = (hash, None) ->
  createHashOfInputHashes w
    (fst (fst (createHashOfInputHashes w instance envVars tr))) envVars tr2
  = (fst (fst (createHashOfInputHashes w instance envVars tr)), (hash, None), tr2).
Proof.
  intros Hcontract Hhash.
  apply createHashOfInputHashes_settled; [done..|].
  by apply createHashOfInputHashes_stores.
Qed.

(** X11: when the exposure of the V2 endpoints fails or is not ready,
    [reconcileInit] returns what the exposer returned, with the resource
    as it was, and makes no further call. *)
Theorem reconcileInit_V2_exposure_aborts
    instance helper serviceLabels tr apiEndpointsV2 ctrlResult err :
  ExposeEndpoints w (tr ++ [EvLogInfo "Reconciling Service init"])
    helper ServiceName serviceLabels (endpointData "v2")
    = (apiEndpointsV2, ctrlResult, err) ->
  err <> None \/ ctrlResult <> Result_zero ->
  reconcileInit w instance helper serviceLabels tr =
    (instance, (ctrlResult, err),
     tr ++ [EvLogInfo "Reconciling Service init";
            EvExposeEndpoints ServiceName serviceLabels (endpointData "v2")]).
Proof.
  intros Hv2 Hfailed. unfold reconcileInit, LogInfo, bind, call. rewrite Hv2.
  destruct err as [e|]; [unfold ret; by trace_norm|].
  destruct Hfailed as [?|Hpending]; [done|].
  rewrite bool_decide_eq_true_2 by done. unfold ret. by trace_norm.
Qed.

(** X12: when the V2 exposure succeeded and the V3 exposure fails or is
    not ready, [reconcileInit] returns what the exposer returned and
    stops there, before the secret is fetched; the V2 endpoints are
    already recorded in the resource it leaves, the V3 ones are not. *)
Theorem reconcileInit_V3_exposure_aborts
    instance helper serviceLabels tr apiEndpointsV2 apiEndpointsV3 ctrlResult err :
  ExposeEndpoints w (tr ++ [EvLogInfo "Reconciling Service init"])
    helper ServiceName serviceLabels (endpointData "v2")
    = (apiEndpointsV2, Result_zero, None) ->
  ExposeEndpoints w
    (tr ++ [EvLogInfo "Reconciling Service init";
            EvExposeEndpoints ServiceName serviceLabels (endpointData "v2")])
    helper ServiceName serviceLabels (endpointData "v3")
    = (apiEndpointsV3, ctrlResult, err) ->
  err <> None \/ ctrlResult <> Result_zero ->
  exists instance',
    reconcileInit w instance helper serviceLabels tr =
      (instance', (ctrlResult, err),
       tr ++ [EvLogInfo "Reconciling Service init";
              EvExposeEndpoints ServiceName serviceLabels (endpointData "v2");
              EvExposeEndpoints ServiceName serviceLabels (endpointData "v3")]) /\
    APIEndpoints (Status instance') =
      Some (<[ServiceNameV2 := apiEndpointsV2]>
              (default ∅ (APIEndpoints (Status instance)))) /\
    ServiceIDs (Status instance') = ServiceIDs (Status instance).
Proof.
  intros Hv2 Hv3 Hfailed.
  exists (setAPIEndpoints
            match APIEndpoints (Status instance) with
            | None => set_Status instance (set_APIEndpoints (Status instance) (Some ∅))
            | Some _ => instance
            end ServiceNameV2 apiEndpointsV2).
  split;
    [|destruct (APIEndpoints (Status instance)) eqn:Heps;
      unfold setAPIEndpoints; cbn; by rewrite ?Heps].
  unfold reconcileInit, LogInfo, bind, call. rewrite Hv2.
  rewrite bool_decide_eq_false_2 by (intros Hne; by apply Hne).
  trace_norm. rewrite Hv3.
  destruct err as [e|]; [unfold ret; by trace_norm|].
  destruct Hfailed as [?|Hpending]; [done|].
  rewrite bool_decide_eq_true_2 by done. unfold ret. by trace_norm.
Qed.

(** X13: when the lookup of the parent's config maps fails, the normal
    path stops there, before any hash is stored or endpoint exposed.  A
    not-found failure gives a requeue after ten seconds and an error
    naming the parent; any other failure is returned as it is.  It does
    not matter what the config-map ensurer answered before. *)
Theorem reconcileNormal_missing_parent_config_maps
    instance helper tr ospSecret hash envVars1 err1 envVars2 e :
  let instance1 := AddFinalizer instance (GetFinalizer helper) in
  let envVars : gmap string Setter := <[Secret_Name ospSecret := SetValue hash]> ∅ in
  let configMaps := [GetOwningCinderName instance1 +:+ "-scripts";
                     GetOwningCinderName instance1 +:+ "-config-data"] in
  let tr4 := tr ++ [EvLogInfo "Reconciling Service"; EvClientUpdate instance1;
                    EvGetSecret (SpecSecret (Spec instance)) (Namespace instance);
                    EvEnsureConfigMaps instance1 (serviceConfigTemplates instance1)
                      envVars] in
  Client_Update w (tr ++ [EvLogInfo "Reconciling Service"]) instance1 = None ->
  GetSecret w (tr ++ [EvLogInfo "Reconciling Service"; EvClientUpdate instance1])
    (SpecSecret (Spec instance)) (Namespace instance) = inr (ospSecret, hash) ->
  EnsureConfigMaps w
    (tr ++ [EvLogInfo "Reconciling Service"; EvClientUpdate instance1;
            EvGetSecret (SpecSecret (Spec instance)) (Namespace instance)])
    instance1 (serviceConfigTemplates instance1) envVars = (envVars1, err1) ->
  GetConfigMaps w tr4 instance1 configMaps (Namespace instance) envVars1
    = (envVars2, Some e) ->
  reconcileNormal w instance helper tr =
    (instance1,
     (if IsNotFound e
      then ({| Requeue := false; RequeueAfter := 10 * Second |},
            Some (Errorf ("Could not find all config maps for parent Cinder CR "
                          +:+ GetOwningCinderName instance1)))
      else (Result_zero, Some e)),
     tr4 ++ [EvGetConfigMaps instance1 configMaps (Namespace instance) envVars1]).
Proof.
  cbn zeta. intros Hupdate Hsecret Hensure Hmaps.
  unfold reconcileNormal, generateServiceConfigMaps, LogInfo, bind, call.
  rewrite Hupdate, Spec_AddFinalizer, Namespace_AddFinalizer. trace_norm.
  rewrite Hsecret. trace_norm. rewrite Hensure.
  destruct err1; unfold ret; trace_norm; rewrite Hmaps;
    by destruct (IsNotFound e); rewrite ?(Z.mul_comm Second).
Qed.

Lemma AddFinalizer_added (instance : CinderAPI) f :
  f ∈ Finalizers (AddFinalizer instance f).
Proof.
  unfold AddFinalizer. case_bool_decide; [done|].
  cbn [Finalizers set_Finalizers]. apply elem_of_app. right. by left.
Qed.


(** ** What a pass calls, and how often *)

(** The calls of the normal path. *)
Definition normalPathEvent (ev : Event) : bool :=
  match ev with
  | EvLogInfo _ | EvClientUpdate _ | EvGetSecret _ _
  | EvEnsureConfigMaps _ _ _ | EvGetConfigMaps _ _ _ _ | EvStatusUpdate _
  | EvExposeEndpoints _ _ _ | EvKeystoneCreateOrPatch _
  | EvDeploymentCreateOrPatch _ => true
  | _ => false
  end.

(** The calls of the delete path. *)
Definition deletePathEvent (ev : Event) : bool :=
  match ev with
  | EvLogInfo _ | EvKeystoneDelete _ | EvClientUpdate _ => true
  | _ => false
  end.

(** The calls [Reconcile] makes itself, around the handler. *)
Definition frameEvent (ev : Event) : bool :=
  match ev with
  | EvClientGet _ | EvNewHelper _ | EvSetAfter _ | EvLogError _ _ _
  | EvStatusPatch _ _ => true
  | _ => false
  end.

(** Bounds on the writes and identity-service calls among some events:
    Updates, status updates, status patches, registrations,
    deregistrations and secret fetches. *)
Definition bounded (u su sp reg dereg sec : nat) (evs : Trace) : Prop :=
  (length (updates evs) <= u)%nat /\
  (length (statusUpdates evs) <= su)%nat /\
  (length (statusPatches evs) <= sp)%nat /\
  (length (registrations evs) <= reg)%nat /\
  (length (deregistrations evs) <= dereg)%nat /\
  (length (secretFetches evs) <= sec)%nat.

(** Events of one class, within the bounds. *)
Definition within (cls : Event -> bool) (u su sp reg dereg sec : nat)
    (evs : Trace) : Prop :=
  Forall (fun ev => cls ev = true) evs /\ bounded u su sp reg dereg sec evs.

Lemma runs_mono {A} (m : M A) tr (P Q : A -> Trace -> Prop) :
  runs m tr P -> (forall a evs, P a evs -> Q a evs) -> runs m tr Q.
Proof. intros (evs & Htr & HP) HPQ. exists evs. split; [done|by apply HPQ]. Qed.

Lemma secretFetches_app tr1 tr2 :
  secretFetches (tr1 ++ tr2) = secretFetches tr1 ++ secretFetches tr2.
Proof. apply omap_app. Qed.

Lemma statusPatches_app tr1 tr2 :
  statusPatches (tr1 ++ tr2) = statusPatches tr1 ++ statusPatches tr2.
Proof. apply omap_app. Qed.

(** Closes a [within] goal on a concatenation of single events and of
    runs already summed up. *)
Ltac within_leaf :=
  cbn beta; unfold within, bounded, keystoneServices in *; cbn [length] in *;
  repeat match goal with H : _ /\ _ |- _ => destruct H end;
  split;
  [ rewrite ?Forall_app; repeat split;
    first [ assumption | by repeat constructor ]
  | rewrite ?updates_app, ?statusUpdates_app, ?statusPatches_app,
      ?registrations_app, ?deregistrations_app, ?secretFetches_app,
      ?length_app;
    cbn [updates statusUpdates statusPatches registrations deregistrations
         secretFetches omap length list_omap];
    lia ].

Lemma generateServiceConfigMaps_summary h instance envVars tr :
  runs (generateServiceConfigMaps w h instance envVars) tr
    (fun _ evs => within normalPathEvent 0 0 0 0 0 0 evs).
Proof. unfold generateServiceConfigMaps. runs_skim; within_leaf. Qed.

Lemma createHashOfInputHashes_summary instance envVars tr :
  runs (createHashOfInputHashes w instance envVars) tr
    (fun _ evs => within normalPathEvent 0 1 0 0 0 0 evs).
Proof. unfold createHashOfInputHashes. runs_skim; within_leaf. Qed.

Lemma registerKeystoneServices_summary svcs instance helper serviceLabels tr :
  runs (registerKeystoneServices w svcs instance helper serviceLabels) tr
    (fun _ evs => within normalPathEvent 0 0 0 (length svcs) 0 0 evs).
Proof.
  revert instance tr.
  induction svcs as [|ksSvc rest IH]; intros instance tr;
    cbn [registerKeystoneServices length].
  - runs_skim. within_leaf.
  - apply runs_bind, runs_call.
    destruct (KeystoneService_CreateOrPatch _ _ _ _) as [[serviceID ctrlResult] [e|]];
      [runs_skim; within_leaf|].
    destruct (bool_decide (ctrlResult <> Result_zero)); [runs_skim; within_leaf|].
    eapply runs_mono; [apply IH|]. intros a evs Hevs. within_leaf.
Qed.

Lemma reconcileInit_summary instance helper serviceLabels tr :
  runs (reconcileInit w instance helper serviceLabels) tr
    (fun _ evs => within normalPathEvent 0 0 0 2 0 1 evs).
Proof.
  unfold reconcileInit.
  repeat first
    [ match goal with
      | |- runs (registerKeystoneServices _ _ _ _ _) _ _ =>
          eapply runs_mono;
          [apply registerKeystoneServices_summary|cbn beta; intros ? ? ?]
      end
    | progress runs_skim ];
    within_leaf.
Qed.

Lemma reconcileNormal_summary instance helper tr :
  runs (reconcileNormal w instance helper) tr
    (fun _ evs =>
       (exists rest,
          evs = [EvLogInfo "Reconciling Service";
                 EvClientUpdate (AddFinalizer instance (GetFinalizer helper))]
                ++ rest) /\
       within normalPathEvent 1 1 0 2 0 2 evs).
Proof.
  unfold reconcileNormal, reconcileUpdate, reconcileUpgrade.
  generalize (AddFinalizer instance (GetFinalizer helper)). intros instance1.
  repeat first
    [ match goal with
      | |- runs (generateServiceConfigMaps _ _ _ _) _ _ =>
          eapply runs_mono;
          [apply generateServiceConfigMaps_summary|cbn beta; intros ? ? ?]
      | |- runs (createHashOfInputHashes _ _ _) _ _ =>
          eapply runs_mono;
          [apply createHashOfInputHashes_summary|cbn beta; intros ? ? ?]
      | |- runs (reconcileInit _ _ _ _) _ _ =>
          eapply runs_mono;
          [apply reconcileInit_summary|cbn beta; intros ? ? ?]
      end
    | progress runs_skim ];
    (split; [eexists; reflexivity|within_leaf]).
Qed.

Lemma deleteKeystoneServices_summary svcs instance helper tr :
  runs (deleteKeystoneServices w svcs instance helper) tr
    (fun _ evs => within deletePathEvent 0 0 0 0 (length svcs) 0 evs).
Proof.
  revert tr.
  induction svcs as [|ksSvc rest IH]; intros tr;
    cbn [deleteKeystoneServices length].
  - runs_skim. within_leaf.
  - apply runs_bind, runs_call.
    destruct (KeystoneService_Delete _ _ _ _); [runs_skim; within_leaf|].
    eapply runs_mono; [apply IH|]. intros a evs Hevs. within_leaf.
Qed.

Lemma reconcileDelete_summary instance helper tr :
  runs (reconcileDelete w instance helper) tr
    (fun _ evs => within deletePathEvent 1 0 0 0 2 0 evs).
Proof.
  unfold reconcileDelete.
  apply runs_bind, runs_LogInfo, runs_bind.
  eapply runs_mono with
    (P := fun _ evs => within deletePathEvent 0 0 0 0 2 0 evs).
  { destruct (bool_decide _); [apply deleteKeystoneServices_summary|].
    runs_skim. within_leaf. }
  cbn beta. intros err evs Hevs. runs_skim; within_leaf.
Qed.

Lemma deferredStatusPatch_summary instance helper tr :
  runs (deferredStatusPatch w instance helper) tr
    (fun _ evs => within frameEvent 0 0 1 0 0 0 evs).
Proof. unfold deferredStatusPatch. runs_skim; within_leaf. Qed.

(** X14: the normal path registers the finalizer before anything else:
    after its opening log line its first call is the Update of the
    resource with the helper's finalizer among its finalizers, and when
    that Update fails the error is returned with no further call. *)
Theorem reconcileNormal_registers_finalizer_first instance helper tr :
  let instance1 := AddFinalizer instance (GetFinalizer helper) in
  GetFinalizer helper ∈ Finalizers instance1 /\
  (exists rest,
     snd (reconcileNormal w instance helper tr) =
       tr ++ [EvLogInfo "Reconciling Service"; EvClientUpdate instance1] ++ rest) /\
  (forall e,
     Client_Update w (tr ++ [EvLogInfo "Reconciling Service"]) instance1 = Some e ->
     reconcileNormal w instance helper tr =
       (instance1, (Result_zero, Some e),
        tr ++ [EvLogInfo "Reconciling Service"; EvClientUpdate instance1])).
Proof.
  cbn zeta. split; [apply AddFinalizer_added|]. split.
  - destruct (reconcileNormal_summary instance helper tr)
      as (evs & -> & (rest & ->) & _).
    by exists rest.
  - intros e Hupdate. unfold reconcileNormal, LogInfo, bind, call.
    rewrite Hupdate. unfold ret. by trace_norm.
Qed.

(** The calls of a pass on a resource marked for deletion, or of one on
    a resource that is not. *)
Definition passEvent (deleting : bool) (ev : Event) : bool :=
  frameEvent ev
  || (if deleting then deletePathEvent ev else normalPathEvent ev).

Lemma within_weaken (cls cls' : Event -> bool) u su sp reg dereg sec evs :
  (forall ev, cls ev = true -> cls' ev = true) ->
  within cls u su sp reg dereg sec evs -> within cls' u su sp reg dereg sec evs.
Proof.
  intros Hcls [Hall Hbounded]. split; [|done].
  eapply Forall_impl; [exact Hall|]. cbn beta. auto.
Qed.

Lemma DeletionTimestamp_IsZero_initStatus (fetched : CinderAPI) :
  DeletionTimestamp_IsZero (initStatus fetched) = DeletionTimestamp_IsZero fetched.
Proof. by destruct fetched as [k n ns dt fs sp [[c|] [h|] [a|] [i|] r]]. Qed.

Lemma handler_summary instance helper tr :
  runs (handler instance helper) tr
    (fun _ evs =>
       within (passEvent (negb (DeletionTimestamp_IsZero instance))) 1 1 0 2 2 2 evs).
Proof.
  unfold handler. destruct (negb (DeletionTimestamp_IsZero instance)).
  - eapply runs_mono; [apply reconcileDelete_summary|].
    intros a evs Hevs.
    apply (within_weaken _ (passEvent true)) in Hevs; [|by intros []].
    within_leaf.
  - eapply runs_mono; [apply reconcileNormal_summary|].
    intros a evs [_ Hevs].
    apply (within_weaken _ (passEvent false)) in Hevs; [|by intros []].
    within_leaf.
Qed.

Lemma Reconcile_fetched_summary req tr fetched :
  Client_Get w tr req = inr fetched ->
  runs (Reconcile w req) tr
    (fun _ evs =>
       within (passEvent (negb (DeletionTimestamp_IsZero fetched))) 1 1 1 2 2 2 evs).
Proof.
  intros Hget. unfold Reconcile.
  apply runs_bind, runs_call. rewrite Hget. lazy beta iota.
  apply runs_bind, runs_call.
  destruct (Helper_New _ _ _) as [e|helper]; [runs_skim; within_leaf|].
  lazy beta iota. apply runs_bind. fold (handler (initStatus fetched) helper).
  eapply runs_mono; [apply handler_summary|].
  intros [instance' res] evs Hevs.
  rewrite DeletionTimestamp_IsZero_initStatus in Hevs.
  apply runs_bind.
  eapply runs_mono; [apply deferredStatusPatch_summary|].
  intros [] evs' Hevs'.
  apply (within_weaken _ (passEvent (negb (DeletionTimestamp_IsZero fetched))))
    in Hevs'; [|by intros []].
  runs_skim. within_leaf.
Qed.

Lemma Forall_no_deregistrations evs :
  Forall (fun ev => passEvent false ev = true) evs -> deregistrations evs = [].
Proof.
  induction 1 as [|ev evs Hev _ IH]; [done|].
  change (ev :: evs) with ([ev] ++ evs).
  rewrite deregistrations_app, IH. by destruct ev.
Qed.

Lemma Forall_delete_only evs :
  Forall (fun ev => passEvent true ev = true) evs ->
  registrations evs = [] /\ secretFetches evs = [] /\ statusUpdates evs = [].
Proof.
  induction 1 as [|ev evs Hev _ (IH1 & IH2 & IH3)]; [done|].
  change (ev :: evs) with ([ev] ++ evs).
  rewrite registrations_app, secretFetches_app, statusUpdates_app, IH1, IH2, IH3.
  by destruct ev.
Qed.

(** X15: a pass that fetched a resource marked for deletion makes, beside
    [Reconcile]'s own calls (Get, NewHelper, SetAfter, status patch, error
    logs), only log lines, identity-service deregistrations and the
    Update: it fetches no secret, touches no config map, exposes and
    registers nothing, applies no deployment and issues no status update.
    A pass on a resource not marked for deletion makes only the
    normal-path calls: it deregisters nothing. *)
Theorem Reconcile_pass_footprint req tr fetched :
  Client_Get w tr req = inr fetched ->
  exists evs,
    snd (Reconcile w req tr) = tr ++ evs /\
    Forall (fun ev =>
              passEvent (negb (DeletionTimestamp_IsZero fetched)) ev = true) evs /\
    (DeletionTimestamp_IsZero fetched = true -> deregistrations evs = []) /\
    (DeletionTimestamp_IsZero fetched = false ->
     registrations evs = [] /\ secretFetches evs = [] /\ statusUpdates evs = []).
Proof.
  intros Hget.
  destruct (Reconcile_fetched_summary req tr fetched Hget) as (evs & Htr & Hall & _).
  exists evs. split; [done|]. split; [done|].
  split; intros Hzero; rewrite Hzero in Hall; cbn [negb] in Hall.
  - by apply Forall_no_deregistrations.
  - by apply Forall_delete_only.
Qed.

(** X16: whatever the collaborators answer, one pass of [Reconcile]
    issues at most one Update of the resource, one status update and one
    status patch, at most two identity-service registrations, two
    deregistrations and two fetches of the secret. *)
Theorem Reconcile_write_bounds req tr :
  exists evs,
    snd (Reconcile w req tr) = tr ++ evs /\
    (length (updates evs) <= 1)%nat /\
    (length (statusUpdates evs) <= 1)%nat /\
    (length (statusPatches evs) <= 1)%nat /\
    (length (registrations evs) <= 2)%nat /\
    (length (deregistrations evs) <= 2)%nat /\
    (length (secretFetches evs) <= 2)%nat.
Proof.
  destruct (Client_Get w tr req) as [e|fetched] eqn:Hget.
  - exists [EvClientGet req]. split; [|cbn; lia].
    unfold Reconcile, bind, call. rewrite Hget. by destruct (IsNotFound e).
  - destruct (Reconcile_fetched_summary req tr fetched Hget)
      as (evs & Htr & _ & Hbounded).
    by exists evs.
Qed.

(** ** What a clean result means *)























(** ** The custom config map *)

Lemma map_fold_insert_union (overwrite init : gmap string string) :
  map_fold (fun key data acc => <[key := data]> acc) init overwrite
    = overwrite ∪ init.
Proof.
  apply (map_fold_weak_ind (fun acc m => acc = m ∪ init)).
  - by rewrite (left_id_L ∅ (∪)).
  - intros key data m acc _ ->. by rewrite insert_union_l.
Qed.

(** X19: [generateServiceConfigMaps] makes one call, to the ensurer, with
    one template, named after the resource.  In its custom data the
    custom-config file always holds [Spec.CustomServiceConfig], also when
    [Spec.DefaultConfigOverwrite] has an entry under that name; every
    other file is the one of [Spec.DefaultConfigOverwrite], if any. *)
Theorem generateServiceConfigMaps_custom_data h instance envVars tr :
  exists t data,
    snd (generateServiceConfigMaps w h instance envVars tr)
      = tr ++ [EvEnsureConfigMaps instance [t] envVars] /\
    Template_Name t = Name instance +:+ "-config-data" /\
    CustomData t = Some data /\
    data !! CustomServiceConfigFileName = Some (CustomServiceConfig (Spec instance)) /\
    forall key, key <> CustomServiceConfigFileName ->
      data !! key = default ∅ (DefaultConfigOverwrite (Spec instance)) !! key.
Proof.
  unfold generateServiceConfigMaps, serviceConfigTemplates, bind, call, ret.
  cbn zeta. rewrite map_fold_insert_union.
  eexists _, _. split.
  { destruct (EnsureConfigMaps _ _ _ _ _) as [envVars' [e|]]; reflexivity. }
  cbn. repeat split.
  - by rewrite lookup_insert_eq.
  - intros key Hkey.
    rewrite lookup_insert_ne by done.
    rewrite lookup_union_l; [done|]. by rewrite lookup_singleton_ne.
Qed.

End ReconcilerCoverage.

(** * The config-map watch of [SetupWithManager] *)

(** [configMapFn], the function [SetupWithManager] hands to
    [handler.EnqueueRequestsFromMapFunc]: it maps a config map to the
    reconcile requests of the resources the config map belongs to. *)

(** The part of a [client.Object] the function reads. *)
Record WatchedObject : Type := {
  Object_Name : string;
  Object_Namespace : string;
  Object_Labels : GoMap string
}.

(** What the function does to the outside: the list call and its log
    lines. *)
Inductive WatchEvent : Type :=
| EvClientList (namespace : string)
| EvWatchError (err : error) (msg : string)
| EvWatchInfo (msg : string).

Section ConfigMapWatch.
Import controllers.
Context `{ControllerEnv}.

(** [labels.GetOwnerNameLabelSelector] *)
Variable GetOwnerNameLabelSelector : string -> string.

(** [r.Client.List] of the [CinderAPI] resources of a namespace: the error
    or [apis.Items]. *)
Variable Client_List : string -> error + list CinderAPI.

Definition requestFor (o : WatchedObject) (cr : CinderAPI) : NamespacedName :=
  {| Req_Namespace := Object_Namespace o; Req_Name := Name cr |}.

Definition markedMessage (o : WatchedObject) (l : string) (cr : CinderAPI) : string :=
  "ConfigMap object " +:+ Object_Name o +:+ " and CR " +:+ Name cr
    +:+ " marked with label: " +:+ l.

(** The loop over [apis.Items]: [result] as it stands goes in; the final
    [result] and the log lines come out. *)
Fixpoint appendRequests (o : WatchedObject) (l : string) (items : list CinderAPI)
    (result : list NamespacedName) : list NamespacedName * list WatchEvent :=
  match items with
  | [] => (result, [])
  | cr :: rest =>
      if bool_decide (l = GetOwningCinderName cr) then
        let name := requestFor o cr in
        let '(result, log) := appendRequests o l rest (result ++ [name]) in
        (result, EvWatchInfo (markedMessage o l cr) :: log)
      else appendRequests o l rest result
  end.

(** [configMapFn]: the requests ([None] is the nil slice) and the events. *)
Definition configMapFn (o : WatchedObject)
    : option (list NamespacedName) * list WatchEvent :=
  let result : list NamespacedName := [] in
  match Client_List (Object_Namespace o) with
  | inl err =>
      (None, [EvClientList (Object_Namespace o);
              EvWatchError err "Unable to retrieve API CRs %v"])
  | inr items =>
      let label := Object_Labels o in
      let '(result, log) :=
        match default ∅ label !! GetOwnerNameLabelSelector (GetGroupLabel ServiceName) with
        | Some l => appendRequests o l items result
        | None => (result, [])
        end in
      (if bool_decide (0 < length result)%nat then Some result else None,
       EvClientList (Object_Namespace o) :: log)
  end.

(** The info lines among some events. *)
Definition infoLines (log : list WatchEvent) : list string :=
  omap (fun ev => match ev with EvWatchInfo msg => Some msg | _ => None end) log.

(** The resources of a list the label value [l] names as owned by the
    same parent. *)
Definition ownedBy (l : string) (items : list CinderAPI) : list CinderAPI :=
  filter (fun cr => l = GetOwningCinderName cr) items.

Lemma appendRequests_spec o l items result :
  appendRequests o l items result
    = (result ++ map (requestFor o) (ownedBy l items),
       map (fun cr => EvWatchInfo (markedMessage o l cr)) (ownedBy l items)).
Proof.
  revert result. unfold ownedBy.
  induction items as [|cr rest IH]; intros result; cbn [appendRequests].
  - by rewrite app_nil_r.
  - rewrite filter_cons. destruct (decide (l = GetOwningCinderName cr)) as [Heq|Hne].
    + rewrite bool_decide_eq_true_2 by done. rewrite IH. cbn [map].
      by rewrite <- app_assoc.
    + rewrite bool_decide_eq_false_2 by done. apply IH.
Qed.

(** X20: when the list call succeeds, [configMapFn] returns one request
    for each listed resource whose owning-Cinder name equals the config
    map's owner label, in list order, each with the resource's name and
    the config map's namespace; it returns nil when the config map has no
    owner label or no listed resource matches. *)
Theorem configMapFn_requests o items :
  Client_List (Object_Namespace o) = inr items ->
  fst (configMapFn o) =
    match default ∅ (Object_Labels o)
            !! GetOwnerNameLabelSelector (GetGroupLabel ServiceName) with
    | Some l =>
        match ownedBy l items with
        | [] => None
        | owned => Some (map (requestFor o) owned)
        end
    | None => None
    end.
Proof.
  intros Hlist. unfold configMapFn. rewrite Hlist. cbn zeta.
  destruct (default ∅ (Object_Labels o) !! _) as [l|]; [|done].
  rewrite appendRequests_spec. cbn [fst app].
  by destruct (ownedBy l items).
Qed.

(** X21: whatever the list call answers, [configMapFn] starts with that
    one call, in the config map's namespace, never returns an empty
    slice that is not nil, and writes one info line for each request it
    returns. *)
Theorem configMapFn_one_line_per_request o :
  (exists log, snd (configMapFn o) = EvClientList (Object_Namespace o) :: log) /\
  fst (configMapFn o) <> Some [] /\
  length (infoLines (snd (configMapFn o)))
    = length (default [] (fst (configMapFn o))).
Proof.
  unfold configMapFn. cbn zeta.
  destruct (Client_List _) as [err|items]; [split; [by eexists|by split]|].
  destruct (default ∅ (Object_Labels o) !! _) as [l|];
    [|split; [by eexists|by split]].
  rewrite appendRequests_spec. cbn [fst snd app].
  split; [by eexists|].
  assert (Hlines : forall owned,
    length (infoLines (map (fun cr => EvWatchInfo (markedMessage o l cr)) owned))
      = length (map (requestFor o) owned)).
  { induction owned as [|cr owned IH]; [done|]. cbn. by f_equal. }
  destruct (ownedBy l items) as [|cr owned] eqn:Howned; [done|].
  split; [done|]. cbn [bool_decide default]. apply (Hlines (cr :: owned)).
Qed.

End ConfigMapWatch.

(** * The coverage theorems on the concrete cluster *)

Module Faulty.

(** What goes wrong beside what a [Fixture.Scenario] switches. *)
Record Faults : Type := {
  getError : option error;            (* Get fails *)
  helperError : option error;         (* NewHelper fails *)
  (* what the exposer answers, by the number of exposures before, when
     it does not succeed *)
  exposure : nat -> option (Result * option error);
  configMapsError : option error      (* GetConfigMaps fails *)
}.

Definition none : Faults :=
  {| getError := None; helperError := None; exposure := fun _ => None;
     configMapsError := None |}.

(** The number of exposures a trace asked for. *)
Definition exposures (tr : controllers.Trace) : nat :=
  length (omap (fun ev => match ev with
                          | controllers.EvExposeEndpoints _ _ _ => Some tt
                          | _ => None
                          end) tr).

(** The cluster of [Fixture.world] with the faults laid over it. *)
Definition world (f : Faults) (sc : Fixture.Scenario) : controllers.World :=
  let w := Fixture.world sc in
  {| controllers.Client_Get := fun tr req =>
       match getError f with
       | Some e => inl e
       | None => controllers.Client_Get w tr req
       end;
     controllers.Helper_New := fun tr instance =>
       match helperError f with
       | Some e => inl e
       | None => controllers.Helper_New w tr instance
       end;
     controllers.Helper_SetAfter := controllers.Helper_SetAfter w;
     controllers.Client_Update := controllers.Client_Update w;
     controllers.Status_Update := controllers.Status_Update w;
     controllers.Status_Patch := controllers.Status_Patch w;
     controllers.GetSecret := controllers.GetSecret w;
     controllers.EnsureConfigMaps := controllers.EnsureConfigMaps w;
     controllers.GetConfigMaps := fun tr instance names ns envVars =>
       match configMapsError f with
       | Some e => (envVars, Some e)
       | None => controllers.GetConfigMaps w tr instance names ns envVars
       end;
     controllers.ExposeEndpoints := fun tr helper name labels data =>
       match exposure f (exposures tr) with
       | Some (res, err) => (None, res, err)
       | None => controllers.ExposeEndpoints w tr helper name labels data
       end;
     controllers.KeystoneService_CreateOrPatch :=
       controllers.KeystoneService_CreateOrPatch w;
     controllers.KeystoneService_Delete := controllers.KeystoneService_Delete w;
     controllers.Deployment_CreateOrPatch := controllers.Deployment_CreateOrPatch w |}.

(** The API server is unreachable. *)
Definition getFails : Faults :=
  {| getError := Some (ErrorString "connection refused"); helperError := None;
     exposure := fun _ => None; configMapsError := None |}.

(** The resource has been deleted. *)
Definition gone : Faults :=
  {| getError := Some (Fixture.NotFound "cinder-api"); helperError := None;
     exposure := fun _ => None; configMapsError := None |}.

Definition helperFails : Faults :=
  {| getError := None; helperError := Some (ErrorString "no scheme registered");
     exposure := fun _ => None; configMapsError := None |}.

(** The route of the first exposure is not admitted yet. *)
Definition routePendingV2 : Faults :=
  {| getError := None; helperError := None;
     exposure := fun n =>
       match n with
       | O => Some ({| Requeue := false; RequeueAfter := Second * 5 |}, None)
       | _ => None
       end;
     configMapsError := None |}.

(** The second exposure fails. *)
Definition exposeFailsV3 : Faults :=
  {| getError := None; helperError := None;
     exposure := fun n =>
       match n with
       | 1%nat => Some (Result_zero, Some (ErrorString "route rejected"))
       | _ => None
       end;
     configMapsError := None |}.

(** The parent's config maps do not exist yet. *)
Definition parentNotReady : Faults :=
  {| getError := None; helperError := None; exposure := fun _ => None;
     configMapsError := Some (Fixture.NotFound "cinder-scripts") |}.

(** A library whose hashing fails. *)
Definition noHashEnv : controllers.ControllerEnv := {|
  controllers.ServiceName := controllers.ServiceName;
  controllers.ServiceTypeV2 := controllers.ServiceTypeV2;
  controllers.ServiceNameV2 := controllers.ServiceNameV2;
  controllers.ServiceTypeV3 := controllers.ServiceTypeV3;
  controllers.ServiceNameV3 := controllers.ServiceNameV3;
  controllers.CinderAdminPort := controllers.CinderAdminPort;
  controllers.CinderPublicPort := controllers.CinderPublicPort;
  controllers.CinderInternalPort := controllers.CinderInternalPort;
  controllers.AppSelector := controllers.AppSelector;
  controllers.CustomServiceConfigFileName := controllers.CustomServiceConfigFileName;
  controllers.InputHashName := controllers.InputHashName;
  controllers.TemplateTypeConfig := controllers.TemplateTypeConfig;
  controllers.Time_IsZero := controllers.Time_IsZero;
  controllers.Secret_Name := controllers.Secret_Name;
  controllers.GetOwningCinderName := controllers.GetOwningCinderName;
  controllers.GetGroupLabel := controllers.GetGroupLabel;
  controllers.GetLabels := controllers.GetLabels;
  controllers.SetValue := controllers.SetValue;
  controllers.MergeEnvs := controllers.MergeEnvs;
  controllers.ObjectHash := fun _ => ("", Some (ErrorString "json: unsupported type"));
  controllers.SetHash := controllers.SetHash;
  controllers.cinderapi_Deployment := controllers.cinderapi_Deployment
|}.

(** A resource with TLS on both endpoints. *)
Definition bothTLS : CinderAPI :=
  Fixture.resource None false (Some "cert-cinder-public-svc")
    (Some "cert-cinder-internal-svc").

(** A resource whose ready count has moved since the helper was made. *)
Definition scaled : CinderAPI :=
  set_Status Fixture.plain (set_ReadyCount Fixture.emptyStatus 1).

(** A second resource of the namespace. *)
Definition second : CinderAPI :=
  {| Kind := "CinderAPI"; Name := "cinder-api-2"; Namespace := "openstack";
     DeletionTimestamp := None; Finalizers := [];
     Spec := Fixture.spec false None None; Status := Fixture.emptyStatus |}.

(** [labels.GetOwnerNameLabelSelector] *)
Definition GetOwnerNameLabelSelector (group : string) : string := group +:+ "/name".

(** The parent's config map. *)
Definition parentConfigMap (labels : GoMap string) : WatchedObject :=
  {| Object_Name := "cinder-config-data"; Object_Namespace := "openstack";
     Object_Labels := labels |}.

(** The list call: the two resources of the namespace. *)
Definition Client_List (namespace : string) : error + list CinderAPI :=
  if bool_decide (namespace = "openstack") then inr [Fixture.plain; second]
  else inr [].

End Faulty.

Section CoverageRuns.
Import controllers.

Lemma StatefulSet_volumes_in_order_witness :
  exists sts,
    cinderapi.StatefulSet Faulty.bothTLS "n5d8h" None None = (Some sts, None) /\
    cinderapi.Volumes
      (cinderapi.Template_Spec (cinderapi.Template (cinderapi.Sts_Spec sts)))
      = ["etc-machine-id"; "scripts"; "config-data"; "config-data-custom"; "logs";
         "internal-tls-certs"; "public-tls-certs"].
Proof.
  assert (Hbuilt : exists sts,
    cinderapi.StatefulSet Faulty.bothTLS "n5d8h" None None = (Some sts, None))
    by (eexists; vm_compute; reflexivity).
  destruct Hbuilt as [sts Hbuilt]. exists sts. split; [exact Hbuilt|].
  destruct (StatefulSet_volumes_in_order _ _ _ _ _ Hbuilt) as [Hvolumes _].
  rewrite Hvolumes. vm_compute. reflexivity.
Defined.

Lemma StatefulSet_first_failing_endpoint_witness :
  @cinderapi.StatefulSet _ Fixture.brokenRendering Faulty.bothTLS "n5d8h" None None
    = (None, Some (ErrorString "error marshalling api service")) /\
  @cinderapi.StatefulSet _ Fixture.brokenRendering Fixture.publicTLS "n5d8h" None None
    = (None, Some (ErrorString "error marshalling api service")).
Proof.
  split.
  - apply (proj1 (@StatefulSet_first_failing_endpoint _ Fixture.brokenRendering
                    Faulty.bothTLS "n5d8h" None None _)); reflexivity.
  - apply (proj2 (@StatefulSet_first_failing_endpoint _ Fixture.brokenRendering
                    Fixture.publicTLS "n5d8h" None None _));
      [left; reflexivity|reflexivity..].
Defined.

Lemma StatefulSet_containers_witness :
  exists sts sidecar service,
    cinderapi.StatefulSet Fixture.debugging "n5d8h" None None = (Some sts, None) /\
    cinderapi.Containers
      (cinderapi.Template_Spec (cinderapi.Template (cinderapi.Sts_Spec sts)))
      = [sidecar; service] /\
    cinderapi.Container_Name sidecar = "cinder-api-log" /\
    cinderapi.Container_Name service = "cinder-api" /\
    cinderapi.Args service
      = ["-c"; "/usr/local/bin/kolla_set_configs && /bin/sleep infinity"].
Proof.
  assert (Hbuilt : exists sts,
    cinderapi.StatefulSet Fixture.debugging "n5d8h" None None = (Some sts, None))
    by (eexists; vm_compute; reflexivity).
  destruct Hbuilt as [sts Hbuilt].
  destruct (StatefulSet_containers _ _ _ _ _ Hbuilt)
    as (sidecar & service & Hcs & Hname & _ & _ & _ & _ & Hservice & _ & Hargs & _).
  exists sts, sidecar, service.
  split; [exact Hbuilt|]. split; [exact Hcs|]. split; [exact Hname|].
  split; [exact Hservice|exact Hargs].
Defined.

Lemma Reconcile_fetch_failure_witness :
  Reconcile (Faulty.world Faulty.gone (Fixture.healthy Fixture.plain))
    Fixture.request []
    = ((Result_zero, None), [EvClientGet Fixture.request]) /\
  Reconcile (Faulty.world Faulty.getFails (Fixture.healthy Fixture.plain))
    Fixture.request []
    = ((Result_zero, Some (ErrorString "connection refused")),
       [EvClientGet Fixture.request]).
Proof.
  split.
  - exact (Reconcile_fetch_failure
             (Faulty.world Faulty.gone (Fixture.healthy Fixture.plain))
             Fixture.request [] (Fixture.NotFound "cinder-api") eq_refl).
  - exact (Reconcile_fetch_failure
             (Faulty.world Faulty.getFails (Fixture.healthy Fixture.plain))
             Fixture.request [] (ErrorString "connection refused") eq_refl).
Defined.

Lemma Reconcile_helper_failure_witness :
  Reconcile (Faulty.world Faulty.helperFails (Fixture.healthy Fixture.plain))
    Fixture.request []
    = ((Result_zero, Some (ErrorString "no scheme registered")),
       [EvClientGet Fixture.request; EvNewHelper (initStatus Fixture.plain)]).
Proof.
  exact (Reconcile_helper_failure
           (Faulty.world Faulty.helperFails (Fixture.healthy Fixture.plain))
           Fixture.request [] Fixture.plain (ErrorString "no scheme registered")
           eq_refl eq_refl).
Defined.

Lemma Reconcile_returns_handler_result_witness :
  exists instance' res tr' rest,
    handler (Fixture.world (Fixture.healthy Fixture.plain))
      (initStatus Fixture.plain) (Fixture.helperFor (initStatus Fixture.plain))
      [EvClientGet Fixture.request; EvNewHelper (initStatus Fixture.plain)]
      = (instance', res, tr') /\
    fst (Reconcile (Fixture.world (Fixture.healthy Fixture.plain)) Fixture.request [])
      = res /\
    snd (Reconcile (Fixture.world (Fixture.healthy Fixture.plain)) Fixture.request [])
      = tr' ++ EvSetAfter instance' :: rest /\
    Forall (deferredEvent instance') rest /\
    (length (statusPatches rest) <= 1)%nat.
Proof.
  exact (Reconcile_returns_handler_result
           (Fixture.world (Fixture.healthy Fixture.plain))
           Fixture.request [] Fixture.plain
           (Fixture.helperFor (initStatus Fixture.plain)) eq_refl eq_refl).
Defined.

Lemma deferredStatusPatch_patches_on_change_witness :
  snd (deferredStatusPatch (Fixture.world (Fixture.healthy Fixture.plain))
         Faulty.scaled (Fixture.helperFor Fixture.plain) [])
    = [EvSetAfter Faulty.scaled; EvStatusPatch Faulty.scaled Fixture.plain] /\
  snd (deferredStatusPatch (Fixture.world (Fixture.healthy Fixture.plain))
         Fixture.plain (Fixture.helperFor Fixture.plain) [])
    = [EvSetAfter Fixture.plain].
Proof.
  split.
  - apply (deferredStatusPatch_patches_on_change
             (Fixture.world (Fixture.healthy Fixture.plain))
             Faulty.scaled (Fixture.helperFor Fixture.plain) [] _ _ eq_refl).
    reflexivity.
  - apply (deferredStatusPatch_patches_on_change
             (Fixture.world (Fixture.healthy Fixture.plain))
             Fixture.plain (Fixture.helperFor Fixture.plain) [] _ _ eq_refl).
    reflexivity.
Defined.

Lemma createHashOfInputHashes_hash_failure_witness :
  @createHashOfInputHashes _ Faulty.noHashEnv
    (Fixture.world (Fixture.healthy Fixture.plain))
    Fixture.plain {[ "osp-secret" := "n5d8h64bh5c7" ]} []
    = (Fixture.plain, ("", Some (ErrorString "json: unsupported type")), []).
Proof.
  exact (@createHashOfInputHashes_hash_failure _ Faulty.noHashEnv
           (Fixture.world (Fixture.healthy Fixture.plain))
           Fixture.plain {[ "osp-secret" := "n5d8h64bh5c7" ]} [] ""
           (ErrorString "json: unsupported type") eq_refl).
Defined.

Lemma createHashOfInputHashes_second_run_witness :
  createHashOfInputHashes (Fixture.world (Fixture.healthy Fixture.plain))
    (fst (fst (createHashOfInputHashes (Fixture.world (Fixture.healthy Fixture.plain))
                 Fixture.plain {[ "osp-secret" := "n5d8h64bh5c7" ]} [])))
    {[ "osp-secret" := "n5d8h64bh5c7" ]}
    [EvLogInfo "second pass"]
  = (fst (fst (createHashOfInputHashes (Fixture.world (Fixture.healthy Fixture.plain))
                 Fixture.plain {[ "osp-secret" := "n5d8h64bh5c7" ]} [])),
     ("osp-secret=n5d8h64bh5c7", None), [EvLogInfo "second pass"]).
Proof.
  apply (createHashOfInputHashes_second_run
           (Fixture.world (Fixture.healthy Fixture.plain))
           Fixture.plain {[ "osp-secret" := "n5d8h64bh5c7" ]} []
           [EvLogInfo "second pass"] "osp-secret=n5d8h64bh5c7").
  - intros hashMap hashType hashStr. reflexivity.
  - vm_compute. reflexivity.
Defined.

Lemma reconcileInit_V2_exposure_aborts_witness :
  reconcileInit (Faulty.world Faulty.routePendingV2 (Fixture.healthy Fixture.plain))
    Fixture.plain (Fixture.helperFor Fixture.plain) (Some {[ "service" := "cinder" ]}) []
  = (Fixture.plain, ({| Requeue := false; RequeueAfter := Second * 5 |}, None),
     [EvLogInfo "Reconciling Service init";
      EvExposeEndpoints "cinder" (Some {[ "service" := "cinder" ]}) (endpointData "v2")]).
Proof.
  refine (reconcileInit_V2_exposure_aborts
            (Faulty.world Faulty.routePendingV2 (Fixture.healthy Fixture.plain))
            Fixture.plain (Fixture.helperFor Fixture.plain)
            (Some {[ "service" := "cinder" ]}) [] None
            {| Requeue := false; RequeueAfter := Second * 5 |} None eq_refl _).
  right. discriminate.
Defined.

Lemma reconcileInit_V3_exposure_aborts_witness :
  exists instance',
    reconcileInit (Faulty.world Faulty.exposeFailsV3 (Fixture.healthy Fixture.plain))
      Fixture.plain (Fixture.helperFor Fixture.plain)
      (Some {[ "service" := "cinder" ]}) []
    = (instance', (Result_zero, Some (ErrorString "route rejected")),
       [EvLogInfo "Reconciling Service init";
        EvExposeEndpoints "cinder" (Some {[ "service" := "cinder" ]}) (endpointData "v2");
        EvExposeEndpoints "cinder" (Some {[ "service" := "cinder" ]}) (endpointData "v3")]) /\
    APIEndpoints (Status instance') =
      Some {[ "cinderv2" :=
                Some {[ "public" := "http://cinder-public-openstack.apps";
                        "internal" := "http://cinder-internal.openstack.svc:8776" ]} ]} /\
    ServiceIDs (Status instance') = None.
Proof.
  destruct (reconcileInit_V3_exposure_aborts
              (Faulty.world Faulty.exposeFailsV3 (Fixture.healthy Fixture.plain))
              Fixture.plain (Fixture.helperFor Fixture.plain)
              (Some {[ "service" := "cinder" ]}) []
              (Some {[ "public" := "http://cinder-public-openstack.apps";
                       "internal" := "http://cinder-internal.openstack.svc:8776" ]})
              None Result_zero (Some (ErrorString "route rejected")))
    as (instance' & Hrun & Heps & Hids);
    [reflexivity|reflexivity|by left|].
  exists instance'. split; [exact Hrun|]. split; [|exact Hids].
  rewrite Heps. vm_compute. reflexivity.
Defined.

Lemma reconcileNormal_missing_parent_config_maps_witness :
  exists instance' res err,
    fst (reconcileNormal
           (Faulty.world Faulty.parentNotReady (Fixture.healthy Fixture.plain))
           Fixture.plain (Fixture.helperFor Fixture.plain) [])
      = (instance', (res, Some err)) /\
    RequeueAfter res = 10 * Second /\
    ErrorMessage err = "Could not find all config maps for parent Cinder CR cinder".
Proof.
  pose proof (reconcileNormal_missing_parent_config_maps
                (Faulty.world Faulty.parentNotReady (Fixture.healthy Fixture.plain))
                Fixture.plain (Fixture.helperFor Fixture.plain) []
                "osp-secret" "n5d8h64bh5c7"
                (<["cinder-api-config-data" := "n67fh5b4h"]>
                   {[ "osp-secret" := "n5d8h64bh5c7" ]})
                None
                (<["cinder-api-config-data" := "n67fh5b4h"]>
                   {[ "osp-secret" := "n5d8h64bh5c7" ]})
                (Fixture.NotFound "cinder-scripts")) as Hrun.
  cbn zeta in Hrun. rewrite Hrun; [|reflexivity..].
  do 3 eexists. split; [reflexivity|]. split; reflexivity.
Defined.

Lemma Reconcile_pass_footprint_witness :
  exists evs,
    snd (Reconcile (Fixture.world (Fixture.healthy Fixture.deleting))
           Fixture.request []) = evs /\
    Forall (fun ev => passEvent true ev = true) evs /\
    registrations evs = [] /\ secretFetches evs = [] /\ statusUpdates evs = [].
Proof.
  destruct (Reconcile_pass_footprint
              (Fixture.world (Fixture.healthy Fixture.deleting))
              Fixture.request [] Fixture.deleting eq_refl)
    as (evs & Htr & Hall & _ & Hdelete).
  exists evs. split; [exact Htr|]. split; [exact Hall|]. by apply Hdelete.
Defined.



Lemma configMapFn_requests_witness :
  fst (configMapFn Faulty.GetOwnerNameLabelSelector Faulty.Client_List
         (Faulty.parentConfigMap (Some {[ "cinder.openstack.org/name" := "cinder" ]})))
    = Some [ {| Req_Namespace := "openstack"; Req_Name := "cinder-api" |};
             {| Req_Namespace := "openstack"; Req_Name := "cinder-api-2" |} ] /\
  fst (configMapFn Faulty.GetOwnerNameLabelSelector Faulty.Client_List
         (Faulty.parentConfigMap (Some {[ "cinder.openstack.org/name" := "glance" ]})))
    = None /\
  fst (configMapFn Faulty.GetOwnerNameLabelSelector Faulty.Client_List
         (Faulty.parentConfigMap None))
    = None.
Proof.
  split; [|split].
  - rewrite (configMapFn_requests Faulty.GetOwnerNameLabelSelector Faulty.Client_List
               (Faulty.parentConfigMap
                  (Some {[ "cinder.openstack.org/name" := "cinder" ]}))
               [Fixture.plain; Faulty.second] eq_refl).
    vm_compute. reflexivity.
  - rewrite (configMapFn_requests Faulty.GetOwnerNameLabelSelector Faulty.Client_List
               (Faulty.parentConfigMap
                  (Some {[ "cinder.openstack.org/name" := "glance" ]}))
               [Fixture.plain; Faulty.second] eq_refl).
    vm_compute. reflexivity.
  - rewrite (configMapFn_requests Faulty.GetOwnerNameLabelSelector Faulty.Client_List
               (Faulty.parentConfigMap None)
               [Fixture.plain; Faulty.second] eq_refl).
    vm_compute. reflexivity.
Defined.

End CoverageRuns.
